(** * oxhook: a shallow embedding of the webhook dispatch core

    The development follows the Python sources module by module:
    [registry.py], [signals.py], [api/services.py], [api/controllers.py],
    [api/schemas.py] and [management/commands/populate_webhook_topics.py].
    Python code that reads or writes the database, the task queue, the
    console, the clock or the system entropy pool is written in a state and
    exception monad over one record, [world]. *)

From Stdlib Require Import ZArith NArith Floats Uint63 Strings.Byte Ascii String List.
From stdpp Require Import gmap strings list pretty.

Open Scope string_scope.
Open Scope Z_scope.

(** ** Python values *)

(** [uuid.UUID], kept in its canonical textual form (what [str(u)] returns). *)
Inductive UUID := mkUUID (canonical : string).

Definition uuid_str (u : UUID) : string := match u with mkUUID s => s end.

(** The values that travel as event data and payload bodies. *)
#[warnings="-register-all"]
Inductive pyval :=
| VNone
| VBool (b : bool)
| VInt (n : Z)
| VFloat (x : float)
| VStr (s : string)
| VList (xs : list pyval)
| VDict (items : list (string * pyval)).

(** The exceptions the sources raise or let through ([exceptions.py] is not
    among the sources; its two classes carry a message). Every one of them
    derives from Python's [Exception]. *)
Inductive exn :=
| TopicNotFound (msg : string)
| InvalidPayloadType (msg : string)
| ValidationError (msg : string)
| DoesNotExist
| Http404
| TypeError (msg : string)
| ValueError (msg : string)
| KeyError (key : string)
| OperationalError (msg : string)
| MultipleObjectsReturned.

Inductive result (A : Type) :=
| Ok (a : A)
| Raise (e : exn).
Arguments Ok {A} a.
Arguments Raise {A} e.

Definition is_ok {A} (r : result A) : bool :=
  match r with Ok _ => true | Raise _ => false end.

(** [d[key]] and [d.get(key)] on a dict given by its items. *)
Fixpoint dict_get (key : string) (items : list (string * pyval)) : option pyval :=
  match items with
  | [] => None
  | (k, v) :: rest => if String.eqb k key then Some v else dict_get key rest
  end.

Definition getitem (v : pyval) (key : string) : result pyval :=
  match v with
  | VDict items =>
      match dict_get key items with
      | Some x => Ok x
      | None => Raise (KeyError key)
      end
  | _ => Raise (TypeError "object is not subscriptable")
  end.

(** [isinstance(v, (str, dict))] and [v is None]. *)
Definition isinstance_str_dict (v : pyval) : bool :=
  match v with VStr _ | VDict _ => true | _ => false end.

Definition is_None (v : pyval) : bool :=
  match v with VNone => true | _ => false end.

(** ** JSON encoding

    [json.dumps(obj, cls=C)] is [C().encode(obj)]: an encoder class is modelled
    by its encoding function, which may raise. *)
Definition encoder := pyval -> result string.

Definition json_dumps (obj : pyval) (cls : encoder) : result string := cls obj.

Module json.

Definition dquote : string := String "034"%char EmptyString.
Definition backslash : string := String "092"%char EmptyString.

Definition hex_digit (n : N) : ascii :=
  if (n <? 10)%N then ascii_of_N (48 + n) else ascii_of_N (87 + n).

Definition escape_char (c : ascii) : string :=
  let n := N_of_ascii c in
  if (n =? 34)%N then backslash +:+ dquote
  else if (n =? 92)%N then backslash +:+ backslash
  else if (n =? 10)%N then backslash +:+ "n"
  else if (n =? 13)%N then backslash +:+ "r"
  else if (n =? 9)%N then backslash +:+ "t"
  else if (n =? 8)%N then backslash +:+ "b"
  else if (n =? 12)%N then backslash +:+ "f"
  else if (n <? 32)%N then
    backslash +:+ "u00" +:+
      String (hex_digit (n / 16)) (String (hex_digit (n mod 16)) EmptyString)
  else String c EmptyString.

Fixpoint escape (s : string) : string :=
  match s with
  | EmptyString => EmptyString
  | String c rest => escape_char c +:+ escape rest
  end.

Definition quoted (s : string) : string := dquote +:+ escape s +:+ dquote.

Definition join (sep : string) (parts : list string) : string :=
  match parts with
  | [] => ""
  | p :: ps => fold_left (fun acc q => acc +:+ sep +:+ q) ps p
  end.

Section Encode.
(** [float.__repr__], the shortest decimal that reads back as the float, is
    left to the interpreter. *)
Variable float_repr : float -> string.

(** The default encoder with its default separators [", "] and [": "], on
    ASCII text. *)
Fixpoint encode (v : pyval) : string :=
  match v with
  | VNone => "null"
  | VBool true => "true"
  | VBool false => "false"
  | VInt n => pretty n
  | VFloat x => float_repr x
  | VStr s => quoted s
  | VList xs => "[" +:+ join ", " (List.map encode xs) +:+ "]"
  | VDict items =>
      "{" +:+
      join ", " (List.map (fun kv => quoted (fst kv) +:+ ": " +:+ encode (snd kv)) items)
      +:+ "}"
  end.

(** [json.JSONEncoder], the default encoder class. *)
Definition JSONEncoder : encoder := fun v => Ok (encode v).
End Encode.

End json.

(** ** The store, the process state and the outside world *)

(** Modelled from the spec: [models.py] is not among the sources. A webhook has
    an opaque id, a public identifier, a destination URL, an active flag and a
    set of subscribed topics (kept here by topic name). *)
Record Webhook := mkWebhook {
  wh_id : Z;
  wh_uuid : UUID;
  wh_url : string;
  wh_active : bool;
  wh_topics : list string
}.

(** Modelled from the spec: one row of the secrets table, [webhook] being the
    foreign key to [Webhook.id]. *)
Record WebhookSecret := mkWebhookSecret {
  sec_id : Z;
  sec_webhook : Z;
  sec_token : string
}.

(** Modelled from the spec: one row of the event log. [status] is one of
    ['PENDING'], ['SUCCESS'], ['FAILURE']; [created] is in microseconds since
    the epoch; [webhook] is a nullable foreign key. *)
Record WebhookEvent := mkWebhookEvent {
  ev_id : Z;
  ev_webhook : option Z;
  ev_topic : string;
  ev_object : pyval;
  ev_status : string;
  ev_created : Z
}.

(** What [for id, uuid in webhook_ids] binds [id] and [uuid] to. *)
Inductive key :=
| KInt (n : Z)
| KUuid (u : UUID)
| KStr (s : string).

Definition str (k : key) : string :=
  match k with
  | KInt n => pretty n
  | KUuid u => uuid_str u
  | KStr s => s
  end.

(** The [webhook_id] argument of the dispatcher: [UUID | str]. *)
Inductive webhook_id_arg :=
| ArgUuid (u : UUID)
| ArgStr (s : string).

(** The elements of [webhook_ids]: a row of [values_list("id", "uuid")] or the
    caller's [webhook_id], as it was given. *)
Inductive webhook_ref :=
| Row (id : Z) (uuid : UUID)
| Given (a : webhook_id_arg).

(** One call [task_fire_webhook.delay(id, payload, topic=topic)]. *)
Record Job := mkJob {
  job_id : key;
  job_payload : string;
  job_topic : string
}.

(** A topic handler: a function of the raw event data that may raise. *)
Definition handler := pyval -> result pyval.

(** Modelled from the spec: [settings.py] is not among the sources.
    [get_settings()] returns the process-wide configuration; these are the
    keys the sources read. *)
Record Settings := mkSettings {
  MODE : string;
  USE_CACHE : bool;
  PAYLOAD_ENCODER_CLASS : encoder;
  EVENTS_RETENTION_DAYS : Z
}.

Record world := mkWorld {
  TOPIC_REGISTRY : gmap string handler;
  wh_settings : Settings;
  webhooks : list Webhook;           (* Webhook.objects, in primary key order *)
  topics : list string;              (* WebhookTopic.objects: the name column *)
  secrets : list WebhookSecret;      (* WebhookSecret.objects, in primary key order *)
  events : list WebhookEvent;        (* WebhookEvent.objects *)
  next_pk : Z;                       (* the next primary key the store hands out *)
  clock : Z;                         (* timezone.now(), microseconds since the epoch *)
  query_cache : gmap string (Z * list webhook_ref);
  queue : list Job;                  (* jobs handed to the task queue, oldest first *)
  console : list pyval;              (* the payload_dict of every console print *)
  entropy : nat -> Byte.byte;        (* the bytes os.urandom will return *)
  cursor : nat                       (* how many of them were consumed *)
}.

(** ** The state and exception monad *)

Definition M (A : Type) : Type := world -> world * result A.

Definition ret {A} (a : A) : M A := fun w => (w, Ok a).

Definition raise {A} (e : exn) : M A := fun w => (w, Raise e).

Definition bind {A B} (m : M A) (k : A -> M B) : M B :=
  fun w =>
    match m w with
    | (w', Ok a) => k a w'
    | (w', Raise e) => (w', Raise e)
    end.

Notation "'let!' x ':=' m 'in' k" := (bind m (fun x => k))
  (at level 10, x pattern, m at level 200, k at level 200).

(** [try: m  except Exception as e: h(e)]. *)
Definition try_except {A} (m : M A) (h : exn -> M A) : M A :=
  fun w =>
    match m w with
    | (w', Ok a) => (w', Ok a)
    | (w', Raise e) => h e w'
    end.

Definition lift {A} (r : result A) : M A := fun w => (w, r).

Definition gets {A} (f : world -> A) : M A := fun w => (w, Ok (f w)).

Definition modify (f : world -> world) : M unit := fun w => (f w, Ok tt).

(** [for x in xs: body(x)]: the first exception ends the loop; what the earlier
    iterations did stays done. *)
Fixpoint for_each {A} (xs : list A) (body : A -> M unit) : M unit :=
  match xs with
  | [] => ret tt
  | x :: rest => let! _ := body x in for_each rest body
  end.

(** Field updates of [world]. *)
Definition set_queue (q : list Job) (w : world) : world :=
  mkWorld (TOPIC_REGISTRY w) (wh_settings w) (webhooks w) (topics w) (secrets w)
    (events w) (next_pk w) (clock w) (query_cache w) q (console w) (entropy w) (cursor w).

Definition set_console (c : list pyval) (w : world) : world :=
  mkWorld (TOPIC_REGISTRY w) (wh_settings w) (webhooks w) (topics w) (secrets w)
    (events w) (next_pk w) (clock w) (query_cache w) (queue w) c (entropy w) (cursor w).

Definition set_query_cache (c : gmap string (Z * list webhook_ref)) (w : world) : world :=
  mkWorld (TOPIC_REGISTRY w) (wh_settings w) (webhooks w) (topics w) (secrets w)
    (events w) (next_pk w) (clock w) c (queue w) (console w) (entropy w) (cursor w).

Definition set_registry (r : gmap string handler) (w : world) : world :=
  mkWorld r (wh_settings w) (webhooks w) (topics w) (secrets w)
    (events w) (next_pk w) (clock w) (query_cache w) (queue w) (console w) (entropy w) (cursor w).

Definition set_webhooks (l : list Webhook) (w : world) : world :=
  mkWorld (TOPIC_REGISTRY w) (wh_settings w) l (topics w) (secrets w)
    (events w) (next_pk w) (clock w) (query_cache w) (queue w) (console w) (entropy w) (cursor w).

Definition set_topics (l : list string) (w : world) : world :=
  mkWorld (TOPIC_REGISTRY w) (wh_settings w) (webhooks w) l (secrets w)
    (events w) (next_pk w) (clock w) (query_cache w) (queue w) (console w) (entropy w) (cursor w).

Definition set_secrets (l : list WebhookSecret) (w : world) : world :=
  mkWorld (TOPIC_REGISTRY w) (wh_settings w) (webhooks w) (topics w) l
    (events w) (next_pk w) (clock w) (query_cache w) (queue w) (console w) (entropy w) (cursor w).

Definition set_next_pk (n : Z) (w : world) : world :=
  mkWorld (TOPIC_REGISTRY w) (wh_settings w) (webhooks w) (topics w) (secrets w)
    (events w) n (clock w) (query_cache w) (queue w) (console w) (entropy w) (cursor w).

Definition set_cursor (n : nat) (w : world) : world :=
  mkWorld (TOPIC_REGISTRY w) (wh_settings w) (webhooks w) (topics w) (secrets w)
    (events w) (next_pk w) (clock w) (query_cache w) (queue w) (console w) (entropy w) n.

(** ** registry.py *)

(** [@register_topic(topic)] applied to [func]: [TOPIC_REGISTRY[topic] = func]. *)
Definition register_topic (topic : string) (func : handler) : M unit :=
  modify (fun w => set_registry (<[topic := func]> (TOPIC_REGISTRY w)) w).

Definition get_handler (topic : string) : M handler :=
  let! func := gets (fun w => TOPIC_REGISTRY w !! topic) in
  match func with
  | None => raise (TopicNotFound ("Topic '" +:+ topic +:+ "' doesn't exist."))
  | Some f => ret f
  end.

(** ** signals.py *)

Definition get_settings : M Settings := gets wh_settings.

(** [timezone.now()]. *)
Definition timezone_now : M Z := gets clock.

(** [datetime.timestamp()]: the microseconds since the epoch divided by [10**6],
    as a float. The conversion of the integer is exact below [2**53]
    microseconds. *)
Definition float_of_Z (z : Z) : float := PrimFloat.of_uint63 (Uint63.of_Z z).

Definition timestamp (t : Z) : float :=
  (float_of_Z t / float_of_Z 1000000)%float.

Definition _query_webhooks (topic : string) : M (list webhook_ref) :=
  gets (fun w =>
    List.map (fun h => Row (wh_id h) (wh_uuid h))
      (List.filter (fun h => wh_active h && bool_decide (topic ∈ wh_topics h))
         (webhooks w))).

(** [timedelta(minutes=n)], in microseconds. *)
Definition timedelta_minutes (n : Z) : Z := n * 60 * 1000000.

(** Modelled from the spec: the [cache] decorator of [util.py] is not among the
    sources. An entry is keyed by the topic name and lives for the TTL; a miss
    asks the decorated function and fills the entry, a hit returns the stored
    sequence without calling the function. *)
Definition cache (ttl : Z) (f : string -> M (list webhook_ref)) (topic : string)
    : M (list webhook_ref) :=
  let! now := timezone_now in
  let! entry := gets (fun w => (query_cache w !! topic : option (Z * list webhook_ref))) in
  match entry with
  | Some (expires, rows) =>
      if now <? expires then ret rows
      else
        let! rows := f topic in
        let! _ := modify (fun w =>
          set_query_cache (<[topic := (now + ttl, rows)]> (query_cache w)) w) in
        ret rows
  | None =>
      let! rows := f topic in
      let! _ := modify (fun w =>
        set_query_cache (<[topic := (now + ttl, rows)]> (query_cache w)) w) in
      ret rows
  end.

Definition _query_webhooks_cached : string -> M (list webhook_ref) :=
  cache (timedelta_minutes 1) (fun topic => _query_webhooks topic).

Definition _find_webhooks (topic : string) : M (list webhook_ref) :=
  let! s := get_settings in
  if USE_CACHE s then _query_webhooks_cached topic else _query_webhooks topic.

(** The tuple unpacking of [for id, uuid in webhook_ids]: a row gives its two
    columns; a [UUID] is not iterable; a [str] is iterated character by
    character and must have exactly two. *)
Definition unpack2 (x : webhook_ref) : result (key * key) :=
  match x with
  | Row id uuid => Ok (KInt id, KUuid uuid)
  | Given (ArgUuid _) => Raise (TypeError "cannot unpack non-iterable UUID object")
  | Given (ArgStr s) =>
      match s with
      | String c1 (String c2 EmptyString) =>
          Ok (KStr (String c1 EmptyString), KStr (String c2 EmptyString))
      | String _ (String _ (String _ _)) =>
          Raise (ValueError "too many values to unpack (expected 2)")
      | _ => Raise (ValueError "not enough values to unpack (expected 2)")
      end
  end.

(** Modelled from the spec: [tasks.py] is not among the sources.
    [task_fire_webhook.delay(id, payload, topic=topic)] enqueues one job and
    does not wait for it. A broker that refuses the job is not modelled: a
    statement about this definition says what happens when the queue takes
    the job. *)
Definition task_fire_webhook_delay (id : key) (payload topic : string) : M unit :=
  modify (fun w => set_queue (queue w ++ [mkJob id payload topic]) w).

(** The console branch: only the printed [payload_dict] is kept. The eight
    [print] calls and the [json.dumps] of the record with the default encoder
    are one step that does not fail. *)
Definition print_console (payload_dict : pyval) : M unit :=
  modify (fun w => set_console (console w ++ [payload_dict]) w).

Definition make_payload_dict (payload_body : pyval) (topic : string) (now : Z) (uuid : key) : pyval :=
  VDict [ ("object", payload_body);
          ("topic", VStr topic);
          ("timestamp", VFloat (timestamp now));
          ("webhook_uuid", VStr (str uuid)) ].

Definition handle_fire_webhook (topic : string) (data : pyval)
    (webhook_id : option webhook_id_arg) : M unit :=
  let! wh_settings := get_settings in
  let! handler := get_handler topic in
  let! payload_body := lift (handler data) in
  if negb (isinstance_str_dict payload_body) && negb (is_None payload_body) then
    raise (InvalidPayloadType "Payload must be a string/dict/None.")
  else
    let! webhook_ids :=
      match webhook_id with
      | Some a => ret [Given a]
      | None => _find_webhooks topic
      end in
    for_each webhook_ids (fun x =>
      let! (id, uuid) := lift (unpack2 x) in
      let! now := timezone_now in
      let payload_dict := make_payload_dict payload_body topic now uuid in
      let! payload := lift (json_dumps payload_body (PAYLOAD_ENCODER_CLASS wh_settings)) in
      if String.eqb (MODE wh_settings) "LIVE" then
        task_fire_webhook_delay id payload topic
      else
        print_console payload_dict).

(** ** django.dispatch.Signal

    [fire_webhook = Signal()] has one receiver, connected by the [@receiver]
    decorator. [send] lets a receiver's exception through; [send_robust]
    catches every [Exception] a receiver raises and returns it in the
    receiver's place in the list of responses. *)
Module Signal.

Definition receiver := string -> pyval -> option webhook_id_arg -> M unit.

Fixpoint send (receivers : list receiver) (topic : string) (data : pyval)
    (webhook_id : option webhook_id_arg) : M (list (result unit)) :=
  match receivers with
  | [] => ret []
  | r :: rest =>
      let! response := r topic data webhook_id in
      let! responses := send rest topic data webhook_id in
      ret (Ok response :: responses)
  end.

Fixpoint send_robust (receivers : list receiver) (topic : string) (data : pyval)
    (webhook_id : option webhook_id_arg) : M (list (result unit)) :=
  match receivers with
  | [] => ret []
  | r :: rest =>
      let! response :=
        try_except (let! x := r topic data webhook_id in ret (Ok x))
                   (fun err => ret (Raise err)) in
      let! responses := send_robust rest topic data webhook_id in
      ret (response :: responses)
  end.

End Signal.

Definition fire_webhook : list Signal.receiver := [handle_fire_webhook].

(** ** api/services.py *)

(** [Model.objects.get(...)] over the rows that match. *)
Definition objects_get {A} (rows : list A) : result A :=
  match rows with
  | [] => Raise DoesNotExist
  | [x] => Ok x
  | _ => Raise MultipleObjectsReturned
  end.

(** [get_object_or_404(Model, ...)]. *)
Definition get_object_or_404 {A} (rows : list A) : result A :=
  match objects_get rows with
  | Raise DoesNotExist => Raise Http404
  | r => r
  end.

Definition uuid_eqb (a b : UUID) : bool := String.eqb (uuid_str a) (uuid_str b).

(** [event.webhook]: the row the foreign key points to, [None] when the key is
    null or the row is gone. *)
Definition event_webhook_of (e : WebhookEvent) (w : world) : option Webhook :=
  match ev_webhook e with
  | None => None
  | Some pk => List.find (fun h => wh_id h =? pk) (webhooks w)
  end.

Definition event_webhook (e : WebhookEvent) : M (option Webhook) :=
  gets (event_webhook_of e).

Definition microseconds_per_day : Z := 86400 * 1000000.

Record EventStats := mkEventStats {
  total : Z;
  success : Z;
  failed : Z;
  pending : Z
}.

Definition count {A} (f : A -> bool) (l : list A) : Z :=
  Z.of_nat (List.length (List.filter f l)).

Module WebhookEventService.

Definition fire_webhook_event (topic : string) (data : pyval)
    (webhook_id : option UUID) : M unit :=
  try_except
    (let! _ := get_handler topic in
     let! _ := Signal.send_robust fire_webhook topic data
                 (option_map ArgUuid webhook_id) in
     ret tt)
    (fun e =>
       match e with
       | TopicNotFound _ => raise (ValidationError ("Invalid topic: " +:+ topic))
       | _ => raise e
       end).

(** [webhook.events.filter(created__gte=cutoff_date)]. *)
Definition events_since (webhook : Webhook) (cutoff_date : Z) (w : world) : list WebhookEvent :=
  List.filter
    (fun e => match ev_webhook e with
              | Some pk => (pk =? wh_id webhook) && (cutoff_date <=? ev_created e)
              | None => false
              end)
    (events w).

Definition get_event_stats (webhook : Webhook) (days : Z) : M EventStats :=
  let! now := timezone_now in
  let cutoff_date := now - days * microseconds_per_day in
  let! evs := gets (events_since webhook cutoff_date) in
  ret {| total := Z.of_nat (List.length evs);
         success := count (fun e => String.eqb (ev_status e) "SUCCESS") evs;
         failed := count (fun e => String.eqb (ev_status e) "FAILURE") evs;
         pending := count (fun e => String.eqb (ev_status e) "PENDING") evs |}.

Definition retry_failed_event (event_id : Z) : M bool :=
  try_except
    (let! evs := gets events in
     let! event := lift (objects_get (List.filter (fun e => ev_id e =? event_id) evs)) in
     if negb (String.eqb (ev_status event) "FAILURE") then
       raise (ValidationError "Only failed events can be retried")
     else
       let! webhook := event_webhook event in
       match webhook with
       | None => raise (ValidationError "Webhook is not active")
       | Some h =>
           if negb (wh_active h) then raise (ValidationError "Webhook is not active")
           else
             let! _ := fire_webhook_event (ev_topic event) (ev_object event)
                         (Some (wh_uuid h)) in
             ret true
       end)
    (fun e =>
       match e with
       | DoesNotExist => raise (ValidationError "Event not found")
       | _ => raise e
       end).

End WebhookEventService.

(** *** The [secrets] and [base64] modules of the Python library *)

(** [os.urandom(n)]: the next [n] bytes of the entropy pool. *)
Definition os_urandom (n : Z) : M (list Byte.byte) :=
  if n <? 0 then raise (ValueError "negative argument not allowed")
  else
    fun w =>
      let k := Z.to_nat n in
      (set_cursor (cursor w + k)%nat w,
       Ok (List.map (entropy w) (List.seq (cursor w) k))).

Module base64.

Definition urlsafe_alphabet : list ascii :=
  list_ascii_of_string
    "ABCDEFGHIJKLMNOPQRSTUVWXYZabcdefghijklmnopqrstuvwxyz0123456789-_".

Definition pad : ascii := "="%char.

(** The character of a six-bit group. *)
Definition sextet (i : N) : ascii := List.nth (N.to_nat i) urlsafe_alphabet "A"%char.

(** [base64.urlsafe_b64encode]: three bytes give four characters; a last
    group of one or two bytes is padded with ['=']. *)
Fixpoint urlsafe_b64encode (bs : list Byte.byte) : list ascii :=
  match bs with
  | [] => []
  | [a] =>
      let x := Byte.to_N a in
      [ sextet (N.shiftr x 2); sextet (N.shiftl (N.land x 3) 4); pad; pad ]
  | [a; b] =>
      let x := Byte.to_N a in
      let y := Byte.to_N b in
      [ sextet (N.shiftr x 2);
        sextet (N.lor (N.shiftl (N.land x 3) 4) (N.shiftr y 4));
        sextet (N.shiftl (N.land y 15) 2);
        pad ]
  | a :: b :: c :: rest =>
      let x := Byte.to_N a in
      let y := Byte.to_N b in
      let z := Byte.to_N c in
      sextet (N.shiftr x 2)
      :: sextet (N.lor (N.shiftl (N.land x 3) 4) (N.shiftr y 4))
      :: sextet (N.lor (N.shiftl (N.land y 15) 2) (N.shiftr z 6))
      :: sextet (N.land z 63)
      :: urlsafe_b64encode rest
  end.

(** [bytes.rstrip(b'=')]. *)
Definition rstrip_pad (l : list ascii) : list ascii :=
  List.fold_right
    (fun c acc =>
       match acc with
       | [] => if Ascii.eqb c pad then [] else [c]
       | _ => c :: acc
       end)
    [] l.

End base64.

(** [str.isascii()]: every character of the text is below 128. *)
Definition isascii (s : string) : bool :=
  forallb (fun c => (N_of_ascii c <? 128)%N) (list_ascii_of_string s).

Module secrets_.

(** [secrets.token_urlsafe(nbytes)]. *)
Definition token_urlsafe (nbytes : Z) : M string :=
  let! tok := os_urandom nbytes in
  ret (string_of_list_ascii (base64.rstrip_pad (base64.urlsafe_b64encode tok))).

(** [secrets.compare_digest(a, b)] on two [str]: equality, in time
    independent of the contents; a [str] with a non-ASCII character is
    refused with [TypeError]. *)
Definition compare_digest (a b : string) : result bool :=
  if isascii a && isascii b then Ok (String.eqb a b)
  else Raise (TypeError "comparing strings with non-ASCII characters is not supported").

End secrets_.

(** [Model.objects.create(...)] takes the next primary key of the store. *)
Definition fresh_pk : M Z :=
  fun w => (set_next_pk (next_pk w + 1) w, Ok (next_pk w)).

Module WebhookSecretService.

(** [webhook.secrets.all()]. *)
Definition secrets_of (webhook : Webhook) (w : world) : list WebhookSecret :=
  List.filter (fun s => sec_webhook s =? wh_id webhook) (secrets w).

Definition generate_secret (webhook : Webhook) (length : Z) : M WebhookSecret :=
  let! token := secrets_.token_urlsafe length in
  let! _ := modify (fun w =>
    set_secrets (List.filter (fun s => negb (sec_webhook s =? wh_id webhook)) (secrets w)) w) in
  let! pk := fresh_pk in
  let secret := mkWebhookSecret pk (wh_id webhook) token in
  let! _ := modify (fun w => set_secrets (secrets w ++ [secret]) w) in
  ret secret.

Definition get_active_secret (webhook : Webhook) : M (option WebhookSecret) :=
  gets (fun w => List.head (secrets_of webhook w)).

Definition validate_secret (webhook : Webhook) (provided_token : string) : M bool :=
  let! active_secret := get_active_secret webhook in
  match active_secret with
  | None => ret false
  | Some s => lift (secrets_.compare_digest (sec_token s) provided_token)
  end.

Definition rotate_secret (webhook : Webhook) : M WebhookSecret :=
  generate_secret webhook 32.

End WebhookSecretService.

(** [uuid.uuid4()]: sixteen random bytes with the version and variant bits
    set, in the canonical 8-4-4-4-12 hexadecimal form. *)
Definition hex_byte (n : N) : list ascii :=
  [json.hex_digit (n / 16); json.hex_digit (n mod 16)].

Definition uuid4 : M UUID :=
  let! tok := os_urandom 16 in
  let ns := List.map Byte.to_N tok in
  let ns := alter (fun b => N.lor (N.land b 15) 64) 6%nat ns in
  let ns := alter (fun b => N.lor (N.land b 63) 128) 8%nat ns in
  let h := List.concat (List.map hex_byte ns) in
  let dash := ["-"%char] in
  ret (mkUUID (string_of_list_ascii
    (take 8 h ++ dash ++ take 4 (drop 8 h) ++ dash ++ take 4 (drop 12 h) ++ dash
     ++ take 4 (drop 16 h) ++ dash ++ drop 20 h))).

(** [with transaction.atomic(): m]: an exception restores the tables; the
    sequence of primary keys and everything outside the store keep what [m]
    did to them. *)
Definition rollback (before after : world) : world :=
  mkWorld (TOPIC_REGISTRY after) (wh_settings after)
    (webhooks before) (topics before) (secrets before) (events before)
    (next_pk after) (clock after) (query_cache after) (queue after) (console after)
    (entropy after) (cursor after).

Definition atomic {A} (m : M A) : M A :=
  fun w =>
    match m w with
    | (w', Ok a) => (w', Ok a)
    | (w', Raise e) => (rollback w w', Raise e)
    end.

Definition set_wh_topics (l : list string) (h : Webhook) : Webhook :=
  mkWebhook (wh_id h) (wh_uuid h) (wh_url h) (wh_active h) l.

(** [webhook.save()]: the columns of the row with the same primary key are
    overwritten; the topics are a relation and are not touched. *)
Definition save_webhook (h : Webhook) : M unit :=
  modify (fun w =>
    set_webhooks
      (List.map (fun x =>
         if wh_id x =? wh_id h
         then mkWebhook (wh_id x) (wh_uuid h) (wh_url h) (wh_active h) (wh_topics x)
         else x) (webhooks w)) w).

(** [webhook.topics.set(objs)]. *)
Definition topics_set (h : Webhook) (objs : list string) : M unit :=
  modify (fun w =>
    set_webhooks
      (List.map (fun x => if wh_id x =? wh_id h then set_wh_topics objs x else x)
         (webhooks w)) w).

(** The Python object after the writes: the row as the store has it. *)
Definition refreshed (h : Webhook) : M Webhook :=
  gets (fun w => default h (List.find (fun x => wh_id x =? wh_id h) (webhooks w))).

Module WebhookService.

(** [set(topics) - set(TOPIC_REGISTRY.keys())] is not empty. The message
    lists the sets in an unspecified order; the order of [topics] is used
    for the invalid ones and that of the registry's keys for the others. *)
Definition validate_topics (topics : list string) : M unit :=
  let! reg := gets TOPIC_REGISTRY in
  let available_topics : list string := elements (dom reg) in
  let invalid_topics := List.filter (fun t => bool_decide (t ∉ dom reg)) topics in
  match invalid_topics with
  | [] => ret tt
  | _ =>
      raise (ValidationError
        ("Invalid topics: " +:+ json.join ", " invalid_topics +:+ ". " +:+
         "Available topics: " +:+ json.join ", " available_topics))
  end.

(** [WebhookTopic.objects.filter(name__in=topics)], by name. *)
Definition topic_objects (names : list string) : M (list string) :=
  gets (fun w => List.filter (fun t => bool_decide (t ∈ names)) (topics w)).

(** Modelled from the spec: [models.py] is not among the sources. A new
    webhook gets a fresh public identifier ([uuid4]), is active and has no
    topic yet. *)
Definition Webhook_objects_create (url : string) : M Webhook :=
  let! pk := fresh_pk in
  let! u := uuid4 in
  let h := mkWebhook pk u url true [] in
  let! _ := modify (fun w => set_webhooks (webhooks w ++ [h]) w) in
  ret h.

Definition create_webhook (url : string) (topics : list string) : M Webhook :=
  atomic
    (let! _ := validate_topics topics in
     let! webhook := Webhook_objects_create url in
     let! objs := topic_objects topics in
     let! _ := topics_set webhook objs in
     let! _ := WebhookSecretService.generate_secret webhook 32 in
     refreshed webhook).

Definition get_webhook (webhook_id : UUID) : M Webhook :=
  let! rows := gets (fun w => List.filter (fun h => uuid_eqb (wh_uuid h) webhook_id) (webhooks w)) in
  lift (get_object_or_404 rows).

Definition update_webhook (webhook_id : UUID) (url : option string)
    (topics : option (list string)) (active : option bool) : M Webhook :=
  let! webhook := get_webhook webhook_id in
  atomic
    (let webhook :=
       match url with
       | Some u => mkWebhook (wh_id webhook) (wh_uuid webhook) u (wh_active webhook) (wh_topics webhook)
       | None => webhook
       end in
     let webhook :=
       match active with
       | Some a => mkWebhook (wh_id webhook) (wh_uuid webhook) (wh_url webhook) a (wh_topics webhook)
       | None => webhook
       end in
     let! _ :=
       match topics with
       | Some ts =>
           let! _ := validate_topics ts in
           let! objs := topic_objects ts in
           topics_set webhook objs
       | None => ret tt
       end in
     let! _ := save_webhook webhook in
     refreshed webhook).

(** [webhook.delete()]: the row goes; a row of another table that points to
    it finds it missing from then on. *)
Definition delete_webhook (webhook_id : UUID) : M bool :=
  let! webhook := get_webhook webhook_id in
  let! _ := modify (fun w =>
    set_webhooks (List.filter (fun h => negb (wh_id h =? wh_id webhook)) (webhooks w)) w) in
  ret true.

End WebhookService.

(** A Python number that is an [int] or a [float]. *)
Inductive pynum :=
| PInt (n : Z)
| PFloat (x : float).

(** [x >= n] for an integer literal [n]. *)
Definition pynum_ge (x : pynum) (n : Z) : bool :=
  match x with
  | PInt m => n <=? m
  | PFloat f => PrimFloat.leb (float_of_Z n) f
  end.

Record WebhookHealth := mkWebhookHealth {
  health_webhook_id : string;
  health_url : string;
  health_active : bool;
  health_status : string;
  health_success_rate : pynum;
  events_last_7_days : EventStats;
  last_event : option Z
}.

Section Health.

(** The built-in [round(x, 2)] on a float; [round] of an [int] to a positive
    number of digits is the [int] itself. *)
Variable round2 : float -> float.

Definition round_2 (x : pynum) : pynum :=
  match x with
  | PInt n => PInt n
  | PFloat f => PFloat (round2 f)
  end.

(** [(success / total) * 100]: the true division of two [int]s, then a float
    product. The conversion of the counts is exact below [2**53]. *)
Definition success_rate_of (stats : EventStats) : pynum :=
  if 0 <? total stats then
    PFloat ((float_of_Z (success stats) / float_of_Z (total stats)) * float_of_Z 100)%float
  else PInt 0.

Definition health_status_of (success_rate : pynum) : string :=
  if pynum_ge success_rate 95 then "healthy"
  else if pynum_ge success_rate 80 then "warning"
  else "unhealthy".

(** [webhook.events.first()], the model's default ordering being unknown:
    the first row of the table that belongs to the webhook. *)
Definition first_event (webhook : Webhook) (w : world) : option WebhookEvent :=
  List.find
    (fun e => match ev_webhook e with Some pk => pk =? wh_id webhook | None => false end)
    (events w).

Definition get_webhook_health (webhook : Webhook) : M WebhookHealth :=
  let! stats := WebhookEventService.get_event_stats webhook 7 in
  let success_rate := success_rate_of stats in
  let health_status := health_status_of success_rate in
  let! last := gets (first_event webhook) in
  ret {| health_webhook_id := uuid_str (wh_uuid webhook);
         health_url := wh_url webhook;
         health_active := wh_active webhook;
         health_status := health_status;
         health_success_rate := round_2 success_rate;
         events_last_7_days := stats;
         last_event := option_map ev_created last |}.

End Health.

(** ** api/schemas.py and api/controllers.py *)

(** [WebhookSecretGenerateSchema]: [length: int = Field(32, ge=16, le=64)].
    The request body may leave the field out. *)
Definition WebhookSecretGenerateSchema (length : option Z) : result Z :=
  match length with
  | None => Ok 32
  | Some n =>
      if n <? 16 then Raise (ValidationError "Input should be greater than or equal to 16")
      else if 64 <? n then Raise (ValidationError "Input should be less than or equal to 64")
      else Ok n
  end.

Record WebhookOperationResponseSchema := mkResponse {
  resp_success : bool;
  resp_message : string;
  resp_webhook_id : option UUID
}.

Record WebhookUpdateSchema := mkUpdate {
  upd_url : option string;
  upd_topics : option (list string);
  upd_active : option bool
}.

Record WebhookCreateSchema := mkCreate {
  new_url : string;
  new_topics : list string
}.

Module WebhookSecretController.

(** The endpoint validates the body against the schema before the service
    is called. *)
Definition generate_webhook_secret (webhook_id : UUID) (length : option Z) : M WebhookSecret :=
  let! n := lift (WebhookSecretGenerateSchema length) in
  let! webhook := WebhookService.get_webhook webhook_id in
  WebhookSecretService.generate_secret webhook n.

Definition rotate_webhook_secret (webhook_id : UUID) : M WebhookSecret :=
  let! webhook := WebhookService.get_webhook webhook_id in
  WebhookSecretService.rotate_secret webhook.

End WebhookSecretController.

Module WebhookBulkController.

Fixpoint bulk_create_loop (items : list WebhookCreateSchema)
    (created_webhooks : list Webhook) : M (list Webhook) :=
  match items with
  | [] => ret created_webhooks
  | webhook_data :: rest =>
      let! r :=
        try_except
          (let! webhook := WebhookService.create_webhook
                             (new_url webhook_data) (new_topics webhook_data) in
           ret (Some webhook))
          (fun _ => ret None) in
      match r with
      | Some webhook => bulk_create_loop rest (created_webhooks ++ [webhook])
      | None => bulk_create_loop rest created_webhooks
      end
  end.

Definition bulk_create_webhooks (payload : list WebhookCreateSchema) : M (list Webhook) :=
  bulk_create_loop payload [].

(** The loop shared by the update and the delete endpoints: one
    [try]/[except Exception] per item and two counters. *)
Fixpoint counting_loop {A B} (op : A -> M B) (items : list A)
    (done_count failed_count : Z) : M (Z * Z) :=
  match items with
  | [] => ret (done_count, failed_count)
  | x :: rest =>
      let! ok := try_except (let! _ := op x in ret true) (fun _ => ret false) in
      if (ok : bool) then counting_loop op rest (done_count + 1) failed_count
      else counting_loop op rest done_count (failed_count + 1)
  end.

Definition bulk_update_webhooks (webhook_ids : list UUID) (updates : WebhookUpdateSchema)
    : M WebhookOperationResponseSchema :=
  let! (updated_count, failed_count) :=
    counting_loop
      (fun webhook_id =>
         WebhookService.update_webhook webhook_id
           (upd_url updates) (upd_topics updates) (upd_active updates))
      webhook_ids 0 0 in
  ret {| resp_success := failed_count =? 0;
         resp_message := "Updated " +:+ pretty updated_count +:+ " webhooks, "
                         +:+ pretty failed_count +:+ " failed";
         resp_webhook_id := None |}.

Definition bulk_delete_webhooks (webhook_ids : list UUID)
    : M WebhookOperationResponseSchema :=
  let! (deleted_count, failed_count) :=
    counting_loop WebhookService.delete_webhook webhook_ids 0 0 in
  ret {| resp_success := failed_count =? 0;
         resp_message := "Deleted " +:+ pretty deleted_count +:+ " webhooks, "
                         +:+ pretty failed_count +:+ " failed";
         resp_webhook_id := None |}.

End WebhookBulkController.

(** ** management/commands/populate_webhook_topics.py *)

Module Command.

(** [needle in haystack] on strings. *)
Fixpoint contains (needle haystack : string) : bool :=
  if String.prefix needle haystack then true
  else
    match haystack with
    | EmptyString => false
    | String _ rest => contains needle rest
    end.

(** [WebhookTopic.objects.exclude(name__in=allowed_topics)]. *)
Definition obsolete (allowed_topics : gset string) (w : world) : list string :=
  List.filter (fun t => bool_decide (t ∉ allowed_topics)) (topics w).

(** [....exclude(name__in=allowed_topics).delete()]: the rows go, and with
    them the subscriptions to them. *)
Definition delete_obsolete (allowed_topics : gset string) : M unit :=
  modify (fun w =>
    set_webhooks
      (List.map (fun h =>
         set_wh_topics
           (List.filter (fun t => bool_decide (t ∉ obsolete allowed_topics w)) (wh_topics h)) h)
         (webhooks w))
      (set_topics (List.filter (fun t => bool_decide (t ∈ allowed_topics)) (topics w)) w)).

(** The loop [for topic in allowed_topics], with its counter. *)
Fixpoint add_new (allowed_topics : list string) (created_count : Z) : M Z :=
  match allowed_topics with
  | [] => ret created_count
  | topic :: rest =>
      let! present := gets (fun w => bool_decide (topic ∈ topics w)) in
      if (present : bool) then add_new rest created_count
      else
        let! _ := modify (fun w => set_topics (topics w ++ [topic]) w) in
        add_new rest (created_count + 1)
  end.

(** [handle]: [db_error] is the message of the [OperationalError] or
    [ProgrammingError] that the probing [count()] raised, if it raised one.
    The result is what was written to [stdout]. *)
Definition handle (force : bool) (db_error : option string) : M (list string) :=
  match db_error with
  | Some ex =>
      if negb force && contains "Connection refused" ex then
        ret ["Database connection refused. Use --force to override."]
      else if negb force && contains "could not translate host name" ex then
        ret ["Database host name resolution failed. Use --force to override."]
      else if negb force && contains "no such table" ex then
        ret ["Database tables not found. Run migrations first."]
      else if negb force && contains "relation" ex && contains "does not exist" ex then
        ret ["Database relations not found. Run migrations first."]
      else raise (OperationalError ex)
  | None =>
      let! reg := gets TOPIC_REGISTRY in
      let allowed_topics : gset string := dom reg in
      if bool_decide (allowed_topics = ∅) then
        ret ["No topics found in registry."]
      else
        let! deleted_count := gets (fun w => Z.of_nat (List.length (obsolete allowed_topics w))) in
        let! out1 :=
          if 0 <? deleted_count then
            let! _ := delete_obsolete allowed_topics in
            ret ["Removed " +:+ pretty deleted_count +:+ " obsolete webhook topics."]
          else ret [] in
        let! created_count := add_new (elements allowed_topics) 0 in
        let out2 :=
          if 0 <? created_count then
            ["Created " +:+ pretty created_count +:+ " new webhook topics."]
          else ["All webhook topics are up to date."] in
        let! total_topics := gets (fun w => Z.of_nat (List.length (topics w))) in
        ret (out1 ++ out2 ++ ["Total webhook topics: " +:+ pretty total_topics])%list
  end.

End Command.

(** ** The rest of api/services.py *)

Definition set_events (l : list WebhookEvent) (w : world) : world :=
  mkWorld (TOPIC_REGISTRY w) (wh_settings w) (webhooks w) (topics w) (secrets w)
    l (next_pk w) (clock w) (query_cache w) (queue w) (console w) (entropy w) (cursor w).

(** [WebhookEventService.cleanup_old_events(days)]. [days or default] takes the
    configured retention when [days] is [None] or [0]; the settings record
    holds the value that [settings.get('EVENTS_RETENTION_DAYS', 30)] returns.
    As in [get_event_stats], [timedelta] and the subtraction stay within the
    range of [datetime]. *)
Definition cleanup_old_events (days : option Z) : M Z :=
  let! settings := get_settings in
  let retention_days :=
    match days with
    | Some d => if d =? 0 then EVENTS_RETENTION_DAYS settings else d
    | None => EVENTS_RETENTION_DAYS settings
    end in
  let! now := timezone_now in
  let cutoff_date := now - retention_days * microseconds_per_day in
  let! deleted_count := gets (fun w => count (fun e => ev_created e <? cutoff_date) (events w)) in
  let! _ := modify (fun w =>
    set_events (List.filter (fun e => negb (ev_created e <? cutoff_date)) (events w)) w) in
  ret deleted_count.

Module WebhookTopicService.

Definition get_topic_by_name (name : string) : M string :=
  let! rows := gets (fun w => List.filter (String.eqb name) (topics w)) in
  lift (get_object_or_404 rows).

(** [WebhookTopic.objects.get_or_create(name=name)]; the service returns the
    topic and drops the [created] flag. *)
Definition create_topic (name : string) : M string :=
  let! rows := gets (fun w => List.filter (String.eqb name) (topics w)) in
  match rows with
  | [] =>
      let! _ := modify (fun w => set_topics (topics w ++ [name]) w) in
      ret name
  | [topic] => ret topic
  | _ => raise MultipleObjectsReturned
  end.

(** [Webhook.objects.filter(active=True, topics__name=topic_name).distinct()]:
    every row of the table once. *)
Definition get_webhooks_for_topic (topic_name : string) : M (list Webhook) :=
  gets (fun w =>
    List.filter (fun h => wh_active h && bool_decide (topic_name ∈ wh_topics h))
      (webhooks w)).

End WebhookTopicService.

(** [bool(v)]. *)
Definition truthy (v : pyval) : bool :=
  match v with
  | VNone => false
  | VBool b => b
  | VInt n => negb (n =? 0)
  | VFloat x => negb (PrimFloat.eqb x 0%float)
  | VStr s => negb (String.eqb s "")
  | VList xs => match xs with [] => false | _ => true end
  | VDict items => match items with [] => false | _ => true end
  end.

Record WebhookTestResult := mkTestResult {
  test_success : bool;
  test_message : string;
  test_data : option pyval;
  test_error : option string
}.

Module WebhookValidationService.
Section Test.

(** [datetime.isoformat()] and [str(e)] of an exception are left to the
    interpreter. *)
Variable isoformat : Z -> string.
Variable exn_str : exn -> string.

Definition test_webhook (webhook : Webhook) (test_data : option pyval) : M WebhookTestResult :=
  let! test_data :=
    match test_data with
    | Some d =>
        if truthy d then ret d
        else
          let! now := timezone_now in
          ret (VDict [("test", VBool true);
                      ("timestamp", VStr (isoformat now));
                      ("message", VStr "This is a test webhook event")])
    | None =>
        let! now := timezone_now in
        ret (VDict [("test", VBool true);
                    ("timestamp", VStr (isoformat now));
                    ("message", VStr "This is a test webhook event")])
    end in
  try_except
    (let! _ := WebhookEventService.fire_webhook_event "webhook.test" test_data
                 (Some (wh_uuid webhook)) in
     ret {| test_success := true;
            test_message := "Test webhook fired successfully";
            test_data := Some test_data;
            test_error := None |})
    (fun e =>
       ret {| test_success := false;
              test_message := "Test webhook failed: " +:+ exn_str e;
              test_data := None;
              test_error := Some (exn_str e) |}).

End Test.
End WebhookValidationService.

(** ** The rest of api/schemas.py and api/controllers.py *)

(** [WebhookCleanupSchema]: [days: Optional[int] = Field(None, ge=1, le=365)]. *)
Definition WebhookCleanupSchema (days : option Z) : result (option Z) :=
  match days with
  | None => Ok None
  | Some n =>
      if n <? 1 then Raise (ValidationError "Input should be greater than or equal to 1")
      else if 365 <? n then Raise (ValidationError "Input should be less than or equal to 365")
      else Ok (Some n)
  end.

(** [WebhookCreateSchema.validate_url] and [WebhookUpdateSchema.validate_url]:
    [v.startswith(('http://', 'https://'))]. *)
Definition startswith_http (v : string) : bool :=
  String.prefix "http://" v || String.prefix "https://" v.

Definition validate_url (v : string) : result string :=
  if negb (startswith_http v) then Raise (ValueError "URL must start with http:// or https://")
  else Ok v.

Definition validate_url_optional (v : option string) : result (option string) :=
  match v with
  | Some u =>
      if negb (startswith_http u) then
        Raise (ValueError "URL must start with http:// or https://")
      else Ok v
  | None => Ok v
  end.

(** [WebhookCreateSchema.validate_topics_not_empty]. *)
Definition validate_topics_not_empty (v : list string) : result (list string) :=
  match v with
  | [] => Raise (ValueError "At least one topic must be specified")
  | _ => Ok v
  end.

Record WebhookCleanupResultSchema := mkCleanupResult {
  deleted_count : Z;
  cleanup_message : string
}.

Record WebhookStatsSchema := mkStats {
  stats_total : Z;
  stats_success : Z;
  stats_failed : Z;
  stats_pending : Z;
  stats_success_rate : pynum
}.

(** [WebhookSecretController.get_webhook_secret]. *)
Definition get_webhook_secret (webhook_id : UUID) : M WebhookSecret :=
  let! webhook := WebhookService.get_webhook webhook_id in
  let! secret := WebhookSecretService.get_active_secret webhook in
  match secret with
  | None => raise (ValidationError "No active secret found for this webhook")
  | Some s => ret s
  end.

Module WebhookController.

Definition create_webhook (url : string) (topics : list string) : M (Z * Webhook) :=
  let! url := lift (validate_url url) in
  let! topics := lift (validate_topics_not_empty topics) in
  let! webhook := WebhookService.create_webhook url topics in
  ret (201, webhook).

Definition delete_webhook (webhook_id : UUID) : M WebhookOperationResponseSchema :=
  let! success := WebhookService.delete_webhook webhook_id in
  ret {| resp_success := success;
         resp_message := "Webhook deleted successfully";
         resp_webhook_id := Some webhook_id |}.

Section Stats.
Variable round2 : float -> float.

Definition get_webhook_stats (webhook_id : UUID) (days : Z) : M WebhookStatsSchema :=
  let! webhook := WebhookService.get_webhook webhook_id in
  let! stats := WebhookEventService.get_event_stats webhook days in
  let success_rate := success_rate_of stats in
  ret {| stats_total := total stats;
         stats_success := success stats;
         stats_failed := failed stats;
         stats_pending := pending stats;
         stats_success_rate := round_2 round2 success_rate |}.

Definition get_webhook_health (webhook_id : UUID) : M WebhookHealth :=
  let! webhook := WebhookService.get_webhook webhook_id in
  get_webhook_health round2 webhook.

End Stats.
End WebhookController.

Module WebhookEventController.
Section Responses.
Variable exn_str : exn -> string.

Definition fire_webhook_event (topic : string) (data : pyval) (webhook_id : option UUID)
    : M WebhookOperationResponseSchema :=
  try_except
    (let! _ := WebhookEventService.fire_webhook_event topic data webhook_id in
     ret {| resp_success := true;
            resp_message := "Webhook event fired successfully for topic: " +:+ topic;
            resp_webhook_id := webhook_id |})
    (fun e =>
       ret {| resp_success := false;
              resp_message := "Failed to fire webhook event: " +:+ exn_str e;
              resp_webhook_id := webhook_id |}).

Definition retry_failed_event (event_id : Z) : M WebhookOperationResponseSchema :=
  try_except
    (let! success := WebhookEventService.retry_failed_event event_id in
     ret {| resp_success := success;
            resp_message := "Event " +:+ pretty event_id +:+ " retried successfully";
            resp_webhook_id := None |})
    (fun e =>
       ret {| resp_success := false;
              resp_message := "Failed to retry event: " +:+ exn_str e;
              resp_webhook_id := None |}).

End Responses.

(** The request body is checked against [WebhookCleanupSchema] first. *)
Definition cleanup_old_events (days : option Z) : M WebhookCleanupResultSchema :=
  let! days := lift (WebhookCleanupSchema days) in
  let! n := cleanup_old_events days in
  ret {| deleted_count := n;
         cleanup_message := "Successfully cleaned up " +:+ pretty n +:+ " old webhook events" |}.

End WebhookEventController.

(** ** Vocabulary of the statements *)

(** The job that one row of subscribers gets in live mode. *)
Definition row_job (payload topic : string) (x : webhook_ref) : list Job :=
  match x with
  | Row id _ => [mkJob (KInt id) payload topic]
  | Given _ => []
  end.

Definition is_row (x : webhook_ref) : bool :=
  match x with Row _ _ => true | Given _ => false end.

(** A call of the secret service for one webhook, and a run of such calls,
    which returns the secrets they created, oldest first. *)
Inductive secret_call :=
| Generate (length : Z)
| Rotate.

Definition call (webhook : Webhook) (c : secret_call) : M WebhookSecret :=
  match c with
  | Generate n => WebhookSecretService.generate_secret webhook n
  | Rotate => WebhookSecretService.rotate_secret webhook
  end.

Fixpoint calls (webhook : Webhook) (cs : list secret_call) : M (list WebhookSecret) :=
  match cs with
  | [] => ret []
  | c :: rest =>
      let! s := call webhook c in
      let! created := calls webhook rest in
      ret (s :: created)
  end.

(** [os.urandom] refuses a negative size. *)
Definition valid_call (c : secret_call) : bool :=
  match c with
  | Generate n => 0 <=? n
  | Rotate => true
  end.

(** The token that [nbytes] bytes of entropy, read from the cursor on, encode. *)
Definition token_at (w : world) (nbytes : Z) : string :=
  string_of_list_ascii
    (base64.rstrip_pad
       (base64.urlsafe_b64encode
          (List.map (entropy w) (List.seq (cursor w) (Z.to_nat nbytes))))).

(** The world after [generate_secret webhook nbytes]. *)
Definition after_generate (webhook : Webhook) (nbytes : Z) (w : world) : world :=
  set_secrets
    (List.filter (fun s => negb (sec_webhook s =? wh_id webhook)) (secrets w)
     ++ [mkWebhookSecret (next_pk w) (wh_id webhook) (token_at w nbytes)])
    (set_next_pk (next_pk w + 1) (set_cursor (cursor w + Z.to_nat nbytes)%nat w)).

Definition url_safe (c : ascii) : bool :=
  existsb (Ascii.eqb c) base64.urlsafe_alphabet.

(** Whether each item of a bulk operation went through, in the order of the
    items, each one run in the world its predecessors left. *)
Fixpoint outcomes {A B} (op : A -> M B) (items : list A) (w : world) : list bool :=
  match items with
  | [] => []
  | x :: rest => let (w', r) := op x w in is_ok r :: outcomes op rest w'
  end.

Definition update_with (updates : WebhookUpdateSchema) (webhook_id : UUID) : M Webhook :=
  WebhookService.update_webhook webhook_id
    (upd_url updates) (upd_topics updates) (upd_active updates).

Definition create_from (webhook_data : WebhookCreateSchema) : M Webhook :=
  WebhookService.create_webhook (new_url webhook_data) (new_topics webhook_data).

(** The statistics of a list of events. *)
Definition stats_of (evs : list WebhookEvent) : EventStats :=
  {| total := Z.of_nat (List.length evs);
     success := count (fun e => String.eqb (ev_status e) "SUCCESS") evs;
     failed := count (fun e => String.eqb (ev_status e) "FAILURE") evs;
     pending := count (fun e => String.eqb (ev_status e) "PENDING") evs |}.

(** The events that the health of a webhook is computed from: its events of
    the last seven days. *)
Definition last_7_days (webhook : Webhook) (w : world) : list WebhookEvent :=
  WebhookEventService.events_since webhook (clock w - 7 * microseconds_per_day) w.

(** The classification on the exact quotient [100 * success / total]. *)
Definition exact_status (success total : Z) : string :=
  if 95 * total <=? 100 * success then "healthy"
  else if 80 * total <=? 100 * success then "warning"
  else "unhealthy".

Definition counts (total success : Z) : EventStats :=
  {| total := total; success := success; failed := total - success; pending := 0 |}.

(** The active webhooks subscribed to a topic, in the order of the table. *)
Definition subscribers (topic : string) (w : world) : list Webhook :=
  List.filter (fun x => wh_active x && bool_decide (topic ∈ wh_topics x)) (webhooks w).

(** What a dispatch leaves alone: the registry, the settings, the tables, the
    sequence of keys, the clock and the entropy pool. *)
Definition same_store (w w' : world) : Prop :=
  TOPIC_REGISTRY w' = TOPIC_REGISTRY w
  /\ wh_settings w' = wh_settings w
  /\ webhooks w' = webhooks w
  /\ topics w' = topics w
  /\ secrets w' = secrets w
  /\ events w' = events w
  /\ next_pk w' = next_pk w
  /\ clock w' = clock w
  /\ entropy w' = entropy w
  /\ cursor w' = cursor w.

(** [w'] is [w] with some jobs and some console output added, and possibly
    another cache. *)
Definition dispatched (w w' : world) (jobs : list Job) (out : list pyval) : Prop :=
  same_store w w'
  /\ queue w' = (queue w ++ jobs)%list
  /\ console w' = (console w ++ out)%list.

(** A table of webhooks in which no primary key and no public identifier
    occurs twice. *)
Definition unique_keys (l : list Webhook) : Prop :=
  List.NoDup (List.map wh_id l)
  /\ List.NoDup (List.map (fun x => uuid_str (wh_uuid x)) l).

(** The table without the webhooks whose public identifier is listed. *)
Definition without (ids : list UUID) (l : list Webhook) : list Webhook :=
  List.filter (fun x => negb (existsb (uuid_eqb (wh_uuid x)) ids)) l.

(** ** A small deployment

    One topic with the handler [data -> {"id": data["id"]}], a second topic
    whose handler breaks the payload contract, one active webhook subscribed
    to the first topic, and a store that already holds two secrets of that
    webhook, a stale topic and three delivery records. *)
Module Shop.

Definition order_created : handler :=
  fun data =>
    match getitem data "id" with
    | Ok v => Ok (VDict [("id", v)])
    | Raise e => Raise e
    end.

Definition order_count : handler := fun _ => Ok (VInt 1).

Definition hook_uuid : UUID := mkUUID "123e4567-e89b-12d3-a456-426614174000".
Definition other_uuid : UUID := mkUUID "00000000-0000-4000-8000-000000000002".

Definition hook : Webhook :=
  mkWebhook 1 hook_uuid "https://example.org/hook" true ["order.created"].

Definition tape (i : nat) : Byte.byte :=
  default x00 (Byte.of_N (N.of_nat ((i * 37 + 11) mod 256))).

Definition order_7 : pyval := VDict [("id", VInt 7)].

Definition registry : gmap string handler :=
  <["order.count" := order_count]> {["order.created" := order_created]}.

Definition event_log : list WebhookEvent :=
  [ mkWebhookEvent 1 (Some 1) "order.created" order_7 "FAILURE" 1699999000000000;
    mkWebhookEvent 2 (Some 1) "order.created" order_7 "SUCCESS" 1699999000000000;
    mkWebhookEvent 3 (Some 1) "order.created" order_7 "PENDING" 1699999000000000 ].

Section World.
Variable float_repr : float -> string.

Definition live : world :=
  {| TOPIC_REGISTRY := registry;
     wh_settings := mkSettings "LIVE" false (json.JSONEncoder float_repr) 30;
     webhooks := [hook];
     topics := ["order.created"; "old.topic"];
     secrets := [mkWebhookSecret 3 1 "first"; mkWebhookSecret 4 1 "second"];
     events := event_log;
     next_pk := 10;
     clock := 1700000000000000;
     query_cache := ∅;
     queue := [];
     console := [];
     entropy := tape;
     cursor := 0 |}.

(** The same deployment before any topic was registered. *)
Definition unregistered : world := set_registry ∅ live.

(** The same deployment in console mode. *)
Definition diagnostic : world :=
  mkWorld (TOPIC_REGISTRY live)
    (mkSettings "CONSOLE" false (json.JSONEncoder float_repr) 30)
    (webhooks live) (topics live) (secrets live) (events live) (next_pk live)
    (clock live) (query_cache live) (queue live) (console live) (entropy live)
    (cursor live).
End World.

Definition zero_repr : float -> string := fun _ => "0.0".

(** The text [{"id": 7}]. *)
Definition order_7_json : string :=
  "{" +:+ json.dquote +:+ "id" +:+ json.dquote +:+ ": 7}".

(** An encoder class that serialises text bodies only. *)
Definition text_only : encoder :=
  fun v =>
    match v with
    | VStr _ => Ok (json.encode zero_repr v)
    | _ => Raise (TypeError "Object is not JSON serializable")
    end.

(** The deployment with that encoder class configured. *)
Definition strict : world :=
  mkWorld (TOPIC_REGISTRY (live zero_repr))
    (mkSettings "LIVE" false text_only 30)
    (webhooks (live zero_repr)) (topics (live zero_repr)) (secrets (live zero_repr))
    (events (live zero_repr)) (next_pk (live zero_repr)) (clock (live zero_repr))
    (query_cache (live zero_repr)) (queue (live zero_repr)) (console (live zero_repr))
    (entropy (live zero_repr)) (cursor (live zero_repr)).

End Shop.

(** * Properties *)

(** ** Running the monad *)

Lemma bind_ok {A B} (m : M A) (k : A -> M B) (w w' : world) (a : A) :
  m w = (w', Ok a) -> bind m k w = k a w'.
Proof. intros H. unfold bind. rewrite H. reflexivity. Qed.

Lemma bind_raise {A B} (m : M A) (k : A -> M B) (w w' : world) (e : exn) :
  m w = (w', Raise e) -> bind m k w = (w', Raise e).
Proof. intros H. unfold bind. rewrite H. reflexivity. Qed.

Lemma try_except_ok {A} (m : M A) (h : exn -> M A) (w w' : world) (a : A) :
  m w = (w', Ok a) -> try_except m h w = (w', Ok a).
Proof. intros H. unfold try_except. rewrite H. reflexivity. Qed.

Lemma try_except_raise {A} (m : M A) (h : exn -> M A) (w w' : world) (e : exn) :
  m w = (w', Raise e) -> try_except m h w = h e w'.
Proof. intros H. unfold try_except. rewrite H. reflexivity. Qed.

(** ** The dispatcher: unregistered topics *)

Lemma get_handler_unbound (topic : string) (w : world) :
  TOPIC_REGISTRY w !! topic = None ->
  get_handler topic w =
    (w, Raise (TopicNotFound ("Topic '" +:+ topic +:+ "' doesn't exist."))).
Proof. intros H. unfold get_handler, bind, gets. rewrite H. reflexivity. Qed.

Lemma get_handler_bound (topic : string) (h : handler) (w : world) :
  TOPIC_REGISTRY w !! topic = Some h -> get_handler topic w = (w, Ok h).
Proof. intros H. unfold get_handler, bind, gets. rewrite H. reflexivity. Qed.

(** C4. Dispatching a topic that the registry does not bind fails, whatever the
    data, the target, the caching flag and the cache hold: the dispatcher
    raises [TopicNotFound], the service turns it into a [ValidationError] for
    its caller, and in both cases the world, and so the job queue, the console
    and the cache, is left as it was. Nothing retries the call. *)
Theorem unregistered_topic_fails
    (w : world) (topic : string) (data : pyval)
    (target : option webhook_id_arg) (webhook_id : option UUID)
    (Hunbound : TOPIC_REGISTRY w !! topic = None) :
  handle_fire_webhook topic data target w =
    (w, Raise (TopicNotFound ("Topic '" +:+ topic +:+ "' doesn't exist.")))
  /\ WebhookEventService.fire_webhook_event topic data webhook_id w =
    (w, Raise (ValidationError ("Invalid topic: " +:+ topic))).
Proof.
  split.
  - unfold handle_fire_webhook, get_settings.
    rewrite (bind_ok _ _ w w (wh_settings w)) by reflexivity.
    apply bind_raise. apply get_handler_unbound, Hunbound.
  - unfold WebhookEventService.fire_webhook_event.
    erewrite try_except_raise.
    2:{ apply bind_raise. apply get_handler_unbound, Hunbound. }
    reflexivity.
Qed.

Lemma unregistered_topic_fails_witness :
  handle_fire_webhook "order.cancelled" Shop.order_7 None (Shop.live Shop.zero_repr) =
    (Shop.live Shop.zero_repr,
     Raise (TopicNotFound ("Topic '" +:+ "order.cancelled" +:+ "' doesn't exist.")))
  /\ WebhookEventService.fire_webhook_event "order.cancelled" Shop.order_7 None
       (Shop.live Shop.zero_repr) =
    (Shop.live Shop.zero_repr, Raise (ValidationError ("Invalid topic: " +:+ "order.cancelled"))).
Proof.
  apply (unregistered_topic_fails (Shop.live Shop.zero_repr) "order.cancelled"
           Shop.order_7 None None).
  vm_compute. reflexivity.
Defined.

(** ** The dispatcher: the payload contract *)

Lemma handle_fire_webhook_body (w : world) (topic : string) (data : pyval)
    (target : option webhook_id_arg) (h : handler) (r : result pyval) :
  TOPIC_REGISTRY w !! topic = Some h ->
  h data = r ->
  handle_fire_webhook topic data target w =
    (let! payload_body := lift r in
     if negb (isinstance_str_dict payload_body) && negb (is_None payload_body) then
       raise (InvalidPayloadType "Payload must be a string/dict/None.")
     else
       let! webhook_ids :=
         match target with
         | Some a => ret [Given a]
         | None => _find_webhooks topic
         end in
       for_each webhook_ids (fun x =>
         let! (id, uuid) := lift (unpack2 x) in
         let! now := timezone_now in
         let payload_dict := make_payload_dict payload_body topic now uuid in
         let! payload := lift (json_dumps payload_body (PAYLOAD_ENCODER_CLASS (wh_settings w))) in
         if String.eqb (MODE (wh_settings w)) "LIVE" then
           task_fire_webhook_delay id payload topic
         else
           print_console payload_dict)) w.
Proof.
  intros Hreg Hh. unfold handle_fire_webhook, get_settings.
  rewrite (bind_ok _ _ w w (wh_settings w)) by reflexivity.
  rewrite (bind_ok _ _ w w h) by (apply get_handler_bound, Hreg).
  rewrite Hh. reflexivity.
Qed.

Lemma invalid_payload_raises (w : world) (topic : string) (data : pyval)
    (target : option webhook_id_arg) (h : handler) (v : pyval) :
  TOPIC_REGISTRY w !! topic = Some h ->
  h data = Ok v ->
  isinstance_str_dict v = false ->
  is_None v = false ->
  handle_fire_webhook topic data target w =
    (w, Raise (InvalidPayloadType "Payload must be a string/dict/None.")).
Proof.
  intros Hreg Hh Hsd Hn.
  rewrite (handle_fire_webhook_body w topic data target h (Ok v) Hreg Hh).
  unfold bind, lift. rewrite Hsd, Hn. reflexivity.
Qed.

(** C3, as the code has it. When the registered handler returns a value that
    is not [None], not a [str] and not a [dict], the dispatcher raises
    [InvalidPayloadType] before it looks at any subscriber and leaves the
    world as it was: no job is scheduled and no envelope is printed. A caller
    that sends the signal with [send] gets the exception;
    [WebhookEventService.fire_webhook_event] sends it with [send_robust],
    which keeps the exception in the list of responses, and returns
    normally. *)
Theorem invalid_payload_type_is_fatal
    (w : world) (topic : string) (data : pyval)
    (target : option webhook_id_arg) (webhook_id : option UUID)
    (h : handler) (v : pyval)
    (Hreg : TOPIC_REGISTRY w !! topic = Some h)
    (Hbody : h data = Ok v)
    (Hnot_str_dict : isinstance_str_dict v = false)
    (Hnot_none : is_None v = false) :
  handle_fire_webhook topic data target w =
    (w, Raise (InvalidPayloadType "Payload must be a string/dict/None."))
  /\ Signal.send fire_webhook topic data target w =
    (w, Raise (InvalidPayloadType "Payload must be a string/dict/None."))
  /\ Signal.send_robust fire_webhook topic data target w =
    (w, Ok [Raise (InvalidPayloadType "Payload must be a string/dict/None.")])
  /\ WebhookEventService.fire_webhook_event topic data webhook_id w = (w, Ok tt).
Proof.
  assert (Hraise : forall t, handle_fire_webhook topic data t w =
            (w, Raise (InvalidPayloadType "Payload must be a string/dict/None."))).
  { intros t. eapply invalid_payload_raises; eassumption. }
  assert (Hrobust : forall t, Signal.send_robust fire_webhook topic data t w =
            (w, Ok [Raise (InvalidPayloadType "Payload must be a string/dict/None.")])).
  { intros t. unfold fire_webhook. simpl.
    erewrite bind_ok.
    2:{ erewrite try_except_raise by (apply bind_raise, Hraise). reflexivity. }
    reflexivity. }
  repeat split.
  - apply Hraise.
  - unfold fire_webhook. simpl. apply bind_raise, Hraise.
  - apply Hrobust.
  - unfold WebhookEventService.fire_webhook_event.
    erewrite try_except_ok; [reflexivity|].
    rewrite (bind_ok _ _ w w h) by (apply get_handler_bound, Hreg).
    erewrite bind_ok by apply Hrobust. reflexivity.
Qed.

Lemma invalid_payload_type_is_fatal_witness :
  handle_fire_webhook "order.count" Shop.order_7 None (Shop.live Shop.zero_repr) =
    (Shop.live Shop.zero_repr, Raise (InvalidPayloadType "Payload must be a string/dict/None."))
  /\ Signal.send fire_webhook "order.count" Shop.order_7 None (Shop.live Shop.zero_repr) =
    (Shop.live Shop.zero_repr, Raise (InvalidPayloadType "Payload must be a string/dict/None."))
  /\ Signal.send_robust fire_webhook "order.count" Shop.order_7 None (Shop.live Shop.zero_repr) =
    (Shop.live Shop.zero_repr, Ok [Raise (InvalidPayloadType "Payload must be a string/dict/None.")])
  /\ WebhookEventService.fire_webhook_event "order.count" Shop.order_7 None
       (Shop.live Shop.zero_repr) = (Shop.live Shop.zero_repr, Ok tt).
Proof.
  apply (invalid_payload_type_is_fatal (Shop.live Shop.zero_repr) "order.count"
           Shop.order_7 None None Shop.order_count (VInt 1));
    vm_compute; reflexivity.
Defined.

(** C3, counterexample to the claim as stated: the handler of ["order.count"]
    returns an [int], and the dispatch call made through the service neither
    raises [InvalidPayloadType] nor any other exception. *)
Lemma invalid_payload_not_surfaced_by_service :
  snd (WebhookEventService.fire_webhook_event "order.count" Shop.order_7 None
         (Shop.live Shop.zero_repr)) = Ok tt
  /\ Shop.order_count Shop.order_7 = Ok (VInt 1).
Proof. vm_compute. split; reflexivity. Qed.

(** ** The dispatcher: live mode *)

Lemma set_queue_id (w : world) : set_queue (queue w) w = w.
Proof. destruct w; reflexivity. Qed.

Lemma live_step (s : Settings) (payload_body : pyval) (payload topic : string)
    (id : Z) (uuid : UUID) (w : world) :
  MODE s = "LIVE" ->
  PAYLOAD_ENCODER_CLASS s payload_body = Ok payload ->
  (let! (id, uuid) := lift (unpack2 (Row id uuid)) in
   let! now := timezone_now in
   let payload_dict := make_payload_dict payload_body topic now uuid in
   let! payload := lift (json_dumps payload_body (PAYLOAD_ENCODER_CLASS s)) in
   if String.eqb (MODE s) "LIVE" then task_fire_webhook_delay id payload topic
   else print_console payload_dict) w
  = (set_queue (queue w ++ [mkJob (KInt id) payload topic]) w, Ok tt).
Proof.
  intros Hmode Henc.
  unfold bind, lift, timezone_now, gets, json_dumps. simpl.
  rewrite Henc, Hmode. reflexivity.
Qed.

Lemma live_loop (s : Settings) (payload_body : pyval) (payload topic : string)
    (rows : list webhook_ref) (w : world) :
  MODE s = "LIVE" ->
  PAYLOAD_ENCODER_CLASS s payload_body = Ok payload ->
  forallb is_row rows = true ->
  for_each rows (fun x =>
    let! (id, uuid) := lift (unpack2 x) in
    let! now := timezone_now in
    let payload_dict := make_payload_dict payload_body topic now uuid in
    let! payload := lift (json_dumps payload_body (PAYLOAD_ENCODER_CLASS s)) in
    if String.eqb (MODE s) "LIVE" then task_fire_webhook_delay id payload topic
    else print_console payload_dict) w
  = (set_queue (queue w ++ List.concat (List.map (row_job payload topic) rows)) w, Ok tt).
Proof.
  intros Hmode Henc. revert w.
  induction rows as [|x rows IH]; intros w Hrows.
  - simpl. rewrite app_nil_r, set_queue_id. reflexivity.
  - simpl in Hrows. apply andb_prop in Hrows as [Hx Hrows].
    destruct x as [id uuid|a]; [|discriminate Hx].
    cbn [for_each].
    erewrite bind_ok by (apply live_step; eassumption).
    rewrite IH by exact Hrows.
    simpl. rewrite <- app_assoc. reflexivity.
Qed.

(** In live mode every job of a dispatch to the subscribers carries the
    encoding of the handler's payload body, and of nothing else. *)
Lemma live_dispatch_schedules_bodies (w w1 : world) (topic : string) (data : pyval)
    (h : handler) (payload_body : pyval) (payload : string) (rows : list webhook_ref) :
  TOPIC_REGISTRY w !! topic = Some h ->
  h data = Ok payload_body ->
  isinstance_str_dict payload_body || is_None payload_body = true ->
  MODE (wh_settings w) = "LIVE" ->
  PAYLOAD_ENCODER_CLASS (wh_settings w) payload_body = Ok payload ->
  _find_webhooks topic w = (w1, Ok rows) ->
  forallb is_row rows = true ->
  handle_fire_webhook topic data None w =
    (set_queue (queue w1 ++ List.concat (List.map (row_job payload topic) rows)) w1, Ok tt).
Proof.
  intros Hreg Hh Hvalid Hmode Henc Hfind Hrows.
  rewrite (handle_fire_webhook_body w topic data None h (Ok payload_body) Hreg Hh).
  unfold bind at 1. unfold lift at 1.
  replace (negb (isinstance_str_dict payload_body) && negb (is_None payload_body))
    with false by (destruct (isinstance_str_dict payload_body), (is_None payload_body);
                   simpl in *; congruence).
  erewrite bind_ok by exact Hfind.
  apply live_loop; assumption.
Qed.

(** Without the cache the subscribers are the active webhooks of the topic,
    and each gets one job. *)
Lemma live_dispatch_uncached (w : world) (topic : string) (data : pyval)
    (h : handler) (payload_body : pyval) (payload : string) :
  TOPIC_REGISTRY w !! topic = Some h ->
  h data = Ok payload_body ->
  isinstance_str_dict payload_body || is_None payload_body = true ->
  MODE (wh_settings w) = "LIVE" ->
  USE_CACHE (wh_settings w) = false ->
  PAYLOAD_ENCODER_CLASS (wh_settings w) payload_body = Ok payload ->
  handle_fire_webhook topic data None w =
    (set_queue
       (queue w ++
        List.map (fun x => mkJob (KInt (wh_id x)) payload topic)
          (List.filter (fun x => wh_active x && bool_decide (topic ∈ wh_topics x))
             (webhooks w)))
       w,
     Ok tt).
Proof.
  intros Hreg Hh Hvalid Hmode Hcache Henc.
  set (subscribers := List.filter (fun x => wh_active x && bool_decide (topic ∈ wh_topics x))
                        (webhooks w)).
  rewrite (live_dispatch_schedules_bodies w w topic data h payload_body payload
             (List.map (fun x => Row (wh_id x) (wh_uuid x)) subscribers)
             Hreg Hh Hvalid Hmode Henc).
  - do 3 f_equal. induction subscribers as [|x l IH]; simpl; [reflexivity|].
    rewrite IH. reflexivity.
  - unfold _find_webhooks, bind, get_settings, gets. rewrite Hcache. reflexivity.
  - induction subscribers as [|x l IH]; simpl; [reflexivity|exact IH].
Qed.

(** C1, evaluated on the end-to-end scenario of the specification: topic
    ["order.created"] with the handler [data -> {"id": data["id"]}], one active
    subscriber, live mode, data [{"id": 7}], whatever the printing of floats.
    Exactly one job is scheduled, and its payload is the text [{"id": 7}]: the
    encoding of the payload body alone, which has no [object] field, while
    the record with the fields [object], [topic], [timestamp] and
    [webhook_uuid] is built and not sent. *)
Theorem live_job_payload_is_the_bare_body (float_repr : float -> string) :
  handle_fire_webhook "order.created" Shop.order_7 None (Shop.live float_repr) =
    (set_queue [mkJob (KInt 1) Shop.order_7_json "order.created"] (Shop.live float_repr),
     Ok tt)
  /\ json.encode float_repr Shop.order_7 = Shop.order_7_json
  /\ Shop.order_created Shop.order_7 = Ok Shop.order_7
  /\ dict_get "object" [("id", VInt 7)] = None
  /\ dict_get "object"
       [("object", Shop.order_7); ("topic", VStr "order.created");
        ("timestamp", VFloat (timestamp 1700000000000000));
        ("webhook_uuid", VStr (uuid_str Shop.hook_uuid))] = Some Shop.order_7
  /\ String.eqb Shop.order_7_json
       (json.encode float_repr
          (make_payload_dict Shop.order_7 "order.created" 1700000000000000
             (KUuid Shop.hook_uuid))) = false.
Proof.
  split; [|split; [|split; [|split; [|split]]]].
  - erewrite (live_dispatch_schedules_bodies (Shop.live float_repr) (Shop.live float_repr)
               "order.created" Shop.order_7 Shop.order_created Shop.order_7
               Shop.order_7_json [Row 1 Shop.hook_uuid]);
      reflexivity.
  - reflexivity.
  - reflexivity.
  - reflexivity.
  - reflexivity.
  - reflexivity.
Qed.

(** The console branch of the same loop prints the four-field record. *)
Lemma console_dispatch_prints_the_envelope (float_repr : float -> string) :
  handle_fire_webhook "order.created" Shop.order_7 None (Shop.diagnostic float_repr) =
    (set_console
       [VDict [("object", Shop.order_7);
               ("topic", VStr "order.created");
               ("timestamp", VFloat (timestamp 1700000000000000));
               ("webhook_uuid", VStr "123e4567-e89b-12d3-a456-426614174000")]]
       (Shop.diagnostic float_repr),
     Ok tt).
Proof. reflexivity. Qed.

(** ** The dispatcher: a given target *)

Lemma dispatch_to_uuid (w : world) (topic : string) (data : pyval) (u : UUID)
    (h : handler) (payload_body : pyval) :
  TOPIC_REGISTRY w !! topic = Some h ->
  h data = Ok payload_body ->
  isinstance_str_dict payload_body || is_None payload_body = true ->
  handle_fire_webhook topic data (Some (ArgUuid u)) w =
    (w, Raise (TypeError "cannot unpack non-iterable UUID object")).
Proof.
  intros Hreg Hbody Hvalid.
  rewrite (handle_fire_webhook_body w topic data _ h (Ok payload_body) Hreg Hbody).
  unfold bind at 1. unfold lift at 1.
  replace (negb (isinstance_str_dict payload_body) && negb (is_None payload_body))
    with false by (destruct (isinstance_str_dict payload_body), (is_None payload_body);
                   simpl in *; congruence).
  reflexivity.
Qed.

Lemma fire_to_uuid (w : world) (topic : string) (data : pyval) (u : UUID)
    (h : handler) (payload_body : pyval) :
  TOPIC_REGISTRY w !! topic = Some h ->
  h data = Ok payload_body ->
  isinstance_str_dict payload_body || is_None payload_body = true ->
  WebhookEventService.fire_webhook_event topic data (Some u) w = (w, Ok tt).
Proof.
  intros Hreg Hbody Hvalid.
  unfold WebhookEventService.fire_webhook_event.
  erewrite try_except_ok; [reflexivity|].
  rewrite (bind_ok _ _ w w h) by (apply get_handler_bound, Hreg).
  erewrite bind_ok; [reflexivity|].
  unfold fire_webhook. cbn [Signal.send_robust option_map].
  erewrite bind_ok.
  2:{ erewrite try_except_raise
        by (apply bind_raise; eapply dispatch_to_uuid; eassumption).
      reflexivity. }
  reflexivity.
Qed.

(** C2, evaluated for every world, every registered topic whose handler keeps
    the payload contract and every target [UUID]. The list of targets is the
    given identity alone: neither the store nor the cache is read or written.
    But the loop unpacks each target into a pair, a [UUID] is not iterable,
    and the dispatcher raises [TypeError] with nothing scheduled and nothing
    printed; the service, which sends the signal with [send_robust], reports
    success. *)
Theorem targeted_dispatch_delivers_nothing
    (w : world) (topic : string) (data : pyval) (u : UUID)
    (h : handler) (payload_body : pyval)
    (Hreg : TOPIC_REGISTRY w !! topic = Some h)
    (Hbody : h data = Ok payload_body)
    (Hvalid : isinstance_str_dict payload_body || is_None payload_body = true) :
  handle_fire_webhook topic data (Some (ArgUuid u)) w =
    (w, Raise (TypeError "cannot unpack non-iterable UUID object"))
  /\ WebhookEventService.fire_webhook_event topic data (Some u) w = (w, Ok tt).
Proof.
  split.
  - eapply dispatch_to_uuid; eassumption.
  - eapply fire_to_uuid; eassumption.
Qed.

Lemma targeted_dispatch_delivers_nothing_witness :
  handle_fire_webhook "order.created" Shop.order_7 (Some (ArgUuid Shop.hook_uuid))
      (Shop.live Shop.zero_repr) =
    (Shop.live Shop.zero_repr, Raise (TypeError "cannot unpack non-iterable UUID object"))
  /\ WebhookEventService.fire_webhook_event "order.created" Shop.order_7
       (Some Shop.hook_uuid) (Shop.live Shop.zero_repr) = (Shop.live Shop.zero_repr, Ok tt).
Proof.
  apply (targeted_dispatch_delivers_nothing (Shop.live Shop.zero_repr) "order.created"
           Shop.order_7 Shop.hook_uuid Shop.order_created Shop.order_7);
    vm_compute; reflexivity.
Defined.

(** A target given as a [str] is unpacked character by character: only a text
    of exactly two characters gets through, and then the job goes to the first
    character and the envelope names the second. *)
Lemma targeted_dispatch_str (w : world) (topic : string) (data : pyval) (s : string)
    (h : handler) (payload_body : pyval) :
  TOPIC_REGISTRY w !! topic = Some h ->
  h data = Ok payload_body ->
  isinstance_str_dict payload_body || is_None payload_body = true ->
  String.length s <> 2%nat ->
  exists msg, handle_fire_webhook topic data (Some (ArgStr s)) w = (w, Raise (ValueError msg)).
Proof.
  intros Hreg Hbody Hvalid Hlen.
  rewrite (handle_fire_webhook_body w topic data _ h (Ok payload_body) Hreg Hbody).
  unfold bind at 1. unfold lift at 1.
  replace (negb (isinstance_str_dict payload_body) && negb (is_None payload_body))
    with false by (destruct (isinstance_str_dict payload_body), (is_None payload_body);
                   simpl in *; congruence).
  destruct s as [|c1 [|c2 [|c3 s]]]; simpl in Hlen; try congruence;
    eexists; reflexivity.
Qed.

(** ** The dispatcher: a target that is a [UUID], whatever the handler does *)

Lemma handle_unbound_topic (w : world) (topic : string) (data : pyval)
    (target : option webhook_id_arg) :
  TOPIC_REGISTRY w !! topic = None ->
  handle_fire_webhook topic data target w =
    (w, Raise (TopicNotFound ("Topic '" +:+ topic +:+ "' doesn't exist."))).
Proof.
  intros Hreg. unfold handle_fire_webhook, get_settings.
  rewrite (bind_ok _ _ w w (wh_settings w)) by reflexivity.
  apply bind_raise, get_handler_unbound, Hreg.
Qed.

Lemma dispatch_to_uuid_raises (w : world) (topic : string) (data : pyval) (u : UUID)
    (h : handler) :
  TOPIC_REGISTRY w !! topic = Some h ->
  exists e, handle_fire_webhook topic data (Some (ArgUuid u)) w = (w, Raise e).
Proof.
  intros Hreg.
  rewrite (handle_fire_webhook_body w topic data _ h (h data) Hreg eq_refl).
  unfold bind at 1. unfold lift at 1.
  destruct (h data) as [payload_body|e0]; [|eexists; reflexivity].
  destruct (negb (isinstance_str_dict payload_body) && negb (is_None payload_body));
    eexists; reflexivity.
Qed.

Lemma robust_send_to_uuid (w : world) (topic : string) (data : pyval) (u : UUID)
    (h : handler) :
  TOPIC_REGISTRY w !! topic = Some h ->
  exists e,
    Signal.send_robust fire_webhook topic data (Some (ArgUuid u)) w = (w, Ok [Raise e]).
Proof.
  intros Hreg. destruct (dispatch_to_uuid_raises w topic data u h Hreg) as (e & He).
  exists e. unfold fire_webhook. cbn [Signal.send_robust].
  erewrite bind_ok.
  2:{ erewrite try_except_raise by (apply bind_raise, He). reflexivity. }
  reflexivity.
Qed.

Lemma fire_webhook_event_to_uuid
    (w : world) (topic : string) (data : pyval) (u : UUID) :
  WebhookEventService.fire_webhook_event topic data (Some u) w =
    (w, match TOPIC_REGISTRY w !! topic with
        | Some _ => Ok tt
        | None => Raise (ValidationError ("Invalid topic: " +:+ topic))
        end).
Proof.
  unfold WebhookEventService.fire_webhook_event.
  destruct (TOPIC_REGISTRY w !! topic) as [h|] eqn:Hreg.
  - destruct (robust_send_to_uuid w topic data u h Hreg) as (e & He).
    erewrite try_except_ok; [reflexivity|].
    rewrite (bind_ok _ _ w w h) by (apply get_handler_bound, Hreg).
    cbn [option_map]. erewrite bind_ok by exact He. reflexivity.
  - erewrite try_except_raise by (apply bind_raise, get_handler_unbound, Hreg).
    reflexivity.
Qed.

(** ** Retrying a failed event *)

Lemma send_robust_ok (receivers : list Signal.receiver) (topic : string) (data : pyval)
    (target : option webhook_id_arg) (w : world) :
  exists w' responses,
    Signal.send_robust receivers topic data target w = (w', Ok responses).
Proof.
  revert w. induction receivers as [|r rest IH]; intros w.
  - eexists _, _. reflexivity.
  - cbn [Signal.send_robust].
    assert (Hr : exists w1 response,
               try_except (let! x := r topic data target in ret (Ok x))
                 (fun err => ret (Raise err)) w = (w1, Ok response)).
    { unfold try_except, bind.
      destruct (r topic data target w) as [w1 [x|e]]; eexists _, _; reflexivity. }
    destruct Hr as (w1 & response & Hr).
    destruct (IH w1) as (w2 & rs & Hrest).
    erewrite bind_ok by exact Hr.
    erewrite bind_ok by exact Hrest.
    eexists _, _. reflexivity.
Qed.

(** The service raises nothing but a [ValidationError]. *)
Lemma fire_webhook_event_raises (topic : string) (data : pyval) (webhook_id : option UUID)
    (w w' : world) (e : exn) :
  WebhookEventService.fire_webhook_event topic data webhook_id w = (w', Raise e) ->
  e = ValidationError ("Invalid topic: " +:+ topic).
Proof.
  unfold WebhookEventService.fire_webhook_event.
  destruct (TOPIC_REGISTRY w !! topic) as [h|] eqn:Hreg.
  - destruct (send_robust_ok fire_webhook topic data (option_map ArgUuid webhook_id) w)
      as (w1 & rs & Hs).
    erewrite try_except_ok.
    2:{ rewrite (bind_ok _ _ w w h) by (apply get_handler_bound, Hreg).
        erewrite bind_ok by exact Hs. reflexivity. }
    discriminate.
  - erewrite try_except_raise by (apply bind_raise, get_handler_unbound, Hreg).
    unfold raise. intros H. injection H as _ <-. reflexivity.
Qed.

(** C10. For an event that the store holds: when its status is not ['FAILURE']
    (so for ['SUCCESS'] and for ['PENDING']), or when its webhook is missing or
    inactive, [retry_failed_event] raises a [ValidationError] and leaves the
    world, the job queue included, as it was. But an event with status
    ['FAILURE'] and an active webhook is not dispatched again either: the retry
    passes the webhook's [UUID] as the target, the dispatcher raises on it
    before it schedules or prints anything, the service keeps that error to
    itself, and the retry returns [True] (or raises [ValidationError] when the
    topic is no longer registered) with the world, job queue and console
    included, exactly as it was. *)
Theorem retry_never_redispatches
    (w : world) (event_id : Z) (event : WebhookEvent)
    (Hevent : List.filter (fun e => ev_id e =? event_id) (events w) = [event]) :
  (ev_status event <> "FAILURE" ->
     WebhookEventService.retry_failed_event event_id w =
       (w, Raise (ValidationError "Only failed events can be retried")))
  /\ (ev_status event = "FAILURE" ->
      event_webhook_of event w = None ->
      WebhookEventService.retry_failed_event event_id w =
        (w, Raise (ValidationError "Webhook is not active")))
  /\ (forall h, ev_status event = "FAILURE" ->
      event_webhook_of event w = Some h -> wh_active h = false ->
      WebhookEventService.retry_failed_event event_id w =
        (w, Raise (ValidationError "Webhook is not active")))
  /\ (forall h, ev_status event = "FAILURE" ->
      event_webhook_of event w = Some h -> wh_active h = true ->
      (exists e,
         handle_fire_webhook (ev_topic event) (ev_object event)
           (Some (ArgUuid (wh_uuid h))) w = (w, Raise e))
      /\ WebhookEventService.retry_failed_event event_id w =
           (w, match TOPIC_REGISTRY w !! ev_topic event with
               | Some _ => Ok true
               | None => Raise (ValidationError ("Invalid topic: " +:+ ev_topic event))
               end)).
Proof.
  assert (Hget : forall (k : WebhookEvent -> M bool),
            (let! evs := gets events in
             let! event := lift (objects_get (List.filter (fun e => ev_id e =? event_id) evs)) in
             k event) w = k event w).
  { intros k. unfold bind, gets, lift. rewrite Hevent. reflexivity. }
  split; [|split; [|split]].
  - intros Hst. unfold WebhookEventService.retry_failed_event, try_except. rewrite Hget.
    apply String.eqb_neq in Hst. rewrite Hst. reflexivity.
  - intros Hst Hwh. unfold WebhookEventService.retry_failed_event, try_except. rewrite Hget.
    apply String.eqb_eq in Hst. rewrite Hst. simpl.
    unfold bind, event_webhook, gets. rewrite Hwh. reflexivity.
  - intros h Hst Hwh Hact. unfold WebhookEventService.retry_failed_event, try_except.
    rewrite Hget.
    apply String.eqb_eq in Hst. rewrite Hst. simpl.
    unfold bind, event_webhook, gets. rewrite Hwh, Hact. reflexivity.
  - intros h Hst Hwh Hact. split.
    + destruct (TOPIC_REGISTRY w !! ev_topic event) as [handler_|] eqn:Hreg.
      * apply (dispatch_to_uuid_raises w _ _ _ handler_ Hreg).
      * eexists. apply handle_unbound_topic, Hreg.
    + unfold WebhookEventService.retry_failed_event, try_except. rewrite Hget.
      apply String.eqb_eq in Hst. rewrite Hst. simpl.
      unfold bind at 1. unfold event_webhook, gets. rewrite Hwh, Hact. simpl.
      unfold bind. rewrite fire_webhook_event_to_uuid.
      destruct (TOPIC_REGISTRY w !! ev_topic event); reflexivity.
Qed.

Lemma retry_never_redispatches_witness :
  WebhookEventService.retry_failed_event 2 (Shop.live Shop.zero_repr) =
    (Shop.live Shop.zero_repr, Raise (ValidationError "Only failed events can be retried"))
  /\ (exists e,
        handle_fire_webhook "order.created" Shop.order_7
          (Some (ArgUuid Shop.hook_uuid)) (Shop.live Shop.zero_repr)
        = (Shop.live Shop.zero_repr, Raise e))
  /\ WebhookEventService.retry_failed_event 1 (Shop.live Shop.zero_repr) =
       (Shop.live Shop.zero_repr, Ok true).
Proof.
  split.
  - apply (proj1 (retry_never_redispatches (Shop.live Shop.zero_repr) 2
                    (mkWebhookEvent 2 (Some 1) "order.created" Shop.order_7 "SUCCESS"
                       1699999000000000)
                    eq_refl)).
    discriminate.
  - apply (proj2 (proj2 (proj2
             (retry_never_redispatches (Shop.live Shop.zero_repr) 1
                (mkWebhookEvent 1 (Some 1) "order.created" Shop.order_7 "FAILURE"
                   1699999000000000)
                eq_refl))) Shop.hook); reflexivity.
Defined.

(** The retry of the failed event of the deployment reaches the dispatcher
    with the webhook's [UUID] as the target, and returns [True] with no job in
    the queue. *)
Lemma retry_of_a_failed_event_schedules_nothing :
  WebhookEventService.retry_failed_event 1 (Shop.live Shop.zero_repr) =
    (Shop.live Shop.zero_repr, Ok true)
  /\ queue (Shop.live Shop.zero_repr) = [].
Proof. split; reflexivity. Qed.

(** ** Secrets: the token *)

Lemma list_ind3 {A} (P : list A -> Prop) :
  P [] ->
  (forall a, P [a]) ->
  (forall a b, P [a; b]) ->
  (forall a b c l, P l -> P (a :: b :: c :: l)) ->
  forall l, P l.
Proof.
  intros H0 H1 H2 H3. fix IH 1.
  intros [|a [|b [|c l]]].
  - exact H0.
  - apply H1.
  - apply H2.
  - apply H3, IH.
Qed.

Lemma sextet_url_safe (i : N) : url_safe (base64.sextet i) = true.
Proof.
  unfold base64.sextet, url_safe.
  destruct (nth_in_or_default (N.to_nat i) base64.urlsafe_alphabet "A"%char) as [Hin|Hd].
  - apply existsb_exists. eexists. split; [exact Hin|]. apply Ascii.eqb_refl.
  - rewrite Hd. reflexivity.
Qed.

Lemma url_safe_not_pad (c : ascii) : url_safe c = true -> Ascii.eqb c base64.pad = false.
Proof.
  intros H. destruct (Ascii.eqb c base64.pad) eqn:E; [|reflexivity].
  apply Ascii.eqb_eq in E. subst c. vm_compute in H. discriminate H.
Qed.

Lemma rstrip_pad_keep (c : ascii) (l : list ascii) :
  url_safe c = true -> base64.rstrip_pad (c :: l) = c :: base64.rstrip_pad l.
Proof.
  intros H. unfold base64.rstrip_pad. cbn [fold_right].
  fold (base64.rstrip_pad l).
  destruct (base64.rstrip_pad l); [|reflexivity].
  rewrite (url_safe_not_pad c H). reflexivity.
Qed.

(** The unpadded encoding has [ceil(4 n / 3)] characters, all of them from the
    URL-safe alphabet. *)
Lemma unpadded_b64 (bs : list Byte.byte) :
  List.length (base64.rstrip_pad (base64.urlsafe_b64encode bs))
    = ((4 * List.length bs + 2) / 3)%nat
  /\ forallb url_safe (base64.rstrip_pad (base64.urlsafe_b64encode bs)) = true.
Proof.
  induction bs as [|a|a b|a b c l [IHlen IHsafe]] using list_ind3.
  - split; reflexivity.
  - cbn [base64.urlsafe_b64encode].
    do 2 rewrite rstrip_pad_keep by apply sextet_url_safe.
    change (base64.rstrip_pad [base64.pad; base64.pad]) with (@nil ascii).
    split; [reflexivity|]. cbn [forallb].
    rewrite !sextet_url_safe. reflexivity.
  - cbn [base64.urlsafe_b64encode].
    do 3 rewrite rstrip_pad_keep by apply sextet_url_safe.
    change (base64.rstrip_pad [base64.pad]) with (@nil ascii).
    split; [reflexivity|]. cbn [forallb].
    rewrite !sextet_url_safe. reflexivity.
  - cbn [base64.urlsafe_b64encode].
    do 4 rewrite rstrip_pad_keep by apply sextet_url_safe.
    split.
    + cbn [List.length]. rewrite IHlen.
      replace (4 * S (S (S (List.length l))) + 2)%nat
        with ((4 * List.length l + 2) + 4 * 3)%nat by lia.
      rewrite Nat.div_add by discriminate. lia.
    + cbn [forallb]. rewrite !sextet_url_safe, IHsafe. reflexivity.
Qed.

Lemma length_string_of_list_ascii (l : list ascii) :
  String.length (string_of_list_ascii l) = List.length l.
Proof. induction l as [|c l IH]; simpl; [reflexivity|]. rewrite IH. reflexivity. Qed.

Lemma token_at_shape (w : world) (nbytes : Z) :
  0 <= nbytes ->
  Z.of_nat (String.length (token_at w nbytes)) = (4 * nbytes + 2) / 3
  /\ forallb url_safe (list_ascii_of_string (token_at w nbytes)) = true.
Proof.
  intros Hn. unfold token_at.
  rewrite length_string_of_list_ascii, list_ascii_of_string_of_list_ascii.
  destruct (unpadded_b64 (List.map (entropy w) (List.seq (cursor w) (Z.to_nat nbytes))))
    as [Hlen Hsafe].
  split; [|exact Hsafe].
  rewrite Hlen, length_map, length_seq.
  rewrite Nat2Z.inj_div, Nat2Z.inj_add, Nat2Z.inj_mul, Z2Nat.id by exact Hn.
  reflexivity.
Qed.

(** ** Secrets: replacement *)

Lemma filter_out_then_in {A} (f : A -> bool) (l : list A) :
  List.filter f (List.filter (fun x => negb (f x)) l) = [].
Proof.
  induction l as [|x l IH]; simpl; [reflexivity|].
  destruct (f x) eqn:E; simpl; [exact IH|]. rewrite E. exact IH.
Qed.

Lemma generate_secret_run (webhook : Webhook) (nbytes : Z) (w : world) :
  0 <= nbytes ->
  WebhookSecretService.generate_secret webhook nbytes w =
    (after_generate webhook nbytes w,
     Ok (mkWebhookSecret (next_pk w) (wh_id webhook) (token_at w nbytes))).
Proof.
  intros Hn.
  unfold WebhookSecretService.generate_secret, secrets_.token_urlsafe, os_urandom.
  destruct (nbytes <? 0) eqn:E; [lia|].
  reflexivity.
Qed.

Lemma generate_secret_negative (webhook : Webhook) (nbytes : Z) (w : world) :
  nbytes < 0 ->
  WebhookSecretService.generate_secret webhook nbytes w =
    (w, Raise (ValueError "negative argument not allowed")).
Proof.
  intros Hn.
  unfold WebhookSecretService.generate_secret, secrets_.token_urlsafe, os_urandom.
  destruct (nbytes <? 0) eqn:E; [|lia].
  reflexivity.
Qed.

Lemma secrets_of_after_generate (webhook : Webhook) (nbytes : Z) (w : world) :
  WebhookSecretService.secrets_of webhook (after_generate webhook nbytes w) =
    [mkWebhookSecret (next_pk w) (wh_id webhook) (token_at w nbytes)].
Proof.
  unfold WebhookSecretService.secrets_of, after_generate. simpl.
  rewrite List.filter_app.
  rewrite (filter_out_then_in (fun s => sec_webhook s =? wh_id webhook)).
  simpl. rewrite Z.eqb_refl. reflexivity.
Qed.

(** The characters of the URL-safe alphabet are ASCII. *)
Lemma url_safe_isascii (s : string) :
  forallb url_safe (list_ascii_of_string s) = true -> isascii s = true.
Proof.
  unfold isascii. intros Hsafe. apply forallb_forall. intros c Hc.
  apply (proj1 (forallb_forall _ _) Hsafe) in Hc.
  unfold url_safe in Hc. apply existsb_exists in Hc as (x & Hx & Heq).
  apply Ascii.eqb_eq in Heq. subst x.
  assert (Hall : forallb (fun c => (N_of_ascii c <? 128)%N) base64.urlsafe_alphabet = true)
    by (vm_compute; reflexivity).
  exact (proj1 (forallb_forall _ _) Hall c Hx).
Qed.

Lemma token_at_isascii (w : world) (nbytes : Z) :
  0 <= nbytes -> isascii (token_at w nbytes) = true.
Proof. intros Hn. apply url_safe_isascii, (token_at_shape w nbytes Hn). Qed.

Lemma compare_digest_same (a : string) :
  isascii a = true -> secrets_.compare_digest a a = Ok true.
Proof.
  intros Ha. unfold secrets_.compare_digest. rewrite Ha, String.eqb_refl. reflexivity.
Qed.

Lemma call_run (webhook : Webhook) (c : secret_call) (w : world) :
  valid_call c = true ->
  exists w' s,
    call webhook c w = (w', Ok s)
    /\ WebhookSecretService.secrets_of webhook w' = [s]
    /\ isascii (sec_token s) = true.
Proof.
  intros Hv. destruct c as [n|]; simpl in *.
  - apply Z.leb_le in Hv.
    eexists _, _. split; [apply generate_secret_run, Hv|].
    split; [apply secrets_of_after_generate|apply token_at_isascii, Hv].
  - unfold WebhookSecretService.rotate_secret.
    eexists _, _. split; [apply generate_secret_run; lia|].
    split; [apply secrets_of_after_generate|apply token_at_isascii; lia].
Qed.

(** A run of calls goes through the worlds that its prefixes end in. *)
Lemma calls_app (webhook : Webhook) (p q : list secret_call) (w : world) :
  calls webhook (p ++ q) w =
    (let! created1 := calls webhook p in
     let! created2 := calls webhook q in
     ret (created1 ++ created2)%list) w.
Proof.
  revert w. induction p as [|c p IH]; intros w; simpl.
  - unfold bind, ret. destruct (calls webhook q w) as [w' [l|e]]; reflexivity.
  - unfold bind in *. destruct (call webhook c w) as [w1 [s|e]]; [|reflexivity].
    rewrite IH. destruct (calls webhook p w1) as [w2 [l1|e]]; [|reflexivity].
    unfold ret. destruct (calls webhook q w2) as [w3 [l2|e]]; reflexivity.
Qed.

Lemma calls_run (webhook : Webhook) (cs : list secret_call) (w : world) :
  forallb valid_call cs = true ->
  exists w' created,
    calls webhook cs w = (w', Ok created)
    /\ List.length created = List.length cs
    /\ (cs <> [] ->
        exists newest,
          last created = Some newest
          /\ WebhookSecretService.secrets_of webhook w' = [newest]
          /\ isascii (sec_token newest) = true).
Proof.
  revert w. induction cs as [|c cs IH]; intros w Hv.
  - eexists _, _. split; [reflexivity|]. split; [reflexivity|]. congruence.
  - simpl in Hv. apply andb_prop in Hv as [Hc Hcs].
    destruct (call_run webhook c w Hc) as (w1 & s & Hcall & Hone & Hascii).
    destruct (IH w1 Hcs) as (w2 & created & Hrest & Hlen & Hlast).
    exists w2, (s :: created). split.
    + cbn [calls]. erewrite bind_ok by exact Hcall.
      erewrite bind_ok by exact Hrest. reflexivity.
    + split; [simpl; congruence|]. intros _.
      destruct cs as [|c' cs'].
      * simpl in Hrest. unfold ret in Hrest. injection Hrest as <- <-.
        exists s. split; [reflexivity|]. split; [exact Hone|exact Hascii].
      * destruct Hlast as (newest & Hnewest & Hsecrets); [discriminate|].
        exists newest. split; [|exact Hsecrets].
        destruct created as [|s' created']; [discriminate Hnewest|].
        exact Hnewest.
Qed.

(** C5. After any run of one or more [generate]/[rotate] calls for one
    webhook, started in any store (which may hold no secret of the webhook, or
    several), every call returns, the webhook has exactly one secret, it is the
    one the last call created, and [get_active_secret] returns it. Since every
    prefix of a run is a run ([calls_app]), this holds after each call of the
    run. *)
Theorem one_active_secret
    (w : world) (webhook : Webhook) (cs : list secret_call)
    (Hsome : cs <> [])
    (Hvalid : forallb valid_call cs = true) :
  exists w' created newest,
    calls webhook cs w = (w', Ok created)
    /\ List.length created = List.length cs
    /\ last created = Some newest
    /\ WebhookSecretService.secrets_of webhook w' = [newest]
    /\ WebhookSecretService.get_active_secret webhook w' = (w', Ok (Some newest))
    /\ WebhookSecretService.validate_secret webhook (sec_token newest) w' = (w', Ok true).
Proof.
  destruct (calls_run webhook cs w Hvalid) as (w' & created & Hrun & Hlen & Hlast).
  destruct (Hlast Hsome) as (newest & Hnewest & Hsecrets & Hascii).
  exists w', created, newest.
  repeat split; try assumption.
  - unfold WebhookSecretService.get_active_secret, gets. rewrite Hsecrets. reflexivity.
  - unfold WebhookSecretService.validate_secret, WebhookSecretService.get_active_secret.
    unfold bind, gets, lift. rewrite Hsecrets. simpl.
    rewrite (compare_digest_same _ Hascii). reflexivity.
Qed.

Lemma one_active_secret_witness :
  exists w' created newest,
    calls Shop.hook [Generate 16; Rotate; Generate 64] (Shop.live Shop.zero_repr)
      = (w', Ok created)
    /\ List.length created = List.length [Generate 16; Rotate; Generate 64]
    /\ last created = Some newest
    /\ WebhookSecretService.secrets_of Shop.hook w' = [newest]
    /\ WebhookSecretService.get_active_secret Shop.hook w' = (w', Ok (Some newest))
    /\ WebhookSecretService.validate_secret Shop.hook (sec_token newest) w' = (w', Ok true).
Proof.
  apply (one_active_secret (Shop.live Shop.zero_repr) Shop.hook
           [Generate 16; Rotate; Generate 64]).
  - discriminate.
  - reflexivity.
Defined.

(** C8, as the code has it. [generate_secret(webhook, length)] takes any
    [length >= 0], the default of the service and of [rotate_secret] being 32:
    it reads [length] bytes of system entropy and stores their URL-safe
    base64 text without padding, which has [ceil(4 * length / 3)] characters,
    all from the alphabet [A-Z a-z 0-9 - _], as the only secret of the webhook.
    The range 16..64, with the default 32, is the request schema's: the
    generate endpoint rejects any other length before the service is
    called. *)
Theorem generate_secret_token
    (w : world) (webhook : Webhook) (length : Z)
    (Hlength : 0 <= length) :
  (exists w' secret,
     WebhookSecretService.generate_secret webhook length w = (w', Ok secret)
     /\ sec_token secret = token_at w length
     /\ Z.of_nat (String.length (sec_token secret)) = (4 * length + 2) / 3
     /\ forallb url_safe (list_ascii_of_string (sec_token secret)) = true
     /\ cursor w' = (cursor w + Z.to_nat length)%nat
     /\ WebhookSecretService.secrets_of webhook w' = [secret])
  /\ WebhookSecretService.rotate_secret webhook w =
       WebhookSecretService.generate_secret webhook 32 w
  /\ WebhookSecretGenerateSchema None = Ok 32
  /\ (16 <= length <= 64 -> WebhookSecretGenerateSchema (Some length) = Ok length)
  /\ (forall u, length < 16 \/ 64 < length ->
        exists msg,
          WebhookSecretController.generate_webhook_secret u (Some length) w =
            (w, Raise (ValidationError msg))).
Proof.
  split; [|split; [|split; [|split]]].
  - eexists _, _. split; [apply generate_secret_run, Hlength|].
    destruct (token_at_shape w length Hlength) as [Hlen Hsafe].
    split; [reflexivity|]. split; [exact Hlen|]. split; [exact Hsafe|].
    split; [reflexivity|]. apply secrets_of_after_generate.
  - reflexivity.
  - reflexivity.
  - intros [Hlo Hhi]. unfold WebhookSecretGenerateSchema.
    destruct (length <? 16) eqn:E1; [lia|].
    destruct (64 <? length) eqn:E2; [lia|]. reflexivity.
  - intros u Hout.
    unfold WebhookSecretController.generate_webhook_secret, WebhookSecretGenerateSchema.
    destruct (length <? 16) eqn:E1.
    + eexists. reflexivity.
    + destruct (64 <? length) eqn:E2; [|lia]. eexists. reflexivity.
Qed.

Lemma generate_secret_token_witness :
  (exists w' secret,
     WebhookSecretService.generate_secret Shop.hook 32 (Shop.live Shop.zero_repr)
       = (w', Ok secret)
     /\ sec_token secret = token_at (Shop.live Shop.zero_repr) 32
     /\ Z.of_nat (String.length (sec_token secret)) = (4 * 32 + 2) / 3
     /\ forallb url_safe (list_ascii_of_string (sec_token secret)) = true
     /\ cursor w' = (cursor (Shop.live Shop.zero_repr) + Z.to_nat 32)%nat
     /\ WebhookSecretService.secrets_of Shop.hook w' = [secret])
  /\ WebhookSecretService.rotate_secret Shop.hook (Shop.live Shop.zero_repr) =
       WebhookSecretService.generate_secret Shop.hook 32 (Shop.live Shop.zero_repr)
  /\ WebhookSecretGenerateSchema None = Ok 32
  /\ (16 <= 32 <= 64 -> WebhookSecretGenerateSchema (Some 32) = Ok 32)
  /\ (forall u, 32 < 16 \/ 64 < 32 ->
        exists msg,
          WebhookSecretController.generate_webhook_secret u (Some 32)
            (Shop.live Shop.zero_repr) =
            (Shop.live Shop.zero_repr, Raise (ValidationError msg))).
Proof.
  apply (generate_secret_token (Shop.live Shop.zero_repr) Shop.hook 32).
  discriminate.
Defined.

(** C8, counterexample to the claim as stated: the service generates a secret
    for the length 8, which is outside 16..64, and the token it creates has
    eleven characters, not eight. *)
Lemma generate_secret_takes_length_8 :
  snd (WebhookSecretService.generate_secret Shop.hook 8 (Shop.live Shop.zero_repr))
    = Ok (mkWebhookSecret 10 1 "CzBVep_E6Q4")
  /\ String.length "CzBVep_E6Q4" = 11%nat
  /\ WebhookSecretGenerateSchema (Some 8) =
       Raise (ValidationError "Input should be greater than or equal to 16").
Proof. vm_compute. repeat split; reflexivity. Qed.

(** ** Reconciling the topic catalog *)

Lemma filter_nil_none {A} (f : A -> bool) (l : list A) (x : A) :
  List.filter f l = [] -> In x l -> f x = false.
Proof.
  intros Hnil Hin. destruct (f x) eqn:E; [|reflexivity].
  assert (Hx : In x (List.filter f l)) by (apply filter_In; split; assumption).
  rewrite Hnil in Hx. destruct Hx.
Qed.

Lemma add_new_run (l : list string) (created_count : Z) (w : world) :
  exists w' n,
    Command.add_new l created_count w = (w', Ok n)
    /\ TOPIC_REGISTRY w' = TOPIC_REGISTRY w
    /\ (exists added, topics w' = (topics w ++ added)%list /\ forall t, t ∈ added -> t ∈ l)
    /\ (forall t, t ∈ topics w' <-> t ∈ topics w \/ t ∈ l).
Proof.
  revert created_count w. induction l as [|topic l IH]; intros created_count w.
  - exists w, created_count. split; [reflexivity|]. split; [reflexivity|]. split.
    + exists []. rewrite app_nil_r. split; [reflexivity|]. intros t Ht. inversion Ht.
    + intros t. split; [auto|]. intros [H|H]; [exact H|inversion H].
  - cbn [Command.add_new]. unfold bind at 1. unfold gets at 1.
    destruct (bool_decide (topic ∈ topics w)) eqn:E.
    + apply bool_decide_eq_true in E.
      destruct (IH created_count w) as (w' & n & Hrun & Hreg & (added & Hadd & Hsub) & Hiff).
      exists w', n. split; [exact Hrun|]. split; [exact Hreg|]. split.
      * exists added. split; [exact Hadd|]. intros t Ht. right. apply Hsub, Ht.
      * intros t. rewrite Hiff. rewrite elem_of_cons. split.
        -- intros [H|H]; auto.
        -- intros [H|[->|H]]; auto.
    + unfold bind at 1. unfold modify at 1.
      destruct (IH (created_count + 1) (set_topics (topics w ++ [topic]) w))
        as (w' & n & Hrun & Hreg & (added & Hadd & Hsub) & Hiff).
      exists w', n. split; [exact Hrun|]. split; [exact Hreg|]. split.
      * exists (topic :: added). simpl in Hadd. rewrite Hadd, <- app_assoc.
        split; [reflexivity|]. intros t Ht. apply elem_of_cons in Ht as [->|Ht].
        -- left.
        -- right. apply Hsub, Ht.
      * intros t. rewrite Hiff. cbn [topics set_topics].
        rewrite elem_of_app, !elem_of_cons, elem_of_nil. tauto.
Qed.

Lemma handle_empty_registry (w : world) (force : bool) :
  dom (TOPIC_REGISTRY w) = (∅ : gset string) ->
  Command.handle force None w = (w, Ok ["No topics found in registry."]).
Proof.
  intros Hempty. unfold Command.handle, bind, gets.
  rewrite bool_decide_eq_true_2 by exact Hempty. reflexivity.
Qed.

(** C6, as the code has it. When the store answers and the registry binds at
    least one topic, the routine returns and leaves the registry as it was
    and a catalog whose names are exactly the registry's keys: every name that
    the registry does not bind is gone, every key that the store lacked was
    appended, and the rows of bound names stay where they were. (With an
    empty registry the routine only writes a warning: [handle_empty_registry].) *)
Theorem populate_mirrors_registry
    (w : world) (force : bool)
    (Hbound : dom (TOPIC_REGISTRY w) <> (∅ : gset string)) :
  exists w' out,
    Command.handle force None w = (w', Ok out)
    /\ TOPIC_REGISTRY w' = TOPIC_REGISTRY w
    /\ (forall t, t ∈ topics w' <-> is_Some (TOPIC_REGISTRY w !! t))
    /\ (forall t, t ∈ topics w -> TOPIC_REGISTRY w !! t = None -> t ∉ topics w')
    /\ (forall t, is_Some (TOPIC_REGISTRY w !! t) -> t ∈ topics w')
    /\ (exists added,
          topics w' =
            (List.filter (fun t => bool_decide (t ∈ dom (TOPIC_REGISTRY w))) (topics w)
             ++ added)%list).
Proof.
  set (allowed := dom (TOPIC_REGISTRY w) : gset string).
  set (kept := List.filter (fun t => bool_decide (t ∈ allowed)) (topics w)).
  (* the world after the removal step *)
  set (deleted_count := Z.of_nat (List.length (Command.obsolete allowed w))).
  assert (Hstep1 : exists w1 out1,
    (if 0 <? deleted_count then
       let! _ := Command.delete_obsolete allowed in
       ret ["Removed " +:+ pretty deleted_count +:+ " obsolete webhook topics."]
     else ret []) w = (w1, Ok out1)
    /\ TOPIC_REGISTRY w1 = TOPIC_REGISTRY w /\ topics w1 = kept).
  { destruct (0 <? deleted_count) eqn:E.
    - eexists _, _. split; [reflexivity|]. split; reflexivity.
    - exists w. eexists. split; [reflexivity|]. split; [reflexivity|].
      apply Z.ltb_ge in E. unfold deleted_count in E.
      assert (Hnil : Command.obsolete allowed w = []).
      { destruct (Command.obsolete allowed w); [reflexivity|simpl in E; lia]. }
      unfold kept. symmetry. apply forallb_filter_id. apply forallb_forall.
      intros t Ht. unfold Command.obsolete in Hnil.
      pose proof (filter_nil_none _ _ t Hnil Ht) as Hf. simpl in Hf.
      apply bool_decide_eq_false in Hf. apply bool_decide_eq_true.
      destruct (decide (t ∈ allowed)); [assumption|contradiction]. }
  destruct Hstep1 as (w1 & out1 & Hrun1 & Hreg1 & Htop1).
  destruct (add_new_run (elements allowed) 0 w1)
    as (w2 & n & Hrun2 & Hreg2 & (added & Hadd & _) & Hiff).
  assert (Hmirror : forall t, t ∈ topics w2 <-> is_Some (TOPIC_REGISTRY w !! t)).
  { intros t. rewrite Hiff, Htop1, elem_of_elements. unfold kept.
    rewrite list_elem_of_In, filter_In, <- list_elem_of_In, bool_decide_eq_true.
    unfold allowed. rewrite elem_of_dom. tauto. }
  exists w2. eexists. split.
  - unfold Command.handle. unfold bind at 1. unfold gets at 1. fold allowed.
    rewrite bool_decide_eq_false_2 by exact Hbound.
    rewrite (bind_ok _ _ w w deleted_count) by reflexivity.
    erewrite bind_ok by exact Hrun1.
    erewrite bind_ok by exact Hrun2.
    reflexivity.
  - split; [congruence|]. split; [exact Hmirror|]. split; [|split].
    + intros t _ Hnone Hin. apply Hmirror in Hin. rewrite Hnone in Hin.
      destruct Hin as [x Hx]. discriminate Hx.
    + intros t Hsome. apply Hmirror, Hsome.
    + exists added. rewrite Hadd, Htop1. reflexivity.
Qed.

Lemma populate_mirrors_registry_witness :
  exists w' out,
    Command.handle false None (Shop.live Shop.zero_repr) = (w', Ok out)
    /\ TOPIC_REGISTRY w' = TOPIC_REGISTRY (Shop.live Shop.zero_repr)
    /\ (forall t, t ∈ topics w' <-> is_Some (TOPIC_REGISTRY (Shop.live Shop.zero_repr) !! t))
    /\ (forall t, t ∈ topics (Shop.live Shop.zero_repr) ->
          TOPIC_REGISTRY (Shop.live Shop.zero_repr) !! t = None -> t ∉ topics w')
    /\ (forall t, is_Some (TOPIC_REGISTRY (Shop.live Shop.zero_repr) !! t) -> t ∈ topics w')
    /\ (exists added,
          topics w' =
            (List.filter
               (fun t => bool_decide (t ∈ dom (TOPIC_REGISTRY (Shop.live Shop.zero_repr))))
               (topics (Shop.live Shop.zero_repr))
             ++ added)%list).
Proof.
  apply (populate_mirrors_registry (Shop.live Shop.zero_repr) false).
  apply (proj1 (bool_decide_eq_false
                  (dom (TOPIC_REGISTRY (Shop.live Shop.zero_repr)) = (∅ : gset string)))).
  vm_compute. reflexivity.
Defined.

(** C6, counterexample to the claim as stated: before any topic is registered
    the routine returns at once, and the catalog keeps both of its names,
    neither of which the registry binds. *)
Lemma populate_keeps_catalog_of_empty_registry :
  Command.handle false None (Shop.unregistered Shop.zero_repr) =
    (Shop.unregistered Shop.zero_repr, Ok ["No topics found in registry."])
  /\ topics (Shop.unregistered Shop.zero_repr) = ["order.created"; "old.topic"]
  /\ TOPIC_REGISTRY (Shop.unregistered Shop.zero_repr) !! "old.topic" = None.
Proof.
  split; [|split; reflexivity].
  apply handle_empty_registry. reflexivity.
Qed.

(** ** Bulk operations *)

Lemma count_add {A} (f : A -> bool) (x : A) (l : list A) :
  count f (x :: l) = (if f x then 1 else 0) + count f l.
Proof. unfold count. simpl. destruct (f x); simpl; lia. Qed.

Lemma count_split (l : list bool) :
  count (fun b => b) l + count negb l = Z.of_nat (List.length l).
Proof.
  induction l as [|b l IH]; [reflexivity|].
  rewrite !count_add. destruct b; simpl List.length; simpl negb; lia.
Qed.

Lemma count_nonneg {A} (f : A -> bool) (l : list A) : 0 <= count f l.
Proof. unfold count. lia. Qed.

Lemma no_failure_iff_all_ok (l : list bool) :
  (count negb l =? 0) = forallb (fun b => b) l.
Proof.
  induction l as [|b l IH]; [reflexivity|].
  rewrite count_add. destruct b; simpl.
  - exact IH.
  - pose proof (count_nonneg negb l). apply Z.eqb_neq. lia.
Qed.

Lemma counting_loop_run {A B} (op : A -> M B) (items : list A)
    (done_count failed_count : Z) (w : world) :
  exists w',
    WebhookBulkController.counting_loop op items done_count failed_count w =
      (w', Ok (done_count + count (fun b => b) (outcomes op items w),
               failed_count + count negb (outcomes op items w))).
Proof.
  revert done_count failed_count w.
  induction items as [|x items IH]; intros d f w.
  - exists w. simpl. unfold ret, count. simpl. rewrite !Z.add_0_r. reflexivity.
  - cbn [WebhookBulkController.counting_loop outcomes].
    unfold bind at 1. unfold try_except. unfold bind at 1.
    destruct (op x w) as [w1 [b|e]]; simpl.
    + destruct (IH (d + 1) f w1) as (w' & Hrun). exists w'. rewrite Hrun.
      rewrite !count_add. cbn [is_ok negb]. do 3 f_equal; lia.
    + destruct (IH d (f + 1) w1) as (w' & Hrun). exists w'. rewrite Hrun.
      rewrite !count_add. cbn [is_ok negb]. do 3 f_equal; lia.
Qed.

Lemma bulk_create_loop_run (items : list WebhookCreateSchema) (acc : list Webhook) (w : world) :
  exists w' created,
    WebhookBulkController.bulk_create_loop items acc w = (w', Ok (acc ++ created)%list)
    /\ Z.of_nat (List.length created) = count (fun b => b) (outcomes create_from items w).
Proof.
  revert acc w. induction items as [|x items IH]; intros acc w.
  - exists w, []. rewrite app_nil_r. split; reflexivity.
  - cbn [WebhookBulkController.bulk_create_loop outcomes].
    unfold bind at 1. unfold try_except. unfold bind at 1.
    unfold create_from at 1 2.
    destruct (WebhookService.create_webhook (new_url x) (new_topics x) w) as [w1 [h|e]]; simpl.
    + destruct (IH (acc ++ [h])%list w1) as (w' & created & Hrun & Hlen).
      exists w', (h :: created). rewrite Hrun, <- app_assoc. split; [reflexivity|].
      rewrite count_add. simpl List.length. unfold create_from in Hlen. lia.
    + destruct (IH acc w1) as (w' & created & Hrun & Hlen).
      exists w', created. rewrite Hrun. split; [reflexivity|].
      rewrite count_add. unfold create_from in Hlen. simpl. lia.
Qed.

(** C7, as the code has it. A bulk update or delete never raises: it tries
    every item, whatever happened to the items before it, counts the items
    that went through and those that failed (the two counts add up to the
    number of items), reports both counts in its message, and sets [success]
    exactly when no item failed; so a partial success is reported with
    [success = False]. A bulk create never raises either and returns the
    webhooks of the items that went through. *)
Theorem bulk_operations_count_failures
    (w : world) (webhook_ids : list UUID) (updates : WebhookUpdateSchema)
    (payload : list WebhookCreateSchema) :
  let updated := outcomes (update_with updates) webhook_ids w in
  let deleted := outcomes WebhookService.delete_webhook webhook_ids w in
  (exists w',
     WebhookBulkController.bulk_update_webhooks webhook_ids updates w =
       (w', Ok {| resp_success := forallb (fun b => b) updated;
                  resp_message := "Updated " +:+ pretty (count (fun b => b) updated)
                                  +:+ " webhooks, " +:+ pretty (count negb updated)
                                  +:+ " failed";
                  resp_webhook_id := None |}))
  /\ (exists w',
     WebhookBulkController.bulk_delete_webhooks webhook_ids w =
       (w', Ok {| resp_success := forallb (fun b => b) deleted;
                  resp_message := "Deleted " +:+ pretty (count (fun b => b) deleted)
                                  +:+ " webhooks, " +:+ pretty (count negb deleted)
                                  +:+ " failed";
                  resp_webhook_id := None |}))
  /\ count (fun b => b) updated + count negb updated = Z.of_nat (List.length webhook_ids)
  /\ count (fun b => b) deleted + count negb deleted = Z.of_nat (List.length webhook_ids)
  /\ (exists w' created,
     WebhookBulkController.bulk_create_webhooks payload w = (w', Ok created)
     /\ Z.of_nat (List.length created) = count (fun b => b) (outcomes create_from payload w)).
Proof.
  assert (Hlen : forall {A B} (op : A -> M B) (items : list A) (w : world),
            List.length (outcomes op items w) = List.length items).
  { intros A B op items. induction items as [|x items IH]; intros w0; simpl.
    - reflexivity.
    - destruct (op x w0) as [w1 r]. simpl. rewrite IH. reflexivity. }
  intros updated deleted.
  split; [|split; [|split; [|split]]].
  - destruct (counting_loop_run (update_with updates) webhook_ids 0 0 w) as (w' & Hrun).
    exists w'. unfold WebhookBulkController.bulk_update_webhooks.
    unfold update_with in Hrun at 1.
    erewrite bind_ok by exact Hrun.
    fold updated. rewrite !Z.add_0_l, no_failure_iff_all_ok. reflexivity.
  - destruct (counting_loop_run WebhookService.delete_webhook webhook_ids 0 0 w) as (w' & Hrun).
    exists w'. unfold WebhookBulkController.bulk_delete_webhooks.
    erewrite bind_ok by exact Hrun.
    fold deleted. rewrite !Z.add_0_l, no_failure_iff_all_ok. reflexivity.
  - rewrite count_split. unfold updated. rewrite Hlen. reflexivity.
  - rewrite count_split. unfold deleted. rewrite Hlen. reflexivity.
  - destruct (bulk_create_loop_run payload [] w) as (w' & created & Hrun & Hcount).
    exists w', created. split; [exact Hrun|exact Hcount].
Qed.

(** C7, counterexample to the claim as stated: of two webhooks to delete one
    exists and is deleted, the other is unknown, and the response says
    [success = False]. *)
Lemma partial_bulk_delete_reports_failure :
  snd (WebhookBulkController.bulk_delete_webhooks [Shop.hook_uuid; Shop.other_uuid]
         (Shop.live Shop.zero_repr))
    = Ok {| resp_success := false;
            resp_message := "Deleted 1 webhooks, 1 failed";
            resp_webhook_id := None |}
  /\ webhooks (fst (WebhookBulkController.bulk_delete_webhooks
                      [Shop.hook_uuid; Shop.other_uuid] (Shop.live Shop.zero_repr))) = []
  /\ webhooks (Shop.live Shop.zero_repr) = [Shop.hook].
Proof. vm_compute. repeat split; reflexivity. Qed.

(** ** Health *)

Lemma get_event_stats_run (webhook : Webhook) (days : Z) (w : world) :
  WebhookEventService.get_event_stats webhook days w =
    (w, Ok (stats_of (WebhookEventService.events_since webhook
                        (clock w - days * microseconds_per_day) w))).
Proof. reflexivity. Qed.

(** On every pair of counts up to 400 events the float computation classifies
    as the exact quotient does. *)
Lemma health_status_exact_upto_400 :
  forallb (fun t =>
    forallb (fun s =>
      String.eqb (health_status_of (success_rate_of (counts (Z.of_nat t) (Z.of_nat s))))
                 (exact_status (Z.of_nat s) (Z.of_nat t)))
      (List.seq 0 (S t)))
    (List.seq 1 400) = true.
Proof. vm_compute. reflexivity. Qed.

(** C9. The health of a webhook is computed from its events of the seven days
    before now, and from nothing else: the call takes no window, and worlds
    that agree on the clock and on those events give the same status and the
    same rate. The rate is [0] when there is no such event and the float
    [success / total * 100] otherwise (reported rounded to two digits), and
    the status is ['healthy'] when the rate is at least 95, ['warning'] when
    it is at least 80, and ['unhealthy'] otherwise; in particular 96, 85 and
    50 successes out of 100 are healthy, warning and unhealthy. *)
Theorem webhook_health_classification
    (round2 : float -> float) (w : world) (webhook : Webhook) :
  let stats := stats_of (last_7_days webhook w) in
  let rate := success_rate_of stats in
  (exists h,
     get_webhook_health round2 webhook w = (w, Ok h)
     /\ events_last_7_days h = stats
     /\ health_success_rate h = round_2 round2 rate
     /\ health_status h = health_status_of rate)
  /\ WebhookEventService.get_event_stats webhook 7 w = (w, Ok stats)
  /\ (forall w2, clock w2 = clock w -> last_7_days webhook w2 = last_7_days webhook w ->
        forall h h2,
          get_webhook_health round2 webhook w = (w, Ok h) ->
          get_webhook_health round2 webhook w2 = (w2, Ok h2) ->
          health_status h2 = health_status h
          /\ health_success_rate h2 = health_success_rate h)
  /\ (total stats = 0 -> rate = PInt 0 /\ round_2 round2 rate = PInt 0)
  /\ (0 < total stats ->
        rate = PFloat ((float_of_Z (success stats) / float_of_Z (total stats))
                       * float_of_Z 100)%float)
  /\ (pynum_ge rate 95 = true -> health_status_of rate = "healthy")
  /\ (pynum_ge rate 95 = false -> pynum_ge rate 80 = true ->
        health_status_of rate = "warning")
  /\ (pynum_ge rate 95 = false -> pynum_ge rate 80 = false ->
        health_status_of rate = "unhealthy")
  /\ health_status_of (success_rate_of (counts 100 96)) = "healthy"
  /\ health_status_of (success_rate_of (counts 100 85)) = "warning"
  /\ health_status_of (success_rate_of (counts 100 50)) = "unhealthy"
  /\ success_rate_of (counts 0 0) = PInt 0.
Proof.
  intros stats rate.
  assert (Hrun : forall w0,
            get_webhook_health round2 webhook w0 =
              (w0, Ok {| health_webhook_id := uuid_str (wh_uuid webhook);
                         health_url := wh_url webhook;
                         health_active := wh_active webhook;
                         health_status :=
                           health_status_of (success_rate_of (stats_of (last_7_days webhook w0)));
                         health_success_rate :=
                           round_2 round2 (success_rate_of (stats_of (last_7_days webhook w0)));
                         events_last_7_days := stats_of (last_7_days webhook w0);
                         last_event := option_map ev_created (first_event webhook w0) |})).
  { intros w0. reflexivity. }
  split; [|split; [|split; [|split; [|split; [|split; [|split; [|split]]]]]]].
  - eexists. split; [apply Hrun|]. repeat split; reflexivity.
  - reflexivity.
  - intros w2 Hclock Hevents h h2 Hh Hh2.
    rewrite Hrun in Hh, Hh2. injection Hh as <-. injection Hh2 as <-.
    simpl. rewrite Hevents. split; reflexivity.
  - intros Hzero. unfold rate, success_rate_of. rewrite Hzero. split; reflexivity.
  - intros Hpos. unfold rate, success_rate_of.
    apply Z.ltb_lt in Hpos. rewrite Hpos. reflexivity.
  - intros H95. unfold health_status_of. rewrite H95. reflexivity.
  - intros H95 H80. unfold health_status_of. rewrite H95, H80. reflexivity.
  - intros H95 H80. unfold health_status_of. rewrite H95, H80. reflexivity.
  - repeat split; vm_compute; reflexivity.
Qed.

(** * Further properties *)

(** ** The registry *)

(** X1. Registration is last-write-wins: after two registrations of one topic
    the handler that [get_handler] returns is the second one, the world is the
    one that the second registration alone would give, and the bindings of
    all other topics are as before. *)
Theorem register_topic_last_write_wins
    (w : world) (topic other : string) (f g : handler) :
  let w2 := fst (register_topic topic g (fst (register_topic topic f w))) in
  get_handler topic w2 = (w2, Ok g)
  /\ w2 = fst (register_topic topic g w)
  /\ (other <> topic -> get_handler other w2 =
        (w2, snd (get_handler other w)))
  /\ dom (TOPIC_REGISTRY w2) = {[topic]} ∪ dom (TOPIC_REGISTRY w).
Proof.
  intros w2.
  assert (Hw2 : w2 = set_registry (<[topic := g]> (TOPIC_REGISTRY w)) w).
  { unfold w2, register_topic, modify. simpl. unfold set_registry. simpl.
    rewrite insert_insert_eq. reflexivity. }
  split; [|split; [|split]].
  - apply get_handler_bound. rewrite Hw2. simpl. apply lookup_insert_eq.
  - rewrite Hw2. reflexivity.
  - intros Hne. unfold get_handler, bind, gets. rewrite Hw2. simpl.
    rewrite lookup_insert_ne by congruence.
    destruct (TOPIC_REGISTRY w !! other); reflexivity.
  - rewrite Hw2. simpl. apply dom_insert_L.
Qed.

(** ** The dispatcher: both modes *)

Lemma console_step (s : Settings) (payload_body : pyval) (payload topic : string)
    (id : Z) (uuid : UUID) (w : world) :
  MODE s <> "LIVE" ->
  PAYLOAD_ENCODER_CLASS s payload_body = Ok payload ->
  (let! (id, uuid) := lift (unpack2 (Row id uuid)) in
   let! now := timezone_now in
   let payload_dict := make_payload_dict payload_body topic now uuid in
   let! payload := lift (json_dumps payload_body (PAYLOAD_ENCODER_CLASS s)) in
   if String.eqb (MODE s) "LIVE" then task_fire_webhook_delay id payload topic
   else print_console payload_dict) w
  = (set_console
       (console w ++ [make_payload_dict payload_body topic (clock w) (KUuid uuid)]) w,
     Ok tt).
Proof.
  intros Hmode Henc.
  unfold bind, lift, timezone_now, gets, json_dumps. simpl.
  rewrite Henc. apply String.eqb_neq in Hmode. rewrite Hmode. reflexivity.
Qed.

Lemma set_console_id (w : world) : set_console (console w) w = w.
Proof. destruct w; reflexivity. Qed.

Lemma console_loop (s : Settings) (payload_body : pyval) (payload topic : string)
    (subs : list Webhook) (w : world) :
  MODE s <> "LIVE" ->
  PAYLOAD_ENCODER_CLASS s payload_body = Ok payload ->
  for_each (List.map (fun x => Row (wh_id x) (wh_uuid x)) subs) (fun x =>
    let! (id, uuid) := lift (unpack2 x) in
    let! now := timezone_now in
    let payload_dict := make_payload_dict payload_body topic now uuid in
    let! payload := lift (json_dumps payload_body (PAYLOAD_ENCODER_CLASS s)) in
    if String.eqb (MODE s) "LIVE" then task_fire_webhook_delay id payload topic
    else print_console payload_dict) w
  = (set_console
       (console w ++
        List.map (fun x => make_payload_dict payload_body topic (clock w) (KUuid (wh_uuid x)))
          subs) w,
     Ok tt).
Proof.
  intros Hmode Henc. revert w.
  induction subs as [|x subs IH]; intros w.
  - simpl. rewrite app_nil_r, set_console_id. reflexivity.
  - cbn [List.map for_each].
    erewrite bind_ok by (apply (console_step s payload_body payload); eassumption).
    rewrite IH. simpl. rewrite <- app_assoc. reflexivity.
Qed.

Lemma valid_body_passes (payload_body : pyval) :
  isinstance_str_dict payload_body || is_None payload_body = true ->
  negb (isinstance_str_dict payload_body) && negb (is_None payload_body) = false.
Proof.
  destruct (isinstance_str_dict payload_body), (is_None payload_body);
    simpl; congruence.
Qed.

Lemma find_webhooks_uncached (topic : string) (w : world) :
  USE_CACHE (wh_settings w) = false ->
  _find_webhooks topic w =
    (w, Ok (List.map (fun x => Row (wh_id x) (wh_uuid x)) (subscribers topic w))).
Proof.
  intros Hcache. unfold _find_webhooks, bind, get_settings, gets.
  rewrite Hcache. reflexivity.
Qed.

(** X2. Without the cache, a dispatch whose handler keeps the payload contract
    and whose body the encoder accepts reaches every active subscriber of the
    topic once, in the order of the table, and nobody else: in live mode it
    appends one job per subscriber, with the subscriber's key and the encoded
    body, and prints nothing; in any other mode it schedules nothing and
    prints one record per subscriber, with the body under [object], the
    topic, the time of the dispatch and the subscriber's public identifier.
    Nothing else of the world changes. *)
Theorem dispatch_reaches_every_subscriber
    (w : world) (topic : string) (data : pyval)
    (h : handler) (payload_body : pyval) (payload : string)
    (Hreg : TOPIC_REGISTRY w !! topic = Some h)
    (Hbody : h data = Ok payload_body)
    (Hvalid : isinstance_str_dict payload_body || is_None payload_body = true)
    (Hcache : USE_CACHE (wh_settings w) = false)
    (Henc : PAYLOAD_ENCODER_CLASS (wh_settings w) payload_body = Ok payload) :
  handle_fire_webhook topic data None w =
    (if String.eqb (MODE (wh_settings w)) "LIVE" then
       set_queue
         (queue w ++
          List.map (fun x => mkJob (KInt (wh_id x)) payload topic) (subscribers topic w)) w
     else
       set_console
         (console w ++
          List.map (fun x =>
            VDict [("object", payload_body);
                   ("topic", VStr topic);
                   ("timestamp", VFloat (timestamp (clock w)));
                   ("webhook_uuid", VStr (uuid_str (wh_uuid x)))])
            (subscribers topic w)) w,
     Ok tt).
Proof.
  destruct (String.eqb (MODE (wh_settings w)) "LIVE") eqn:Hmode.
  - apply String.eqb_eq in Hmode.
    apply (live_dispatch_uncached w topic data h payload_body payload); assumption.
  - apply String.eqb_neq in Hmode.
    rewrite (handle_fire_webhook_body w topic data None h (Ok payload_body) Hreg Hbody).
    unfold bind at 1. unfold lift at 1.
    rewrite (valid_body_passes payload_body Hvalid).
    erewrite bind_ok by (apply find_webhooks_uncached, Hcache).
    apply (console_loop (wh_settings w) payload_body payload); assumption.
Qed.

Lemma dispatch_reaches_every_subscriber_witness :
  handle_fire_webhook "order.created" Shop.order_7 None (Shop.diagnostic Shop.zero_repr) =
    (if String.eqb (MODE (wh_settings (Shop.diagnostic Shop.zero_repr))) "LIVE" then
       set_queue
         (queue (Shop.diagnostic Shop.zero_repr) ++
          List.map (fun x => mkJob (KInt (wh_id x)) Shop.order_7_json "order.created")
            (subscribers "order.created" (Shop.diagnostic Shop.zero_repr)))
         (Shop.diagnostic Shop.zero_repr)
     else
       set_console
         (console (Shop.diagnostic Shop.zero_repr) ++
          List.map (fun x =>
            VDict [("object", Shop.order_7);
                   ("topic", VStr "order.created");
                   ("timestamp", VFloat (timestamp (clock (Shop.diagnostic Shop.zero_repr))));
                   ("webhook_uuid", VStr (uuid_str (wh_uuid x)))])
            (subscribers "order.created" (Shop.diagnostic Shop.zero_repr)))
         (Shop.diagnostic Shop.zero_repr),
     Ok tt).
Proof.
  apply (dispatch_reaches_every_subscriber (Shop.diagnostic Shop.zero_repr) "order.created"
           Shop.order_7 Shop.order_created Shop.order_7 Shop.order_7_json);
    reflexivity.
Defined.

(** ** The dispatcher: failures *)

Lemma step_encoder_raises (s : Settings) (payload_body : pyval) (topic : string)
    (id : Z) (uuid : UUID) (e : exn) (w : world) :
  PAYLOAD_ENCODER_CLASS s payload_body = Raise e ->
  (let! (id, uuid) := lift (unpack2 (Row id uuid)) in
   let! now := timezone_now in
   let payload_dict := make_payload_dict payload_body topic now uuid in
   let! payload := lift (json_dumps payload_body (PAYLOAD_ENCODER_CLASS s)) in
   if String.eqb (MODE s) "LIVE" then task_fire_webhook_delay id payload topic
   else print_console payload_dict) w
  = (w, Raise e).
Proof.
  intros Henc. unfold bind, lift, timezone_now, gets, json_dumps. simpl.
  rewrite Henc. reflexivity.
Qed.

(** X3. What the handler or the encoder refuses is refused before any
    delivery. An exception of the handler leaves the dispatcher as it is, for
    any target, with the world as it was. Without the cache and without a
    target, a body of the right type that the encoder rejects makes the
    dispatch raise the encoder's exception with the world as it was, no job
    and no console output for any subscriber, when the topic has an active
    subscriber; when it has none the encoder is never called and the dispatch
    returns normally. *)
Theorem refused_body_reaches_no_subscriber
    (w : world) (topic : string) (data : pyval) (h : handler)
    (Hreg : TOPIC_REGISTRY w !! topic = Some h)
    (Hcache : USE_CACHE (wh_settings w) = false) :
  (forall e target,
     h data = Raise e ->
     handle_fire_webhook topic data target w = (w, Raise e))
  /\ (forall payload_body e,
        h data = Ok payload_body ->
        isinstance_str_dict payload_body || is_None payload_body = true ->
        PAYLOAD_ENCODER_CLASS (wh_settings w) payload_body = Raise e ->
        handle_fire_webhook topic data None w =
          (w, match subscribers topic w with
              | [] => Ok tt
              | _ :: _ => Raise e
              end)).
Proof.
  split.
  - intros e target Hbody.
    rewrite (handle_fire_webhook_body w topic data target h (h data) Hreg eq_refl).
    unfold bind at 1. unfold lift at 1. rewrite Hbody. reflexivity.
  - intros payload_body e Hbody Hvalid Henc.
    rewrite (handle_fire_webhook_body w topic data None h (h data) Hreg eq_refl).
    unfold bind at 1. unfold lift at 1. rewrite Hbody.
    assert (Hv : negb (isinstance_str_dict payload_body) && negb (is_None payload_body)
                 = false).
    { destruct (isinstance_str_dict payload_body), (is_None payload_body);
        try reflexivity; discriminate Hvalid. }
    rewrite Hv.
    erewrite bind_ok by (apply find_webhooks_uncached, Hcache).
    destruct (subscribers topic w) as [|x subs].
    + reflexivity.
    + cbn [List.map for_each].
      erewrite bind_raise by (apply step_encoder_raises, Henc).
      reflexivity.
Qed.

Lemma refused_body_reaches_no_subscriber_witness :
  handle_fire_webhook "order.created" (VDict []) None Shop.strict =
    (Shop.strict, Raise (KeyError "id"))
  /\ handle_fire_webhook "order.created" Shop.order_7 None Shop.strict =
       (Shop.strict, Raise (TypeError "Object is not JSON serializable"))
  /\ handle_fire_webhook "order.created" Shop.order_7 None (set_webhooks [] Shop.strict) =
       (set_webhooks [] Shop.strict, Ok tt).
Proof.
  split; [|split].
  - apply (proj1 (refused_body_reaches_no_subscriber Shop.strict "order.created" (VDict [])
                    Shop.order_created eq_refl eq_refl)).
    reflexivity.
  - apply (proj2 (refused_body_reaches_no_subscriber Shop.strict "order.created" Shop.order_7
                    Shop.order_created eq_refl eq_refl) Shop.order_7);
      reflexivity.
  - apply (proj2 (refused_body_reaches_no_subscriber (set_webhooks [] Shop.strict)
                    "order.created" Shop.order_7 Shop.order_created eq_refl eq_refl)
                 Shop.order_7 (TypeError "Object is not JSON serializable"));
      reflexivity.
Defined.

(** ** The dispatcher: what it leaves alone *)

Lemma same_store_refl (w : world) : same_store w w.
Proof. unfold same_store. repeat split; reflexivity. Qed.

Lemma dispatched_refl (w : world) : dispatched w w [] [].
Proof.
  unfold dispatched. rewrite !app_nil_r.
  split; [apply same_store_refl|split; reflexivity].
Qed.

Lemma dispatched_trans (w w1 w2 : world) (j1 j2 : list Job) (o1 o2 : list pyval) :
  dispatched w w1 j1 o1 -> dispatched w1 w2 j2 o2 ->
  dispatched w w2 (j1 ++ j2) (o1 ++ o2).
Proof.
  unfold dispatched, same_store.
  intros (Hs1 & Hq1 & Hc1) (Hs2 & Hq2 & Hc2).
  rewrite Hq2, Hq1, Hc2, Hc1, <- !app_assoc.
  split; [|split; reflexivity].
  destruct Hs1 as (?&?&?&?&?&?&?&?&?&?), Hs2 as (?&?&?&?&?&?&?&?&?&?).
  repeat split; congruence.
Qed.

Lemma find_webhooks_frame (topic : string) (w : world) :
  exists w1 r, _find_webhooks topic w = (w1, r) /\ dispatched w w1 [] [].
Proof.
  unfold _find_webhooks, bind, get_settings, gets.
  destruct (USE_CACHE (wh_settings w)).
  - unfold _query_webhooks_cached, cache, bind, timezone_now, gets.
    destruct (query_cache w !! topic) as [[expires rows]|].
    + destruct (clock w <? expires).
      * eexists _, _. split; [reflexivity|apply dispatched_refl].
      * eexists _, _. split; [reflexivity|].
        unfold dispatched, same_store. simpl. rewrite !app_nil_r. repeat split; reflexivity.
    + eexists _, _. split; [reflexivity|].
      unfold dispatched, same_store. simpl. rewrite !app_nil_r. repeat split; reflexivity.
  - eexists _, _. split; [reflexivity|apply dispatched_refl].
Qed.

Lemma step_frame (s : Settings) (payload_body : pyval) (topic : string)
    (x : webhook_ref) (w : world) :
  exists w' r jobs out,
    (let! (id, uuid) := lift (unpack2 x) in
     let! now := timezone_now in
     let payload_dict := make_payload_dict payload_body topic now uuid in
     let! payload := lift (json_dumps payload_body (PAYLOAD_ENCODER_CLASS s)) in
     if String.eqb (MODE s) "LIVE" then task_fire_webhook_delay id payload topic
     else print_console payload_dict) w = (w', r)
    /\ dispatched w w' jobs out
    /\ (MODE s = "LIVE" -> out = [])
    /\ (MODE s <> "LIVE" -> jobs = [])
    /\ Forall (fun j => job_topic j = topic) jobs
    /\ (List.length jobs + List.length out <= 1)%nat.
Proof.
  unfold bind, lift, timezone_now, gets, json_dumps.
  destruct (unpack2 x) as [[id uuid]|e].
  2:{ exists w, (Raise e), [], []. split; [reflexivity|].
      split; [apply dispatched_refl|]. simpl. repeat split; auto. }
  destruct (PAYLOAD_ENCODER_CLASS s payload_body) as [payload|e].
  2:{ exists w, (Raise e), [], []. split; [reflexivity|].
      split; [apply dispatched_refl|]. simpl. repeat split; auto. }
  destruct (String.eqb (MODE s) "LIVE") eqn:Hmode.
  - eexists _, _, [mkJob id payload topic], []. split; [reflexivity|].
    split.
    + unfold dispatched, same_store. simpl. rewrite app_nil_r. repeat split; reflexivity.
    + split; [reflexivity|]. split.
      * intros Hne. apply String.eqb_eq in Hmode. contradiction.
      * split; [repeat constructor|simpl; lia].
  - eexists _, _, [], [_]. split; [reflexivity|].
    split.
    + unfold dispatched, same_store. simpl. rewrite app_nil_r. repeat split; reflexivity.
    + split.
      * intros Heq. apply String.eqb_neq in Hmode. contradiction.
      * split; [reflexivity|]. split; [constructor|simpl; lia].
Qed.

Lemma loop_frame (s : Settings) (payload_body : pyval) (topic : string)
    (items : list webhook_ref) (w : world) :
  exists w' r jobs out,
    for_each items (fun x =>
      let! (id, uuid) := lift (unpack2 x) in
      let! now := timezone_now in
      let payload_dict := make_payload_dict payload_body topic now uuid in
      let! payload := lift (json_dumps payload_body (PAYLOAD_ENCODER_CLASS s)) in
      if String.eqb (MODE s) "LIVE" then task_fire_webhook_delay id payload topic
      else print_console payload_dict) w = (w', r)
    /\ dispatched w w' jobs out
    /\ (MODE s = "LIVE" -> out = [])
    /\ (MODE s <> "LIVE" -> jobs = [])
    /\ Forall (fun j => job_topic j = topic) jobs
    /\ (List.length jobs + List.length out <= List.length items)%nat.
Proof.
  revert w. induction items as [|x items IH]; intros w.
  - exists w, (Ok tt), [], []. split; [reflexivity|].
    split; [apply dispatched_refl|]. repeat split; auto.
  - cbn [for_each].
    destruct (step_frame s payload_body topic x w)
      as (w1 & r1 & j1 & o1 & Hrun1 & Hd1 & Hl1 & Hc1 & Ht1 & Hsize1).
    destruct r1 as [[]|e].
    + destruct (IH w1) as (w2 & r2 & j2 & o2 & Hrun2 & Hd2 & Hl2 & Hc2 & Ht2 & Hsize2).
      exists w2, r2, (j1 ++ j2)%list, (o1 ++ o2)%list.
      split; [erewrite bind_ok by exact Hrun1; exact Hrun2|].
      split; [eapply dispatched_trans; eassumption|].
      split; [intros Hm; rewrite Hl1, Hl2 by exact Hm; reflexivity|].
      split; [intros Hm; rewrite Hc1, Hc2 by exact Hm; reflexivity|].
      split; [apply Forall_app; split; assumption|].
      rewrite !length_app. simpl. lia.
    + exists w1, (Raise e), j1, o1.
      split; [erewrite bind_raise by exact Hrun1; reflexivity|].
      split; [exact Hd1|]. split; [exact Hl1|]. split; [exact Hc1|].
      split; [exact Ht1|]. simpl. lia.
Qed.

(** X4. Whatever the topic, the data, the target, the settings and the cache
    hold, and whether it returns or raises, the dispatcher reads the store
    and never writes it: the registry, the settings, the four tables, the
    key sequence, the clock and the entropy pool are as before. It only
    appends to the job queue (in live mode, jobs of the dispatched topic) or
    to the console (in any other mode), never to both and never removing
    what was there. *)
Theorem dispatcher_only_appends
    (w : world) (topic : string) (data : pyval) (target : option webhook_id_arg) :
  exists w' r jobs out,
    handle_fire_webhook topic data target w = (w', r)
    /\ same_store w w'
    /\ queue w' = (queue w ++ jobs)%list
    /\ console w' = (console w ++ out)%list
    /\ (jobs = [] \/ out = [])
    /\ (MODE (wh_settings w) = "LIVE" -> out = [])
    /\ (MODE (wh_settings w) <> "LIVE" -> jobs = [])
    /\ Forall (fun j => job_topic j = topic) jobs.
Proof.
  assert (Hdone : forall r : result unit, exists w' r' jobs out,
            (w, r) = (w', r') /\ same_store w w'
            /\ queue w' = (queue w ++ jobs)%list /\ console w' = (console w ++ out)%list
            /\ (jobs = [] \/ out = [])
            /\ (MODE (wh_settings w) = "LIVE" -> out = [])
            /\ (MODE (wh_settings w) <> "LIVE" -> jobs = [])
            /\ Forall (fun j => job_topic j = topic) jobs).
  { intros r. exists w, r, [], []. rewrite !app_nil_r.
    split; [reflexivity|]. split; [apply same_store_refl|]. repeat split; auto. }
  destruct (TOPIC_REGISTRY w !! topic) as [h|] eqn:Hreg.
  2:{ rewrite (handle_unbound_topic w topic data target Hreg). apply Hdone. }
  rewrite (handle_fire_webhook_body w topic data target h (h data) Hreg eq_refl).
  unfold bind at 1. unfold lift at 1.
  destruct (h data) as [payload_body|e0]; [|apply Hdone].
  destruct (negb (isinstance_str_dict payload_body) && negb (is_None payload_body)).
  { apply Hdone. }
  assert (Hids : exists w1 r1,
            match target with
            | Some a => ret [Given a]
            | None => _find_webhooks topic
            end w = (w1, r1) /\ dispatched w w1 [] []).
  { destruct target as [a|].
    - eexists _, _. split; [reflexivity|apply dispatched_refl].
    - apply find_webhooks_frame. }
  destruct Hids as (w1 & r1 & Hrun1 & Hd1).
  destruct r1 as [items|e1].
  - erewrite bind_ok by exact Hrun1.
    destruct (loop_frame (wh_settings w) payload_body topic items w1)
      as (w2 & r2 & jobs & out & Hrun2 & Hd2 & Hl & Hc & Ht & _).
    pose proof (dispatched_trans _ _ _ _ _ _ _ Hd1 Hd2) as (Hs & Hq & Hco).
    simpl in Hq, Hco.
    exists w2, r2, jobs, out. split; [exact Hrun2|].
    split; [exact Hs|]. split; [exact Hq|]. split; [exact Hco|].
    split; [|split; [exact Hl|split; [exact Hc|exact Ht]]].
    destruct (string_dec (MODE (wh_settings w)) "LIVE") as [Hm|Hm]; auto.
  - erewrite bind_raise by exact Hrun1.
    destruct Hd1 as (Hs & Hq & Hco).
    exists w1, (Raise e1), [], []. split; [reflexivity|].
    split; [exact Hs|]. split; [exact Hq|]. split; [exact Hco|].
    repeat split; auto.
Qed.

(** ** The service and its callers *)

(** X5. A dispatch through the service to a given webhook changes nothing,
    whatever the handler does: for a registered topic the call returns
    normally, with no job scheduled and nothing printed, whether the handler
    returns a payload, returns a value of the wrong type or raises; for an
    unregistered topic it raises [ValidationError]. *)
Theorem service_dispatch_to_a_webhook_changes_nothing
    (w : world) (topic : string) (data : pyval) (u : UUID) :
  WebhookEventService.fire_webhook_event topic data (Some u) w =
    (w, match TOPIC_REGISTRY w !! topic with
        | Some _ => Ok tt
        | None => Raise (ValidationError ("Invalid topic: " +:+ topic))
        end).
Proof. apply fire_webhook_event_to_uuid. Qed.

(** X6. [test_webhook] never raises and never changes the world, so it never
    schedules a delivery: it answers [success = True], echoing the test data
    (the given one, or the default record when the given one is missing or
    empty), exactly when the topic ['webhook.test'] is registered, and
    [success = False] with the error text otherwise. *)
Theorem test_webhook_reports_registration
    (isoformat : Z -> string) (exn_str : exn -> string)
    (w : world) (webhook : Webhook) (given : option pyval) :
  exists result,
    WebhookValidationService.test_webhook isoformat exn_str webhook given w
      = (w, Ok result)
    /\ test_success result = bool_decide (is_Some (TOPIC_REGISTRY w !! "webhook.test"))
    /\ (test_success result = true ->
        test_error result = None
        /\ exists sent, test_data result = Some sent
           /\ (forall d, given = Some d -> truthy d = true -> sent = d)
           /\ (given = None \/ given = Some (VDict []) ->
               sent = VDict [("test", VBool true);
                             ("timestamp", VStr (isoformat (clock w)));
                             ("message", VStr "This is a test webhook event")]))
    /\ (test_success result = false ->
        test_data result = None
        /\ test_error result = Some (exn_str (ValidationError "Invalid topic: webhook.test"))).
Proof.
  set (fallback := VDict [("test", VBool true);
                          ("timestamp", VStr (isoformat (clock w)));
                          ("message", VStr "This is a test webhook event")]).
  set (sent := match given with
               | Some d => if truthy d then d else fallback
               | None => fallback
               end).
  assert (Hsent : forall (k : pyval -> M WebhookTestResult),
    (let! test_data :=
       match given with
       | Some d =>
           if truthy d then ret d
           else
             let! now := timezone_now in
             ret (VDict [("test", VBool true);
                         ("timestamp", VStr (isoformat now));
                         ("message", VStr "This is a test webhook event")])
       | None =>
           let! now := timezone_now in
           ret (VDict [("test", VBool true);
                       ("timestamp", VStr (isoformat now));
                       ("message", VStr "This is a test webhook event")])
       end in k test_data) w = k sent w).
  { intros k. unfold sent. destruct given as [d|]; [destruct (truthy d)|]; reflexivity. }
  unfold WebhookValidationService.test_webhook. rewrite Hsent.
  unfold try_except, bind.
  rewrite fire_webhook_event_to_uuid.
  destruct (TOPIC_REGISTRY w !! "webhook.test") as [h|] eqn:Hreg.
  - eexists. split; [reflexivity|]. simpl.
    split; [try reflexivity; symmetry; apply bool_decide_eq_true_2; eauto|].
    split; [|discriminate].
    intros _. split; [reflexivity|]. exists sent. split; [reflexivity|]. split.
    + intros d -> Hd. unfold sent. rewrite Hd. reflexivity.
    + intros [->| ->]; reflexivity.
  - eexists. split; [reflexivity|]. simpl.
    split; [try reflexivity; symmetry; apply bool_decide_eq_false_2; intros [x Hx]; discriminate Hx|].
    split; [discriminate|]. intros _. split; reflexivity.
Qed.

Lemma fire_webhook_event_registered (w : world) (topic : string) (data : pyval)
    (webhook_id : option UUID) (h : handler) :
  TOPIC_REGISTRY w !! topic = Some h ->
  exists w', WebhookEventService.fire_webhook_event topic data webhook_id w = (w', Ok tt).
Proof.
  intros Hreg. unfold WebhookEventService.fire_webhook_event.
  destruct (send_robust_ok fire_webhook topic data (option_map ArgUuid webhook_id) w)
    as (w' & rs & Hs).
  exists w'. erewrite try_except_ok; [reflexivity|].
  rewrite (bind_ok _ _ w w h) by (apply get_handler_bound, Hreg).
  erewrite bind_ok by exact Hs. reflexivity.
Qed.

Lemma fire_webhook_event_unregistered (w : world) (topic : string) (data : pyval)
    (webhook_id : option UUID) :
  TOPIC_REGISTRY w !! topic = None ->
  WebhookEventService.fire_webhook_event topic data webhook_id w =
    (w, Raise (ValidationError ("Invalid topic: " +:+ topic))).
Proof.
  intros Hreg. unfold WebhookEventService.fire_webhook_event.
  erewrite try_except_raise by (apply bind_raise, get_handler_unbound, Hreg).
  reflexivity.
Qed.

(** X7. The fire endpoint never raises, and its [success] flag says whether
    the topic is registered and nothing more: for a registered topic the
    answer is [success = True] even when the handler raised, returned a
    payload of the wrong type or no subscriber could be served; for an
    unregistered topic it is [success = False] and the world is unchanged.
    The answer repeats the [webhook_id] of the request. *)
Theorem fire_endpoint_reports_registration
    (exn_str : exn -> string)
    (w : world) (topic : string) (data : pyval) (webhook_id : option UUID) :
  exists w' resp,
    WebhookEventController.fire_webhook_event exn_str topic data webhook_id w
      = (w', Ok resp)
    /\ resp_success resp = bool_decide (is_Some (TOPIC_REGISTRY w !! topic))
    /\ resp_webhook_id resp = webhook_id
    /\ (resp_success resp = true ->
        resp_message resp = "Webhook event fired successfully for topic: " +:+ topic)
    /\ (resp_success resp = false ->
        w' = w
        /\ resp_message resp =
             "Failed to fire webhook event: "
             +:+ exn_str (ValidationError ("Invalid topic: " +:+ topic))).
Proof.
  unfold WebhookEventController.fire_webhook_event.
  destruct (TOPIC_REGISTRY w !! topic) as [h|] eqn:Hreg.
  - destruct (fire_webhook_event_registered w topic data webhook_id h Hreg) as (w' & Hrun).
    exists w'. eexists. split.
    + erewrite try_except_ok; [reflexivity|].
      erewrite bind_ok by exact Hrun. reflexivity.
    + simpl. split; [try reflexivity; symmetry; apply bool_decide_eq_true_2; eauto|].
      split; [reflexivity|]. split; [reflexivity|discriminate].
  - exists w. eexists. split.
    + erewrite try_except_raise
        by (apply bind_raise, fire_webhook_event_unregistered, Hreg).
      reflexivity.
    + simpl.
      split; [try reflexivity; symmetry; apply bool_decide_eq_false_2;
              intros [x Hx]; discriminate Hx|].
      split; [reflexivity|]. split; [discriminate|]. intros _. split; reflexivity.
Qed.

(** The events that [retry_failed_event] accepts. *)
Lemma retry_run (w : world) (event_id : Z) :
  WebhookEventService.retry_failed_event event_id w =
    (w,
     match List.filter (fun e => ev_id e =? event_id) (events w) with
     | [] => Raise (ValidationError "Event not found")
     | [event] =>
         if negb (String.eqb (ev_status event) "FAILURE") then
           Raise (ValidationError "Only failed events can be retried")
         else
           match event_webhook_of event w with
           | None => Raise (ValidationError "Webhook is not active")
           | Some h =>
               if negb (wh_active h) then Raise (ValidationError "Webhook is not active")
               else
                 match TOPIC_REGISTRY w !! ev_topic event with
                 | Some _ => Ok true
                 | None => Raise (ValidationError ("Invalid topic: " +:+ ev_topic event))
                 end
           end
     | _ => Raise MultipleObjectsReturned
     end).
Proof.
  unfold WebhookEventService.retry_failed_event, try_except.
  unfold bind at 1. unfold gets at 1.
  unfold bind at 1. unfold lift at 1.
  destruct (List.filter (fun e => ev_id e =? event_id) (events w)) as [|event [|e2 l]];
    try reflexivity.
  cbn [objects_get].
  destruct (negb (String.eqb (ev_status event) "FAILURE")); [reflexivity|].
  unfold bind at 1. unfold event_webhook, gets.
  destruct (event_webhook_of event w) as [h|]; [|reflexivity].
  destruct (negb (wh_active h)); [reflexivity|].
  unfold bind. rewrite fire_webhook_event_to_uuid.
  destruct (TOPIC_REGISTRY w !! ev_topic event); reflexivity.
Qed.

(** X8. [retry_failed_event] never changes the world, so a retry never
    schedules a delivery and never touches the event it retries (its status
    stays ['FAILURE']). It returns [True] exactly when the id names one
    event, the event's status is ['FAILURE'], its webhook exists and is
    active and its topic is registered; in every other case it raises, and
    the retry endpoint turns that into [success = False] without raising. *)
Theorem retry_changes_nothing
    (exn_str : exn -> string) (w : world) (event_id : Z) :
  exists r resp,
    WebhookEventService.retry_failed_event event_id w = (w, r)
    /\ WebhookEventController.retry_failed_event exn_str event_id w = (w, Ok resp)
    /\ (r = Ok true <->
        exists event h,
          List.filter (fun e => ev_id e =? event_id) (events w) = [event]
          /\ ev_status event = "FAILURE"
          /\ event_webhook_of event w = Some h
          /\ wh_active h = true
          /\ is_Some (TOPIC_REGISTRY w !! ev_topic event))
    /\ (r = Ok true \/ exists e, r = Raise e)
    /\ (resp_success resp = true <-> r = Ok true).
Proof.
  eexists _, _. split; [apply retry_run|].
  split.
  { unfold WebhookEventController.retry_failed_event, try_except, bind.
    rewrite retry_run.
    instantiate (1 :=
      match List.filter (fun e => ev_id e =? event_id) (events w) with
      | [] => _
      | [event] =>
          if negb (String.eqb (ev_status event) "FAILURE") then _
          else
            match event_webhook_of event w with
            | None => _
            | Some h =>
                if negb (wh_active h) then _
                else
                  match TOPIC_REGISTRY w !! ev_topic event with
                  | Some _ => _
                  | None => _
                  end
            end
      | _ => _
      end).
    destruct (List.filter (fun e => ev_id e =? event_id) (events w)) as [|event [|e2 l]];
      try reflexivity.
    destruct (negb (String.eqb (ev_status event) "FAILURE")); [reflexivity|].
    destruct (event_webhook_of event w) as [h|]; [|reflexivity].
    destruct (negb (wh_active h)); [reflexivity|].
    destruct (TOPIC_REGISTRY w !! ev_topic event); reflexivity. }
  destruct (List.filter (fun e => ev_id e =? event_id) (events w)) as [|event [|e2 l]].
  - split; [split; [discriminate|intros (ev & h & H & _); discriminate H]|].
    split; [right; eauto|]. simpl. split; discriminate.
  - destruct (String.eqb (ev_status event) "FAILURE") eqn:Hst; simpl.
    2:{ apply String.eqb_neq in Hst.
        split; [split; [discriminate|
                        intros (ev & h & H & Hf & _); injection H as <-; contradiction]|].
        split; [right; eauto|]. split; discriminate. }
    apply String.eqb_eq in Hst.
    destruct (event_webhook_of event w) as [h|] eqn:Hwh.
    2:{ split; [split; [discriminate|
                        intros (ev & h & H & _ & Hh & _); injection H as <-;
                        rewrite Hwh in Hh; discriminate Hh]|].
        split; [right; eauto|]. split; discriminate. }
    destruct (wh_active h) eqn:Hact; simpl.
    2:{ split; [split; [discriminate|
                        intros (ev & h' & H & _ & Hh & Ha & _); injection H as <-;
                        rewrite Hwh in Hh; injection Hh as <-; congruence]|].
        split; [right; eauto|]. split; discriminate. }
    destruct (TOPIC_REGISTRY w !! ev_topic event) as [f|] eqn:Hreg.
    + split; [split; [intros _; exists event, h; repeat split; eauto|reflexivity]|].
      split; [left; reflexivity|]. simpl. split; reflexivity.
    + split; [split; [discriminate|
                      intros (ev & h' & H & _ & _ & _ & [x Hx]); injection H as <-;
                      rewrite Hreg in Hx; discriminate Hx]|].
      split; [right; eauto|]. split; discriminate.
  - split; [split; [discriminate|intros (ev & h & H & _); discriminate H]|].
    split; [right; eauto|]. simpl. split; discriminate.
Qed.

(** ** Webhooks: validation, creation, update, deletion *)

Lemma world_eta (w : world) :
  mkWorld (TOPIC_REGISTRY w) (wh_settings w) (webhooks w) (topics w) (secrets w)
    (events w) (next_pk w) (clock w) (query_cache w) (queue w) (console w)
    (entropy w) (cursor w) = w.
Proof. destruct w; reflexivity. Qed.

Lemma invalid_topics_nil (w : world) (ts : list string) :
  List.filter (fun t => bool_decide (t ∉ dom (TOPIC_REGISTRY w))) ts = []
  <-> forall t, t ∈ ts -> is_Some (TOPIC_REGISTRY w !! t).
Proof.
  induction ts as [|t ts IH]; simpl.
  - split; [intros _ t Ht; inversion Ht|reflexivity].
  - destruct (bool_decide (t ∉ dom (TOPIC_REGISTRY w))) eqn:E.
    + split; [discriminate|]. intros H.
      apply bool_decide_eq_true in E. exfalso. apply E.
      apply elem_of_dom, H. left.
    + apply bool_decide_eq_false in E.
      rewrite IH. split.
      * intros H t' Ht'. apply elem_of_cons in Ht' as [->|Ht']; [|apply H, Ht'].
        apply elem_of_dom. destruct (decide (t ∈ dom (TOPIC_REGISTRY w))); [assumption|].
        contradiction.
      * intros H t' Ht'. apply H. right. exact Ht'.
Qed.

(** X9. [validate_topics] accepts a list exactly when every name in it is a
    key of the registry (so the empty list passes); otherwise it raises
    [ValidationError]; in both cases the world is as it was. The catalog of
    the store plays no part. *)
Theorem validate_topics_accepts_registered_names (w : world) (ts : list string) :
  exists r,
    WebhookService.validate_topics ts w = (w, r)
    /\ (r = Ok tt <-> forall t, t ∈ ts -> is_Some (TOPIC_REGISTRY w !! t))
    /\ (r = Ok tt \/ exists msg, r = Raise (ValidationError msg)).
Proof.
  unfold WebhookService.validate_topics, bind, gets.
  pose proof (invalid_topics_nil w ts) as Hnil.
  destruct (List.filter (fun t => bool_decide (t ∉ dom (TOPIC_REGISTRY w))) ts) as [|t l].
  - eexists. split; [reflexivity|]. split; [|left; reflexivity].
    split; [intros _; apply Hnil; reflexivity|reflexivity].
  - eexists. split; [reflexivity|]. split; [|right; eauto].
    split; [discriminate|]. intros H. apply Hnil in H. discriminate H.
Qed.

Lemma validate_topics_ok (w : world) (ts : list string) :
  (forall t, t ∈ ts -> is_Some (TOPIC_REGISTRY w !! t)) ->
  WebhookService.validate_topics ts w = (w, Ok tt).
Proof.
  intros H. apply invalid_topics_nil in H.
  unfold WebhookService.validate_topics, bind, gets. rewrite H. reflexivity.
Qed.

Lemma validate_topics_raises (w : world) (ts : list string) (t : string) :
  t ∈ ts -> TOPIC_REGISTRY w !! t = None ->
  exists msg, WebhookService.validate_topics ts w = (w, Raise (ValidationError msg)).
Proof.
  intros Hin Hnone.
  unfold WebhookService.validate_topics, bind, gets.
  pose proof (invalid_topics_nil w ts) as Hnil.
  destruct (List.filter (fun t => bool_decide (t ∉ dom (TOPIC_REGISTRY w))) ts) as [|t' l].
  - exfalso. destruct (proj1 Hnil eq_refl t Hin) as [x Hx]. congruence.
  - eexists. reflexivity.
Qed.

Lemma rollback_same (w : world) : rollback w w = w.
Proof. unfold rollback. apply world_eta. Qed.

(** X10. Creating a webhook with a topic that the registry does not bind
    raises [ValidationError] and leaves the world exactly as it was: no
    webhook row, no secret, no primary key taken, no entropy read. *)
Theorem create_webhook_rejects_unregistered_topic
    (w : world) (url : string) (topics : list string) (t : string)
    (Hin : t ∈ topics)
    (Hunbound : TOPIC_REGISTRY w !! t = None) :
  exists msg,
    WebhookService.create_webhook url topics w = (w, Raise (ValidationError msg)).
Proof.
  destruct (validate_topics_raises w topics t Hin Hunbound) as (msg & Hmsg).
  exists msg. unfold WebhookService.create_webhook, atomic.
  erewrite bind_raise by exact Hmsg. rewrite rollback_same. reflexivity.
Qed.

Lemma create_webhook_rejects_unregistered_topic_witness :
  exists msg,
    WebhookService.create_webhook "https://example.org/new" ["order.created"; "order.paid"]
      (Shop.live Shop.zero_repr)
    = (Shop.live Shop.zero_repr, Raise (ValidationError msg)).
Proof.
  apply (create_webhook_rejects_unregistered_topic (Shop.live Shop.zero_repr)
           "https://example.org/new" ["order.created"; "order.paid"] "order.paid").
  - apply list_elem_of_In. simpl. auto.
  - reflexivity.
Defined.

Lemma uuid4_run (w : world) :
  exists u, uuid4 w = (set_cursor (cursor w + 16)%nat w, Ok u).
Proof. unfold uuid4, bind, os_urandom, ret. simpl. eexists. reflexivity. Qed.

Lemma map_other_keys (pk : Z) (f : Webhook -> Webhook) (l : list Webhook) :
  Forall (fun x => wh_id x < pk) l ->
  List.map (fun x => if wh_id x =? pk then f x else x) l = l.
Proof.
  induction 1 as [|x l Hx _ IH]; simpl; [reflexivity|].
  rewrite IH. destruct (wh_id x =? pk) eqn:E; [|reflexivity].
  apply Z.eqb_eq in E. lia.
Qed.

Lemma find_fresh_key (pk : Z) (h : Webhook) (l : list Webhook) :
  Forall (fun x => wh_id x < pk) l -> wh_id h = pk ->
  List.find (fun x => wh_id x =? pk) (l ++ [h]) = Some h.
Proof.
  intros Hl Hh. induction Hl as [|x l Hx _ IH]; simpl.
  - rewrite Hh, Z.eqb_refl. reflexivity.
  - destruct (wh_id x =? pk) eqn:E; [apply Z.eqb_eq in E; lia|exact IH].
Qed.

(** X11. Creating a webhook whose topics are all registered, in a store whose
    webhook keys lie below the key sequence, returns a new row appended to the
    table: it has the next key and the given URL, and is subscribed to those
    requested names that the catalog holds (a registered name that the
    catalog lacks is dropped without error). The new webhook has exactly one
    secret, of 43 characters; the secrets of the other webhooks, the catalog,
    the events and the job queue are as before, and the keys again lie below
    the sequence. *)
Theorem create_webhook_result
    (w : world) (url : string) (names : list string)
    (Hkeys : Forall (fun x => wh_id x < next_pk w) (webhooks w))
    (Hnames : forall t, t ∈ names -> is_Some (TOPIC_REGISTRY w !! t)) :
  exists w' h s,
    WebhookService.create_webhook url names w = (w', Ok h)
    /\ webhooks w' = (webhooks w ++ [h])%list
    /\ wh_id h = next_pk w
    /\ wh_url h = url
    /\ wh_topics h = List.filter (fun t => bool_decide (t ∈ names)) (topics w)
    /\ WebhookSecretService.secrets_of h w' = [s]
    /\ String.length (sec_token s) = 43%nat
    /\ (forall other, wh_id other <> wh_id h ->
          WebhookSecretService.secrets_of other w' = WebhookSecretService.secrets_of other w)
    /\ Forall (fun x => wh_id x < next_pk w') (webhooks w')
    /\ topics w' = topics w
    /\ events w' = events w
    /\ queue w' = queue w.
Proof.
  set (pk := next_pk w).
  set (w1 := set_next_pk (pk + 1) w).
  destruct (uuid4_run w1) as (u & Hu).
  set (h0 := mkWebhook pk u url true []).
  set (w2 := set_webhooks (webhooks w ++ [h0]) (set_cursor (cursor w1 + 16)%nat w1)).
  set (objs := List.filter (fun t => bool_decide (t ∈ names)) (topics w)).
  set (h := mkWebhook pk u url true objs).
  set (w3 := set_webhooks (webhooks w ++ [h]) w2).
  assert (Hcreate : WebhookService.Webhook_objects_create url w = (w2, Ok h0)).
  { unfold WebhookService.Webhook_objects_create.
    rewrite (bind_ok _ _ w w1 pk) by reflexivity.
    erewrite bind_ok by exact Hu. reflexivity. }
  assert (Hset : topics_set h0 objs w2 = (w3, Ok tt)).
  { unfold topics_set, modify, w3. f_equal. f_equal.
    cbn [webhooks set_webhooks w2]. rewrite map_app.
    rewrite (map_other_keys pk) by exact Hkeys.
    simpl. rewrite Z.eqb_refl. reflexivity. }
  assert (Hgen : WebhookSecretService.generate_secret h0 32 w3 =
                   (after_generate h0 32 w3,
                    Ok (mkWebhookSecret (next_pk w3) (wh_id h0) (token_at w3 32)))).
  { apply generate_secret_run. lia. }
  exists (after_generate h0 32 w3), h,
    (mkWebhookSecret (next_pk w3) (wh_id h0) (token_at w3 32)).
  split.
  { unfold WebhookService.create_webhook, atomic.
    rewrite (bind_ok _ _ w w tt) by (apply validate_topics_ok, Hnames).
    erewrite bind_ok by exact Hcreate.
    rewrite (bind_ok _ _ w2 w2 objs) by reflexivity.
    erewrite bind_ok by exact Hset.
    erewrite bind_ok by exact Hgen.
    unfold refreshed, gets. cbn [webhooks after_generate set_secrets set_next_pk set_cursor w3 set_webhooks].
    rewrite (find_fresh_key pk h) by (try exact Hkeys; reflexivity).
    reflexivity. }
  split; [reflexivity|]. split; [reflexivity|]. split; [reflexivity|].
  split; [reflexivity|].
  split; [apply (secrets_of_after_generate h0 32 w3)|].
  split.
  { pose proof (token_at_shape w3 32 ltac:(lia)) as [Hlen _].
    cbn [sec_token]. change ((4 * 32 + 2) / 3) with 43 in Hlen. lia. }
  split.
  { intros other Hother. unfold WebhookSecretService.secrets_of.
    cbn [secrets after_generate set_secrets set_next_pk set_cursor w3 w2 set_webhooks w1].
    rewrite List.filter_app. simpl.
    replace (pk =? wh_id other) with false
      by (symmetry; apply Z.eqb_neq; simpl in Hother; congruence).
    rewrite app_nil_r.
    induction (secrets w) as [|x l IH]; simpl; [reflexivity|].
    destruct (sec_webhook x =? pk) eqn:E1; simpl.
    - apply Z.eqb_eq in E1.
      replace (sec_webhook x =? wh_id other) with false
        by (symmetry; apply Z.eqb_neq; simpl in Hother; congruence).
      exact IH.
    - destruct (sec_webhook x =? wh_id other); [f_equal|]; exact IH. }
  split.
  { cbn [webhooks next_pk after_generate set_secrets set_next_pk set_cursor w3 w2
         set_webhooks w1].
    apply Forall_app. split.
    - eapply Forall_impl; [exact Hkeys|]. simpl. intros x Hx. fold pk in Hx. lia.
    - constructor; [simpl; lia|constructor]. }
  repeat split; reflexivity.
Qed.

Lemma create_webhook_result_witness :
  exists w' h s,
    WebhookService.create_webhook "https://example.org/new" ["order.created"; "order.count"]
      (Shop.live Shop.zero_repr) = (w', Ok h)
    /\ webhooks w' = (webhooks (Shop.live Shop.zero_repr) ++ [h])%list
    /\ wh_id h = next_pk (Shop.live Shop.zero_repr)
    /\ wh_url h = "https://example.org/new"
    /\ wh_topics h =
         List.filter (fun t => bool_decide (t ∈ ["order.created"; "order.count"]))
           (topics (Shop.live Shop.zero_repr))
    /\ WebhookSecretService.secrets_of h w' = [s]
    /\ String.length (sec_token s) = 43%nat
    /\ (forall other, wh_id other <> wh_id h ->
          WebhookSecretService.secrets_of other w' =
            WebhookSecretService.secrets_of other (Shop.live Shop.zero_repr))
    /\ Forall (fun x => wh_id x < next_pk w') (webhooks w')
    /\ topics w' = topics (Shop.live Shop.zero_repr)
    /\ events w' = events (Shop.live Shop.zero_repr)
    /\ queue w' = queue (Shop.live Shop.zero_repr).
Proof.
  apply (create_webhook_result (Shop.live Shop.zero_repr) "https://example.org/new"
           ["order.created"; "order.count"]).
  - repeat constructor.
  - intros t Ht. apply list_elem_of_In in Ht. simpl in Ht.
    destruct Ht as [<-|[<-|[]]]; vm_compute; eauto.
Defined.

Lemma get_webhook_found (w : world) (u : UUID) (h : Webhook) :
  List.filter (fun x => uuid_eqb (wh_uuid x) u) (webhooks w) = [h] ->
  WebhookService.get_webhook u w = (w, Ok h).
Proof.
  intros Hrow. unfold WebhookService.get_webhook, bind, gets, lift.
  rewrite Hrow. reflexivity.
Qed.

Lemma get_webhook_missing (w : world) (u : UUID) :
  List.filter (fun x => uuid_eqb (wh_uuid x) u) (webhooks w) = [] ->
  WebhookService.get_webhook u w = (w, Raise Http404).
Proof.
  intros Hrow. unfold WebhookService.get_webhook, bind, gets, lift.
  rewrite Hrow. reflexivity.
Qed.

Lemma filter_singleton_in {A} (f : A -> bool) (l : list A) (x : A) :
  List.filter f l = [x] -> In x l /\ f x = true.
Proof.
  intros H. apply filter_In. rewrite H. left. reflexivity.
Qed.

Lemma set_webhooks_id (w : world) : set_webhooks (webhooks w) w = w.
Proof. destruct w; reflexivity. Qed.

(** X12. For a webhook that the store holds under a key of its own:
    an update that names an unregistered topic raises [ValidationError] and
    writes nothing, not even the URL and the active flag that came with it;
    an update that gives no field returns the webhook and leaves the world
    as it was. *)
Theorem update_webhook_is_atomic
    (w : world) (u : UUID) (h : Webhook)
    (Hrow : List.filter (fun x => uuid_eqb (wh_uuid x) u) (webhooks w) = [h])
    (Hkey : forall x, In x (webhooks w) -> wh_id x = wh_id h -> x = h) :
  (forall url active names t,
     t ∈ names -> TOPIC_REGISTRY w !! t = None ->
     exists msg,
       WebhookService.update_webhook u url (Some names) active w =
         (w, Raise (ValidationError msg)))
  /\ WebhookService.update_webhook u None None None w = (w, Ok h).
Proof.
  split.
  - intros url active names t Hin Hnone.
    destruct (validate_topics_raises w names t Hin Hnone) as (msg & Hmsg).
    exists msg. unfold WebhookService.update_webhook.
    erewrite bind_ok by (apply get_webhook_found, Hrow).
    unfold atomic.
    erewrite bind_raise by (apply bind_raise, Hmsg).
    rewrite rollback_same. reflexivity.
  - destruct (filter_singleton_in _ _ _ Hrow) as [Hin _].
    assert (Hsame : List.map (fun x =>
              if wh_id x =? wh_id h
              then mkWebhook (wh_id x) (wh_uuid h) (wh_url h) (wh_active h) (wh_topics x)
              else x) (webhooks w) = webhooks w).
    { assert (Hall : forall l, (forall x, In x l -> In x (webhooks w)) ->
                List.map (fun x =>
                  if wh_id x =? wh_id h
                  then mkWebhook (wh_id x) (wh_uuid h) (wh_url h) (wh_active h) (wh_topics x)
                  else x) l = l).
      { induction l as [|x l IH]; intros Hl; simpl; [reflexivity|].
        rewrite IH by (intros y Hy; apply Hl; right; exact Hy).
        destruct (wh_id x =? wh_id h) eqn:E; [|reflexivity].
        apply Z.eqb_eq in E. rewrite (Hkey x (Hl x (or_introl eq_refl)) E).
        destruct h; reflexivity. }
      apply Hall. auto. }
    assert (Hfind : List.find (fun x => wh_id x =? wh_id h) (webhooks w) = Some h).
    { assert (Hall : forall l, (forall x, In x l -> In x (webhooks w)) -> In h l ->
                List.find (fun x => wh_id x =? wh_id h) l = Some h).
      { induction l as [|x l IH]; intros Hl Hh; [destruct Hh|]. simpl.
        destruct (wh_id x =? wh_id h) eqn:E.
        - apply Z.eqb_eq in E. rewrite (Hkey x (Hl x (or_introl eq_refl)) E). reflexivity.
        - destruct Hh as [->|Hh]; [rewrite Z.eqb_refl in E; discriminate E|].
          apply IH; [intros y Hy; apply Hl; right; exact Hy|exact Hh]. }
      apply Hall; auto. }
    unfold WebhookService.update_webhook.
    erewrite bind_ok by (apply get_webhook_found, Hrow).
    unfold atomic, bind, ret, save_webhook, modify, refreshed, gets.
    replace (mkWebhook (wh_id h) (wh_uuid h) (wh_url h) (wh_active h) (wh_topics h))
      with h by (destruct h; reflexivity).
    cbn [webhooks set_webhooks]. rewrite Hsame, Hfind, set_webhooks_id. reflexivity.
Qed.

Lemma update_webhook_is_atomic_witness :
  (forall url active names t,
     t ∈ names -> TOPIC_REGISTRY (Shop.live Shop.zero_repr) !! t = None ->
     exists msg,
       WebhookService.update_webhook Shop.hook_uuid url (Some names) active
         (Shop.live Shop.zero_repr) =
         (Shop.live Shop.zero_repr, Raise (ValidationError msg)))
  /\ WebhookService.update_webhook Shop.hook_uuid None None None (Shop.live Shop.zero_repr)
     = (Shop.live Shop.zero_repr, Ok Shop.hook).
Proof.
  apply (update_webhook_is_atomic (Shop.live Shop.zero_repr) Shop.hook_uuid Shop.hook).
  - reflexivity.
  - simpl. intros x [<-|[]] _. reflexivity.
Defined.

(** X13. Deleting a webhook that the store holds under a key of its own
    returns [True] and removes that row and no other webhook; from then on
    the webhook is unknown: looking it up or deleting it again raises
    [Http404] and changes nothing. A delete of an identifier that the store
    does not hold raises [Http404] and changes nothing. *)
Theorem delete_webhook_removes_the_row
    (w : world) (u : UUID) (h : Webhook)
    (Hrow : List.filter (fun x => uuid_eqb (wh_uuid x) u) (webhooks w) = [h])
    (Hkey : forall x, In x (webhooks w) -> wh_id x = wh_id h -> x = h) :
  (exists w',
     WebhookService.delete_webhook u w = (w', Ok true)
     /\ (forall x, In x (webhooks w') <-> In x (webhooks w) /\ x <> h)
     /\ WebhookService.get_webhook u w' = (w', Raise Http404)
     /\ WebhookService.delete_webhook u w' = (w', Raise Http404))
  /\ (forall w0 : world,
        List.filter (fun x => uuid_eqb (wh_uuid x) u) (webhooks w0) = [] ->
        WebhookService.delete_webhook u w0 = (w0, Raise Http404)).
Proof.
  set (w' := set_webhooks
               (List.filter (fun x => negb (wh_id x =? wh_id h)) (webhooks w)) w).
  destruct (filter_singleton_in _ _ _ Hrow) as [Hin Hu].
  assert (Hmem : forall x, In x (webhooks w') <-> In x (webhooks w) /\ x <> h).
  { intros x. unfold w'. cbn [webhooks set_webhooks]. rewrite filter_In. split.
    - intros [Hx Hne]. split; [exact Hx|]. intros ->.
      rewrite Z.eqb_refl in Hne. discriminate Hne.
    - intros [Hx Hne]. split; [exact Hx|].
      destruct (wh_id x =? wh_id h) eqn:E; [|reflexivity].
      apply Z.eqb_eq in E. exfalso. apply Hne, Hkey; assumption. }
  assert (Hgone : List.filter (fun x => uuid_eqb (wh_uuid x) u) (webhooks w') = []).
  { destruct (List.filter (fun x => uuid_eqb (wh_uuid x) u) (webhooks w')) as [|x l] eqn:E;
      [reflexivity|].
    assert (Hx : In x (List.filter (fun x => uuid_eqb (wh_uuid x) u) (webhooks w')))
      by (rewrite E; left; reflexivity).
    apply filter_In in Hx as [Hx Hxu]. apply Hmem in Hx as [Hx Hne].
    assert (Hx' : In x (List.filter (fun x => uuid_eqb (wh_uuid x) u) (webhooks w)))
      by (apply filter_In; split; assumption).
    rewrite Hrow in Hx'. destruct Hx' as [<-|[]]. contradiction. }
  assert (Hmissing : forall w0 : world,
            List.filter (fun x => uuid_eqb (wh_uuid x) u) (webhooks w0) = [] ->
            WebhookService.delete_webhook u w0 = (w0, Raise Http404)).
  { intros w0 H0. unfold WebhookService.delete_webhook.
    erewrite bind_raise by (apply get_webhook_missing, H0). reflexivity. }
  split; [|exact Hmissing].
  exists w'. split.
  { unfold WebhookService.delete_webhook.
    erewrite bind_ok by (apply get_webhook_found, Hrow). reflexivity. }
  split; [exact Hmem|].
  split; [apply get_webhook_missing, Hgone|].
  apply Hmissing, Hgone.
Qed.

Lemma delete_webhook_removes_the_row_witness :
  (exists w',
     WebhookService.delete_webhook Shop.hook_uuid (Shop.live Shop.zero_repr) = (w', Ok true)
     /\ (forall x, In x (webhooks w') <->
                   In x (webhooks (Shop.live Shop.zero_repr)) /\ x <> Shop.hook)
     /\ WebhookService.get_webhook Shop.hook_uuid w' = (w', Raise Http404)
     /\ WebhookService.delete_webhook Shop.hook_uuid w' = (w', Raise Http404))
  /\ (forall w0 : world,
        List.filter (fun x => uuid_eqb (wh_uuid x) Shop.hook_uuid) (webhooks w0) = [] ->
        WebhookService.delete_webhook Shop.hook_uuid w0 = (w0, Raise Http404)).
Proof.
  apply (delete_webhook_removes_the_row (Shop.live Shop.zero_repr) Shop.hook_uuid Shop.hook).
  - reflexivity.
  - simpl. intros x [<-|[]] _. reflexivity.
Defined.

(** ** Secrets: validation and the endpoints *)

(** X14. After a secret is generated for a webhook, with any length that
    [os.urandom] accepts, [validate_secret] accepts a token exactly when it is
    the token just generated: every other ASCII text, the tokens of earlier
    secrets included, is answered with [False], and a text with a non-ASCII
    character makes the call raise [TypeError]. For a webhook without a
    secret every text is answered with [False]; nothing is compared. *)
Theorem validate_secret_accepts_only_the_newest
    (w : world) (webhook : Webhook) (length : Z) (provided_token : string)
    (Hlength : 0 <= length) :
  exists w' secret,
    WebhookSecretService.generate_secret webhook length w = (w', Ok secret)
    /\ WebhookSecretService.validate_secret webhook provided_token w' =
         (w', if isascii provided_token
              then Ok (String.eqb (sec_token secret) provided_token)
              else Raise (TypeError
                     "comparing strings with non-ASCII characters is not supported"))
    /\ (WebhookSecretService.validate_secret webhook provided_token w' = (w', Ok true)
        <-> provided_token = sec_token secret)
    /\ (forall w0, WebhookSecretService.secrets_of webhook w0 = [] ->
          WebhookSecretService.validate_secret webhook provided_token w0 = (w0, Ok false)).
Proof.
  eexists _, _. split; [apply generate_secret_run, Hlength|].
  pose proof (token_at_isascii w length Hlength) as Hascii.
  assert (Hval : WebhookSecretService.validate_secret webhook provided_token
                   (after_generate webhook length w) =
                 (after_generate webhook length w,
                  if isascii provided_token
                  then Ok (String.eqb (token_at w length) provided_token)
                  else Raise (TypeError
                         "comparing strings with non-ASCII characters is not supported"))).
  { unfold WebhookSecretService.validate_secret, WebhookSecretService.get_active_secret.
    unfold bind, gets, lift. rewrite secrets_of_after_generate.
    cbn [List.head sec_token]. unfold secrets_.compare_digest. rewrite Hascii.
    destruct (isascii provided_token); reflexivity. }
  split; [exact Hval|]. split.
  - rewrite Hval. cbn [sec_token]. split.
    + intros H. destruct (isascii provided_token); [|discriminate H].
      injection H as H. apply String.eqb_eq in H. congruence.
    + intros ->. rewrite Hascii, String.eqb_refl. reflexivity.
  - intros w0 Hnone.
    unfold WebhookSecretService.validate_secret, WebhookSecretService.get_active_secret.
    unfold bind, gets. rewrite Hnone. reflexivity.
Qed.

Lemma validate_secret_accepts_only_the_newest_witness :
  exists w' secret,
    WebhookSecretService.generate_secret Shop.hook 32 (Shop.live Shop.zero_repr)
      = (w', Ok secret)
    /\ WebhookSecretService.validate_secret Shop.hook "second" w' =
         (w', if isascii "second"
              then Ok (String.eqb (sec_token secret) "second")
              else Raise (TypeError
                     "comparing strings with non-ASCII characters is not supported"))
    /\ (WebhookSecretService.validate_secret Shop.hook "second" w' = (w', Ok true)
        <-> "second" = sec_token secret)
    /\ (forall w0, WebhookSecretService.secrets_of Shop.hook w0 = [] ->
          WebhookSecretService.validate_secret Shop.hook "second" w0 = (w0, Ok false)).
Proof.
  apply (validate_secret_accepts_only_the_newest (Shop.live Shop.zero_repr) Shop.hook 32
           "second").
  discriminate.
Defined.

(** X15. For a webhook that the store holds, and a length that the request
    schema accepts, the generate endpoint returns a secret that
    [get_webhook_secret] then returns as the webhook's secret; the rotate
    endpoint does the same with the length 32. For an identifier that the
    store does not hold, the three endpoints raise [Http404] and change
    nothing: no entropy is read and no secret is deleted. *)
Theorem secret_endpoints_round_trip
    (w : world) (u : UUID) (h : Webhook) (length : Z)
    (Hrow : List.filter (fun x => uuid_eqb (wh_uuid x) u) (webhooks w) = [h])
    (Hlength : 16 <= length <= 64) :
  (exists w' s,
     WebhookSecretController.generate_webhook_secret u (Some length) w = (w', Ok s)
     /\ get_webhook_secret u w' = (w', Ok s))
  /\ (exists w' s,
     WebhookSecretController.rotate_webhook_secret u w = (w', Ok s)
     /\ get_webhook_secret u w' = (w', Ok s))
  /\ (forall w0 : world,
     List.filter (fun x => uuid_eqb (wh_uuid x) u) (webhooks w0) = [] ->
     WebhookSecretController.generate_webhook_secret u (Some length) w0 = (w0, Raise Http404)
     /\ WebhookSecretController.rotate_webhook_secret u w0 = (w0, Raise Http404)
     /\ get_webhook_secret u w0 = (w0, Raise Http404)).
Proof.
  assert (Hschema : WebhookSecretGenerateSchema (Some length) = Ok length).
  { unfold WebhookSecretGenerateSchema.
    destruct (length <? 16) eqn:E1; [lia|]. destruct (64 <? length) eqn:E2; [lia|].
    reflexivity. }
  assert (Hread : forall n,
            get_webhook_secret u (after_generate h n w) =
              (after_generate h n w,
               Ok (mkWebhookSecret (next_pk w) (wh_id h) (token_at w n)))).
  { intros n. unfold get_webhook_secret.
    erewrite bind_ok by (apply get_webhook_found; exact Hrow).
    unfold WebhookSecretService.get_active_secret, bind, gets.
    rewrite secrets_of_after_generate. reflexivity. }
  split; [|split].
  - eexists _, _. split; [|apply Hread].
    unfold WebhookSecretController.generate_webhook_secret.
    rewrite Hschema. rewrite (bind_ok _ _ w w length) by reflexivity.
    erewrite bind_ok by (apply get_webhook_found, Hrow).
    apply generate_secret_run. lia.
  - eexists _, _. split; [|apply (Hread 32)].
    unfold WebhookSecretController.rotate_webhook_secret.
    erewrite bind_ok by (apply get_webhook_found, Hrow).
    apply generate_secret_run. lia.
  - intros w0 Hnone. split; [|split].
    + unfold WebhookSecretController.generate_webhook_secret.
      rewrite Hschema. rewrite (bind_ok _ _ w0 w0 length) by reflexivity.
      apply bind_raise, get_webhook_missing, Hnone.
    + unfold WebhookSecretController.rotate_webhook_secret.
      apply bind_raise, get_webhook_missing, Hnone.
    + unfold get_webhook_secret. apply bind_raise, get_webhook_missing, Hnone.
Qed.

Lemma secret_endpoints_round_trip_witness :
  (exists w' s,
     WebhookSecretController.generate_webhook_secret Shop.hook_uuid (Some 16)
       (Shop.live Shop.zero_repr) = (w', Ok s)
     /\ get_webhook_secret Shop.hook_uuid w' = (w', Ok s))
  /\ (exists w' s,
     WebhookSecretController.rotate_webhook_secret Shop.hook_uuid (Shop.live Shop.zero_repr)
       = (w', Ok s)
     /\ get_webhook_secret Shop.hook_uuid w' = (w', Ok s))
  /\ (forall w0 : world,
     List.filter (fun x => uuid_eqb (wh_uuid x) Shop.hook_uuid) (webhooks w0) = [] ->
     WebhookSecretController.generate_webhook_secret Shop.hook_uuid (Some 16) w0
       = (w0, Raise Http404)
     /\ WebhookSecretController.rotate_webhook_secret Shop.hook_uuid w0 = (w0, Raise Http404)
     /\ get_webhook_secret Shop.hook_uuid w0 = (w0, Raise Http404)).
Proof.
  apply (secret_endpoints_round_trip (Shop.live Shop.zero_repr) Shop.hook_uuid Shop.hook 16).
  - reflexivity.
  - lia.
Defined.

(** ** Statistics and retention *)

Lemma count_le_length {A} (f : A -> bool) (l : list A) :
  count f l <= Z.of_nat (List.length l).
Proof.
  unfold count. apply Nat2Z.inj_le. induction l as [|x l IH]; simpl; [lia|].
  destruct (f x); simpl; lia.
Qed.

Lemma three_statuses (evs : list WebhookEvent) :
  count (fun e => String.eqb (ev_status e) "SUCCESS") evs
  + count (fun e => String.eqb (ev_status e) "FAILURE") evs
  + count (fun e => String.eqb (ev_status e) "PENDING") evs
  = count (fun e => String.eqb (ev_status e) "SUCCESS"
                    || String.eqb (ev_status e) "FAILURE"
                    || String.eqb (ev_status e) "PENDING") evs.
Proof.
  induction evs as [|e evs IH]; [reflexivity|].
  rewrite !count_add, <- IH.
  destruct (String.eqb (ev_status e) "SUCCESS") eqn:E1.
  - apply String.eqb_eq in E1. rewrite E1. simpl. lia.
  - destruct (String.eqb (ev_status e) "FAILURE") eqn:E2.
    + apply String.eqb_eq in E2. rewrite E2. simpl. lia.
    + destruct (String.eqb (ev_status e) "PENDING"); simpl; lia.
Qed.

Lemma count_all {A} (f : A -> bool) (l : list A) :
  count f l = Z.of_nat (List.length l) <-> forall x, In x l -> f x = true.
Proof.
  induction l as [|x l IH].
  - split; [intros _ x []|reflexivity].
  - rewrite count_add. simpl List.length.
    pose proof (count_le_length f l) as Hle.
    destruct (f x) eqn:E.
    + split.
      * intros H y [<-|Hy]; [exact E|]. apply (proj1 IH); [lia|exact Hy].
      * intros H.
        assert (count f l = Z.of_nat (List.length l))
          by (apply (proj2 IH); intros y Hy; apply H; right; exact Hy).
        lia.
    + split; [lia|]. intros H. rewrite (H x (or_introl eq_refl)) in E. discriminate E.
Qed.

Lemma count_filter_mono {A} (f p q : A -> bool) (l : list A) :
  (forall x, p x = true -> q x = true) ->
  count f (List.filter p l) <= count f (List.filter q l).
Proof.
  intros Hpq. induction l as [|x l IH]; simpl; [lia|].
  destruct (p x) eqn:Ep.
  - rewrite (Hpq x Ep). rewrite !count_add. lia.
  - destruct (q x); [rewrite count_add; destruct (f x); lia|exact IH].
Qed.

(** X16. The statistics of a webhook never count more than they should: the
    successes, failures and pending events add up to at most the total, and
    to exactly the total when every counted event has one of the three
    statuses; an event with any other status is in the total only. Events of
    other webhooks and events older than the window are not counted, and a
    longer window never gives smaller numbers. The call changes nothing. *)
Theorem event_stats_partition
    (w : world) (webhook : Webhook) (days : Z) :
  exists stats,
    WebhookEventService.get_event_stats webhook days w = (w, Ok stats)
    /\ 0 <= success stats /\ 0 <= failed stats /\ 0 <= pending stats
    /\ success stats + failed stats + pending stats <= total stats
    /\ (success stats + failed stats + pending stats = total stats <->
        forall e, In e (events w) ->
          ev_webhook e = Some (wh_id webhook) ->
          clock w - days * microseconds_per_day <= ev_created e ->
          ev_status e = "SUCCESS" \/ ev_status e = "FAILURE" \/ ev_status e = "PENDING")
    /\ total stats =
         count (fun e => match ev_webhook e with
                         | Some pk => (pk =? wh_id webhook)
                                      && (clock w - days * microseconds_per_day <=? ev_created e)
                         | None => false
                         end) (events w)
    /\ (forall longer stats',
          days <= longer ->
          WebhookEventService.get_event_stats webhook longer w = (w, Ok stats') ->
          total stats <= total stats' /\ success stats <= success stats'
          /\ failed stats <= failed stats' /\ pending stats <= pending stats').
Proof.
  rewrite get_event_stats_run. eexists. split; [reflexivity|].
  set (cutoff := clock w - days * microseconds_per_day).
  set (evs := WebhookEventService.events_since webhook cutoff w).
  cbn [success failed pending total stats_of].
  split; [apply count_nonneg|]. split; [apply count_nonneg|]. split; [apply count_nonneg|].
  rewrite three_statuses.
  split; [apply count_le_length|]. split; [|split].
  - rewrite count_all. unfold evs, WebhookEventService.events_since. split.
    + intros H e Hin Hwh Hcut.
      assert (He : In e (List.filter
                (fun e => match ev_webhook e with
                          | Some pk => (pk =? wh_id webhook) && (cutoff <=? ev_created e)
                          | None => false
                          end) (events w))).
      { apply filter_In. split; [exact Hin|]. rewrite Hwh, Z.eqb_refl. simpl.
        apply Z.leb_le. exact Hcut. }
      specialize (H e He).
      apply orb_prop in H as [H|H]; [apply orb_prop in H as [H|H]|];
        apply String.eqb_eq in H; auto.
    + intros H e He. apply filter_In in He as [Hin Hp].
      destruct (ev_webhook e) as [pk|] eqn:Hwh; [|discriminate Hp].
      apply andb_prop in Hp as [Hpk Hcut].
      apply Z.eqb_eq in Hpk. subst pk. apply Z.leb_le in Hcut.
      destruct (H e Hin Hwh Hcut) as [-> | [-> | ->]]; reflexivity.
  - reflexivity.
  - intros longer stats' Hle Hrun. rewrite get_event_stats_run in Hrun.
    injection Hrun as <-. cbn [success failed pending total stats_of].
    assert (Hmono : forall f,
              count f evs <=
              count f (WebhookEventService.events_since webhook
                         (clock w - longer * microseconds_per_day) w)).
    { intros f. unfold evs, WebhookEventService.events_since.
      apply count_filter_mono. intros e He.
      destruct (ev_webhook e) as [pk|]; [|discriminate He].
      apply andb_prop in He as [Hpk Hcut]. rewrite Hpk. simpl.
      apply Z.leb_le in Hcut. apply Z.leb_le.
      unfold cutoff, microseconds_per_day in *. lia. }
    split; [|split; [|split]]; try apply Hmono.
    pose proof (Hmono (fun _ => true)) as Ht. unfold count in Ht.
    rewrite !forallb_filter_id in Ht by (apply forallb_forall; intros; reflexivity).
    exact Ht.
Qed.

Lemma set_events_id (w : world) : set_events (events w) w = w.
Proof. destruct w; reflexivity. Qed.

Lemma filter_filter_same {A} (f : A -> bool) (l : list A) :
  List.filter f (List.filter f l) = List.filter f l.
Proof.
  apply forallb_filter_id, forallb_forall.
  intros x Hx. apply filter_In in Hx as [_ Hx]. exact Hx.
Qed.

Lemma count_filter_out {A} (f : A -> bool) (l : list A) :
  count f (List.filter (fun x => negb (f x)) l) = 0.
Proof. unfold count. rewrite filter_out_then_in. reflexivity. Qed.

Lemma length_filter_split {A} (f : A -> bool) (l : list A) :
  (List.length (List.filter f l) + List.length (List.filter (fun x => negb (f x)) l)
   = List.length l)%nat.
Proof.
  induction l as [|x l IH]; simpl; [reflexivity|].
  destruct (f x); simpl; lia.
Qed.

(** X17. [cleanup_old_events] deletes, for all webhooks at once, exactly the
    events created before [now - retention] and returns how many they were:
    the events that stay are those created at or after the cutoff, in their
    order, the count returned plus the events that stay is the number of
    events there were, and a second run right after deletes nothing and
    returns 0. The retention is the given number of days, or the configured
    one when no number, or the number 0, is given. *)
Theorem cleanup_deletes_exactly_the_old_events (w : world) (days : option Z) :
  let retention :=
    match days with
    | Some 0 | None => EVENTS_RETENTION_DAYS (wh_settings w)
    | Some d => d
    end in
  let cutoff := clock w - retention * microseconds_per_day in
  exists w' n,
    cleanup_old_events days w = (w', Ok n)
    /\ events w' = List.filter (fun e => cutoff <=? ev_created e) (events w)
    /\ n + Z.of_nat (List.length (events w')) = Z.of_nat (List.length (events w))
    /\ n = count (fun e => ev_created e <? cutoff) (events w)
    /\ (n = 0 -> w' = w)
    /\ cleanup_old_events days w' = (w', Ok 0)
    /\ webhooks w' = webhooks w /\ secrets w' = secrets w /\ queue w' = queue w.
Proof.
  intros retention cutoff.
  assert (Hret : retention =
            match days with
            | Some d => if d =? 0 then EVENTS_RETENTION_DAYS (wh_settings w) else d
            | None => EVENTS_RETENTION_DAYS (wh_settings w)
            end).
  { unfold retention. destruct days as [[|p|p]|]; reflexivity. }
  assert (Hfilter : forall l : list WebhookEvent,
            List.filter (fun e => negb (ev_created e <? cutoff)) l =
            List.filter (fun e => cutoff <=? ev_created e) l).
  { intros l. apply filter_ext. intros e.
    destruct (ev_created e <? cutoff) eqn:E1, (cutoff <=? ev_created e) eqn:E2;
      try reflexivity; lia. }
  assert (Hrun : forall w0, wh_settings w0 = wh_settings w -> clock w0 = clock w ->
            cleanup_old_events days w0 =
              (set_events (List.filter (fun e => negb (ev_created e <? cutoff)) (events w0)) w0,
               Ok (count (fun e => ev_created e <? cutoff) (events w0)))).
  { intros w0 Hs Hc. unfold cleanup_old_events, bind, get_settings, timezone_now, gets, modify, ret.
    rewrite Hs, Hc, <- Hret. reflexivity. }
  eexists _, _. split; [apply Hrun; reflexivity|].
  cbn [events set_events webhooks secrets queue].
  split; [apply Hfilter|]. split.
  { unfold count. rewrite <- Nat2Z.inj_add. f_equal.
    apply (length_filter_split (fun e => ev_created e <? cutoff)). }
  split; [reflexivity|]. split.
  { intros Hzero. unfold count in Hzero.
    assert (Hnil : List.filter (fun e => ev_created e <? cutoff) (events w) = []).
    { destruct (List.filter (fun e => ev_created e <? cutoff) (events w));
        [reflexivity|simpl in Hzero; lia]. }
    rewrite forallb_filter_id; [apply set_events_id|].
    apply forallb_forall. intros e He.
    rewrite (filter_nil_none _ _ e Hnil He). reflexivity. }
  split; [|repeat split; reflexivity].
  rewrite Hrun by reflexivity. cbn [events set_events].
  rewrite (filter_filter_same (fun e => negb (ev_created e <? cutoff))).
  rewrite (count_filter_out (fun e => ev_created e <? cutoff)). reflexivity.
Qed.

(** X18. For a webhook that the store holds, the statistics endpoint asked
    for 7 days and the health endpoint report the same counts and the same
    success rate; whatever the window, the statistics endpoint reports the
    counts of [get_event_stats], a rate of [0] when there is no event and
    changes nothing. For an unknown webhook both endpoints raise [Http404]. *)
Theorem stats_endpoint_agrees_with_health
    (round2 : float -> float) (w : world) (u : UUID) (h : Webhook) (days : Z)
    (Hrow : List.filter (fun x => uuid_eqb (wh_uuid x) u) (webhooks w) = [h]) :
  exists stats week health,
    WebhookController.get_webhook_stats round2 u days w = (w, Ok stats)
    /\ WebhookController.get_webhook_stats round2 u 7 w = (w, Ok week)
    /\ WebhookController.get_webhook_health round2 u w = (w, Ok health)
    /\ stats_total week = total (events_last_7_days health)
    /\ stats_success week = success (events_last_7_days health)
    /\ stats_failed week = failed (events_last_7_days health)
    /\ stats_pending week = pending (events_last_7_days health)
    /\ stats_success_rate week = health_success_rate health
    /\ (stats_total stats = 0 -> stats_success_rate stats = PInt 0)
    /\ (forall w0 : world,
          List.filter (fun x => uuid_eqb (wh_uuid x) u) (webhooks w0) = [] ->
          WebhookController.get_webhook_stats round2 u days w0 = (w0, Raise Http404)
          /\ WebhookController.get_webhook_health round2 u w0 = (w0, Raise Http404)).
Proof.
  assert (Hstats : forall d,
            WebhookController.get_webhook_stats round2 u d w =
              (w, Ok (let stats := stats_of (WebhookEventService.events_since h
                                               (clock w - d * microseconds_per_day) w) in
                      {| stats_total := total stats;
                         stats_success := success stats;
                         stats_failed := failed stats;
                         stats_pending := pending stats;
                         stats_success_rate := round_2 round2 (success_rate_of stats) |}))).
  { intros d. unfold WebhookController.get_webhook_stats.
    erewrite bind_ok by (apply get_webhook_found, Hrow).
    erewrite bind_ok by apply get_event_stats_run. reflexivity. }
  eexists _, _, _. split; [apply Hstats|]. split; [apply Hstats|]. split.
  { unfold WebhookController.get_webhook_health.
    erewrite bind_ok by (apply get_webhook_found, Hrow).
    unfold get_webhook_health.
    erewrite bind_ok by apply get_event_stats_run.
    unfold bind, gets, ret. reflexivity. }
  split; [reflexivity|]. split; [reflexivity|]. split; [reflexivity|].
  split; [reflexivity|]. split; [reflexivity|]. split.
  - cbv zeta. cbn [stats_total stats_success_rate]. intros Hzero.
    unfold success_rate_of. rewrite Hzero. reflexivity.
  - intros w0 Hnone. split.
    + unfold WebhookController.get_webhook_stats.
      apply bind_raise, get_webhook_missing, Hnone.
    + unfold WebhookController.get_webhook_health.
      apply bind_raise, get_webhook_missing, Hnone.
Qed.

Lemma stats_endpoint_agrees_with_health_witness :
  exists stats week health,
    WebhookController.get_webhook_stats (fun x => x) Shop.hook_uuid 30
      (Shop.live Shop.zero_repr) = (Shop.live Shop.zero_repr, Ok stats)
    /\ WebhookController.get_webhook_stats (fun x => x) Shop.hook_uuid 7
      (Shop.live Shop.zero_repr) = (Shop.live Shop.zero_repr, Ok week)
    /\ WebhookController.get_webhook_health (fun x => x) Shop.hook_uuid
      (Shop.live Shop.zero_repr) = (Shop.live Shop.zero_repr, Ok health)
    /\ stats_total week = total (events_last_7_days health)
    /\ stats_success week = success (events_last_7_days health)
    /\ stats_failed week = failed (events_last_7_days health)
    /\ stats_pending week = pending (events_last_7_days health)
    /\ stats_success_rate week = health_success_rate health
    /\ (stats_total stats = 0 -> stats_success_rate stats = PInt 0)
    /\ (forall w0 : world,
          List.filter (fun x => uuid_eqb (wh_uuid x) Shop.hook_uuid) (webhooks w0) = [] ->
          WebhookController.get_webhook_stats (fun x => x) Shop.hook_uuid 30 w0
            = (w0, Raise Http404)
          /\ WebhookController.get_webhook_health (fun x => x) Shop.hook_uuid w0
            = (w0, Raise Http404)).
Proof.
  apply (stats_endpoint_agrees_with_health (fun x => x) (Shop.live Shop.zero_repr)
           Shop.hook_uuid Shop.hook 30).
  reflexivity.
Defined.

(** ** Reconciling the topic catalog, again *)

Lemma add_new_stable (l : list string) (created_count : Z) (w : world) :
  (forall t, t ∈ l -> t ∈ topics w) ->
  Command.add_new l created_count w = (w, Ok created_count).
Proof.
  induction l as [|topic l IH]; intros Hl; [reflexivity|].
  cbn [Command.add_new]. unfold bind at 1. unfold gets at 1.
  rewrite bool_decide_eq_true_2 by (apply Hl; left).
  apply IH. intros t Ht. apply Hl. right. exact Ht.
Qed.

Lemma add_new_nodup (l : list string) (created_count : Z) (w w' : world) (n : Z) :
  NoDup (topics w) ->
  Command.add_new l created_count w = (w', Ok n) ->
  NoDup (topics w').
Proof.
  revert created_count w. induction l as [|topic l IH]; intros created_count w Hnd Hrun.
  - simpl in Hrun. unfold ret in Hrun. injection Hrun as <- _. exact Hnd.
  - cbn [Command.add_new] in Hrun. unfold bind at 1 in Hrun. unfold gets at 1 in Hrun.
    destruct (bool_decide (topic ∈ topics w)) eqn:E.
    + eapply IH; eassumption.
    + apply bool_decide_eq_false in E.
      unfold bind at 1 in Hrun. unfold modify at 1 in Hrun.
      eapply IH; [|exact Hrun]. cbn [topics set_topics].
      apply NoDup_app. split; [exact Hnd|]. split.
      * intros x Hx Hx'. apply list_elem_of_singleton in Hx'. subst x. contradiction.
      * apply NoDup_singleton.
Qed.

Lemma reconcile_run (w : world) (force : bool) :
  dom (TOPIC_REGISTRY w) <> (∅ : gset string) ->
  exists w' out,
    Command.handle force None w = (w', Ok out)
    /\ TOPIC_REGISTRY w' = TOPIC_REGISTRY w
    /\ (forall t, t ∈ topics w' <-> t ∈ dom (TOPIC_REGISTRY w))
    /\ (NoDup (topics w) -> NoDup (topics w'))
    /\ last out =
         Some ("Total webhook topics: " +:+ pretty (Z.of_nat (List.length (topics w')))).
Proof.
  intros Hbound.
  set (allowed := dom (TOPIC_REGISTRY w) : gset string).
  set (kept := List.filter (fun t => bool_decide (t ∈ allowed)) (topics w)).
  set (deleted_count := Z.of_nat (List.length (Command.obsolete allowed w))).
  assert (Hstep1 : exists w1 out1,
    (if 0 <? deleted_count then
       let! _ := Command.delete_obsolete allowed in
       ret ["Removed " +:+ pretty deleted_count +:+ " obsolete webhook topics."]
     else ret []) w = (w1, Ok out1)
    /\ TOPIC_REGISTRY w1 = TOPIC_REGISTRY w
    /\ (forall t, t ∈ topics w1 <-> t ∈ topics w /\ t ∈ allowed)
    /\ (NoDup (topics w) -> NoDup (topics w1))).
  { destruct (0 <? deleted_count) eqn:E.
    - eexists _, _. split; [reflexivity|]. split; [reflexivity|].
      cbn [topics set_webhooks set_topics]. split.
      + intros t. rewrite list_elem_of_In, filter_In, <- list_elem_of_In, bool_decide_eq_true.
        reflexivity.
      + intros Hnd. apply NoDup_ListNoDup, List.NoDup_filter, NoDup_ListNoDup, Hnd.
    - exists w. eexists. split; [reflexivity|]. split; [reflexivity|].
      split; [|auto].
      apply Z.ltb_ge in E. unfold deleted_count in E.
      assert (Hnil : Command.obsolete allowed w = []).
      { destruct (Command.obsolete allowed w); [reflexivity|simpl in E; lia]. }
      intros t. split; [|tauto]. intros Ht. split; [exact Ht|].
      apply list_elem_of_In in Ht.
      pose proof (filter_nil_none _ _ t Hnil Ht) as Hf. simpl in Hf.
      apply bool_decide_eq_false in Hf.
      destruct (decide (t ∈ allowed)); [assumption|contradiction]. }
  destruct Hstep1 as (w1 & out1 & Hrun1 & Hreg1 & Htop1 & Hnd1).
  destruct (add_new_run (elements allowed) 0 w1)
    as (w2 & n & Hrun2 & Hreg2 & _ & Hiff).
  exists w2. eexists. split.
  { unfold Command.handle. unfold bind at 1. unfold gets at 1. fold allowed.
    rewrite bool_decide_eq_false_2 by exact Hbound.
    rewrite (bind_ok _ _ w w deleted_count) by reflexivity.
    erewrite bind_ok by exact Hrun1.
    erewrite bind_ok by exact Hrun2.
    reflexivity. }
  split; [congruence|]. split; [|split].
  - intros t. rewrite Hiff, Htop1, elem_of_elements. tauto.
  - intros Hnd. eapply add_new_nodup; [apply Hnd1, Hnd|exact Hrun2].
  - rewrite last_app. destruct (0 <? n); reflexivity.
Qed.

Lemma handle_reconciled (w : world) (force : bool) :
  dom (TOPIC_REGISTRY w) <> (∅ : gset string) ->
  (forall t, t ∈ topics w <-> t ∈ dom (TOPIC_REGISTRY w)) ->
  Command.handle force None w =
    (w, Ok ["All webhook topics are up to date.";
            "Total webhook topics: " +:+ pretty (Z.of_nat (List.length (topics w)))]).
Proof.
  intros Hbound Hmirror.
  assert (Hnone : Command.obsolete (dom (TOPIC_REGISTRY w)) w = []).
  { unfold Command.obsolete.
    destruct (List.filter (fun t => bool_decide (t ∉ dom (TOPIC_REGISTRY w))) (topics w))
      as [|t l] eqn:E; [reflexivity|].
    assert (Ht : In t (List.filter (fun t => bool_decide (t ∉ dom (TOPIC_REGISTRY w)))
                         (topics w))) by (rewrite E; left; reflexivity).
    apply filter_In in Ht as [Hin Hout]. apply bool_decide_eq_true in Hout.
    exfalso. apply Hout, Hmirror, list_elem_of_In, Hin. }
  unfold Command.handle. unfold bind at 1. unfold gets at 1.
  rewrite bool_decide_eq_false_2 by exact Hbound.
  unfold bind at 1. unfold gets at 1. rewrite Hnone. simpl List.length.
  change (0 <? Z.of_nat 0) with false. cbv iota.
  unfold bind at 1. unfold ret at 1.
  erewrite bind_ok.
  2:{ apply add_new_stable. intros t Ht. apply Hmirror, elem_of_elements, Ht. }
  reflexivity.
Qed.

(** X19. Reconciliation is idempotent: after one run against a store that
    answers and a non-empty registry, a second run changes nothing, neither
    the catalog nor the subscriptions, and writes only that the topics are
    up to date and how many there are. *)
Theorem populate_is_idempotent
    (w : world) (force again : bool)
    (Hbound : dom (TOPIC_REGISTRY w) <> (∅ : gset string)) :
  exists w' out,
    Command.handle force None w = (w', Ok out)
    /\ Command.handle again None w' =
         (w', Ok ["All webhook topics are up to date.";
                  "Total webhook topics: " +:+ pretty (Z.of_nat (List.length (topics w')))]).
Proof.
  destruct (reconcile_run w force Hbound) as (w' & out & Hrun & Hreg & Hmirror & _).
  exists w', out. split; [exact Hrun|].
  apply handle_reconciled.
  - rewrite Hreg. exact Hbound.
  - intros t. rewrite Hreg. apply Hmirror.
Qed.

Lemma populate_is_idempotent_witness :
  exists w' out,
    Command.handle false None (Shop.live Shop.zero_repr) = (w', Ok out)
    /\ Command.handle true None w' =
         (w', Ok ["All webhook topics are up to date.";
                  "Total webhook topics: " +:+ pretty (Z.of_nat (List.length (topics w')))]).
Proof.
  apply (populate_is_idempotent (Shop.live Shop.zero_repr) false true).
  apply (proj1 (bool_decide_eq_false
                  (dom (TOPIC_REGISTRY (Shop.live Shop.zero_repr)) = (∅ : gset string)))).
  vm_compute. reflexivity.
Defined.

(** X20. Reconciliation makes no duplicate: on a catalog without repeated
    names, and a non-empty registry, the catalog afterwards has no repeated
    name and exactly as many rows as the registry has keys, and the last line
    written reports that number. *)
Theorem populate_counts_the_registry
    (w : world) (force : bool)
    (Hbound : dom (TOPIC_REGISTRY w) <> (∅ : gset string))
    (Hnodup : NoDup (topics w)) :
  exists w' out,
    Command.handle force None w = (w', Ok out)
    /\ NoDup (topics w')
    /\ List.length (topics w') = size (dom (TOPIC_REGISTRY w))
    /\ last out =
         Some ("Total webhook topics: "
               +:+ pretty (Z.of_nat (size (dom (TOPIC_REGISTRY w))))).
Proof.
  destruct (reconcile_run w force Hbound) as (w' & out & Hrun & Hreg & Hmirror & Hnd & Hlast).
  assert (Hlen : List.length (topics w') = size (dom (TOPIC_REGISTRY w))).
  { unfold size, set_size. simpl.
    apply Permutation_length, NoDup_Permutation.
    - apply Hnd, Hnodup.
    - apply NoDup_elements.
    - intros t. rewrite Hmirror, elem_of_elements. reflexivity. }
  exists w', out. split; [exact Hrun|]. split; [apply Hnd, Hnodup|].
  split; [exact Hlen|]. rewrite Hlast, Hlen. reflexivity.
Qed.

Lemma populate_counts_the_registry_witness :
  exists w' out,
    Command.handle false None (Shop.live Shop.zero_repr) = (w', Ok out)
    /\ NoDup (topics w')
    /\ List.length (topics w') = size (dom (TOPIC_REGISTRY (Shop.live Shop.zero_repr)))
    /\ last out =
         Some ("Total webhook topics: "
               +:+ pretty (Z.of_nat (size (dom (TOPIC_REGISTRY (Shop.live Shop.zero_repr)))))).
Proof.
  apply (populate_counts_the_registry (Shop.live Shop.zero_repr) false).
  - apply (proj1 (bool_decide_eq_false
                    (dom (TOPIC_REGISTRY (Shop.live Shop.zero_repr)) = (∅ : gset string)))).
    vm_compute. reflexivity.
  - apply (proj1 (bool_decide_eq_true (NoDup (topics (Shop.live Shop.zero_repr))))).
    vm_compute. reflexivity.
Defined.

(** X21. When the probe of the store fails, the routine never touches the
    world. Without [--force] a message that names a refused connection, an
    unresolved host name, a missing table or a missing relation is answered
    with one warning line and a normal return; with [--force], as with any
    other message, the error of the probe is raised again: the flag does not
    make the routine go on. *)
Theorem populate_on_a_failing_store (w : world) (force : bool) (ex : string) :
  exists r,
    Command.handle force (Some ex) w = (w, r)
    /\ (force = true -> r = Raise (OperationalError ex))
    /\ (r = Raise (OperationalError ex) \/ exists line, r = Ok [line])
    /\ (force = false ->
        Command.contains "Connection refused" ex = true
        \/ Command.contains "could not translate host name" ex = true
        \/ Command.contains "no such table" ex = true
        \/ (Command.contains "relation" ex = true
            /\ Command.contains "does not exist" ex = true) ->
        exists line, r = Ok [line])
    /\ (Command.contains "Connection refused" ex = false ->
        Command.contains "could not translate host name" ex = false ->
        Command.contains "no such table" ex = false ->
        Command.contains "relation" ex = false \/ Command.contains "does not exist" ex = false ->
        r = Raise (OperationalError ex)).
Proof.
  unfold Command.handle.
  destruct force; simpl.
  - eexists. split; [reflexivity|]. split; [reflexivity|]. split; [left; reflexivity|].
    split; [discriminate|]. reflexivity.
  - destruct (Command.contains "Connection refused" ex) eqn:E1.
    { eexists. split; [reflexivity|]. split; [discriminate|].
      split; [right; eauto|]. split; [eauto|discriminate]. }
    destruct (Command.contains "could not translate host name" ex) eqn:E2.
    { eexists. split; [reflexivity|]. split; [discriminate|].
      split; [right; eauto|]. split; [eauto|discriminate]. }
    destruct (Command.contains "no such table" ex) eqn:E3.
    { eexists. split; [reflexivity|]. split; [discriminate|].
      split; [right; eauto|]. split; [eauto|discriminate]. }
    destruct (Command.contains "relation" ex) eqn:E4;
      [destruct (Command.contains "does not exist" ex) eqn:E5|]; simpl.
    + eexists. split; [reflexivity|]. split; [discriminate|].
      split; [right; eauto|]. split; [eauto|].
      intros _ _ _ [H|H]; discriminate H.
    + eexists. split; [reflexivity|]. split; [discriminate|].
      split; [left; reflexivity|]. split; [|reflexivity].
      intros _ [H|[H|[H|[_ H]]]]; discriminate H.
    + eexists. split; [reflexivity|]. split; [discriminate|].
      split; [left; reflexivity|]. split; [|reflexivity].
      intros _ [H|[H|[H|[H _]]]]; discriminate H.
Qed.

(** ** The topic service *)

Lemma filter_eqb_nodup (name : string) (l : list string) :
  NoDup l ->
  List.filter (String.eqb name) l = if bool_decide (name ∈ l) then [name] else [].
Proof.
  induction 1 as [|x l Hx Hnd IH]; [reflexivity|]. simpl.
  destruct (String.eqb name x) eqn:E.
  - apply String.eqb_eq in E. subst x.
    rewrite bool_decide_eq_true_2 by left.
    rewrite IH, bool_decide_eq_false_2 by exact Hx. reflexivity.
  - apply String.eqb_neq in E. rewrite IH.
    destruct (decide (name ∈ l)) as [Hin|Hout].
    + rewrite !bool_decide_eq_true_2; [reflexivity|right; exact Hin|exact Hin].
    + rewrite !bool_decide_eq_false_2; [reflexivity| |exact Hout].
      intros Hin. apply elem_of_cons in Hin as [Heq|Hin]; [congruence|contradiction].
Qed.

(** X22. On a catalog without repeated names, [create_topic] is a
    get-or-create: it returns the name, the name is in the catalog
    afterwards, the catalog still has no repeated name, nothing changes when
    the name was there already, one row is appended when it was not, a second
    call changes nothing, and [get_topic_by_name] then finds the topic. For a
    name that the catalog lacks, [get_topic_by_name] raises [Http404]. *)
Theorem create_topic_is_get_or_create
    (w : world) (name : string)
    (Hnodup : NoDup (topics w)) :
  exists w',
    WebhookTopicService.create_topic name w = (w', Ok name)
    /\ name ∈ topics w'
    /\ NoDup (topics w')
    /\ (name ∈ topics w -> w' = w)
    /\ (name ∉ topics w -> topics w' = (topics w ++ [name])%list)
    /\ WebhookTopicService.create_topic name w' = (w', Ok name)
    /\ WebhookTopicService.get_topic_by_name name w' = (w', Ok name)
    /\ (name ∉ topics w ->
        WebhookTopicService.get_topic_by_name name w = (w, Raise Http404)).
Proof.
  assert (Hpresent : forall w0, NoDup (topics w0) -> name ∈ topics w0 ->
            WebhookTopicService.create_topic name w0 = (w0, Ok name)
            /\ WebhookTopicService.get_topic_by_name name w0 = (w0, Ok name)).
  { intros w0 Hnd Hin.
    unfold WebhookTopicService.create_topic, WebhookTopicService.get_topic_by_name.
    unfold bind, gets, lift.
    rewrite (filter_eqb_nodup name _ Hnd), bool_decide_eq_true_2 by exact Hin.
    split; reflexivity. }
  destruct (decide (name ∈ topics w)) as [Hin|Hout].
  - destruct (Hpresent w Hnodup Hin) as [Hc Hg].
    exists w. split; [exact Hc|]. split; [exact Hin|]. split; [exact Hnodup|].
    split; [reflexivity|]. split; [contradiction|]. split; [exact Hc|].
    split; [exact Hg|contradiction].
  - set (w' := set_topics (topics w ++ [name]) w).
    assert (Hnd' : NoDup (topics w')).
    { cbn [topics set_topics w']. apply NoDup_app. split; [exact Hnodup|]. split.
      - intros x Hx Hx'. apply list_elem_of_singleton in Hx'. subst x. contradiction.
      - apply NoDup_singleton. }
    assert (Hin' : name ∈ topics w').
    { cbn [topics set_topics w']. apply elem_of_app. right. left. }
    destruct (Hpresent w' Hnd' Hin') as [Hc Hg].
    exists w'. split.
    { unfold WebhookTopicService.create_topic, bind, gets.
      rewrite (filter_eqb_nodup name _ Hnodup), bool_decide_eq_false_2 by exact Hout.
      reflexivity. }
    split; [exact Hin'|]. split; [exact Hnd'|]. split; [contradiction|].
    split; [reflexivity|]. split; [exact Hc|]. split; [exact Hg|].
    intros _. unfold WebhookTopicService.get_topic_by_name, bind, gets, lift.
    rewrite (filter_eqb_nodup name _ Hnodup), bool_decide_eq_false_2 by exact Hout.
    reflexivity.
Qed.

Lemma create_topic_is_get_or_create_witness :
  exists w',
    WebhookTopicService.create_topic "order.paid" (Shop.live Shop.zero_repr) = (w', Ok "order.paid")
    /\ "order.paid" ∈ topics w'
    /\ NoDup (topics w')
    /\ ("order.paid" ∈ topics (Shop.live Shop.zero_repr) -> w' = Shop.live Shop.zero_repr)
    /\ ("order.paid" ∉ topics (Shop.live Shop.zero_repr) ->
        topics w' = (topics (Shop.live Shop.zero_repr) ++ ["order.paid"])%list)
    /\ WebhookTopicService.create_topic "order.paid" w' = (w', Ok "order.paid")
    /\ WebhookTopicService.get_topic_by_name "order.paid" w' = (w', Ok "order.paid")
    /\ ("order.paid" ∉ topics (Shop.live Shop.zero_repr) ->
        WebhookTopicService.get_topic_by_name "order.paid" (Shop.live Shop.zero_repr)
          = (Shop.live Shop.zero_repr, Raise Http404)).
Proof.
  apply (create_topic_is_get_or_create (Shop.live Shop.zero_repr) "order.paid").
  apply (proj1 (bool_decide_eq_true (NoDup (topics (Shop.live Shop.zero_repr))))).
  vm_compute. reflexivity.
Defined.

(** ** Bulk operations, again *)

Lemma update_with_invalid_topics (w : world) (u : UUID) (url : option string)
    (active : option bool) (names : list string) (t : string) :
  t ∈ names -> TOPIC_REGISTRY w !! t = None ->
  exists e, WebhookService.update_webhook u url (Some names) active w = (w, Raise e).
Proof.
  intros Hin Hnone.
  destruct (validate_topics_raises w names t Hin Hnone) as (msg & Hmsg).
  unfold WebhookService.update_webhook, WebhookService.get_webhook.
  unfold bind at 1. unfold bind at 1. unfold gets at 1. unfold lift.
  destruct (get_object_or_404
              (List.filter (fun x => uuid_eqb (wh_uuid x) u) (webhooks w))) as [h|e].
  - exists (ValidationError msg). unfold atomic.
    erewrite bind_raise by (apply bind_raise, Hmsg).
    rewrite rollback_same. reflexivity.
  - exists e. reflexivity.
Qed.

(** X23. A bulk update that names a topic which the registry does not bind
    updates nothing: every item fails (the unknown webhooks with [Http404],
    the known ones with [ValidationError]), the world is exactly as it was,
    URL and active flag included, and the response counts all items as failed;
    it says [success = True] only for an empty list of identifiers. *)
Theorem bulk_update_with_unregistered_topic
    (w : world) (webhook_ids : list UUID) (url : option string) (active : option bool)
    (names : list string) (t : string)
    (Hin : t ∈ names)
    (Hunbound : TOPIC_REGISTRY w !! t = None) :
  WebhookBulkController.bulk_update_webhooks webhook_ids (mkUpdate url (Some names) active) w =
    (w, Ok {| resp_success := match webhook_ids with [] => true | _ => false end;
              resp_message := "Updated 0 webhooks, "
                              +:+ pretty (Z.of_nat (List.length webhook_ids)) +:+ " failed";
              resp_webhook_id := None |}).
Proof.
  assert (Hloop : forall ids d f,
            WebhookBulkController.counting_loop
              (fun webhook_id =>
                 WebhookService.update_webhook webhook_id url (Some names) active)
              ids d f w = (w, Ok (d, f + Z.of_nat (List.length ids)))).
  { induction ids as [|u ids IH]; intros d f.
    - simpl. unfold ret. rewrite Z.add_0_r. reflexivity.
    - cbn [WebhookBulkController.counting_loop].
      destruct (update_with_invalid_topics w u url active names t Hin Hunbound) as (e & He).
      erewrite bind_ok.
      2:{ erewrite try_except_raise by (apply bind_raise, He). reflexivity. }
      cbv iota. rewrite IH. do 3 f_equal. simpl List.length. lia. }
  unfold WebhookBulkController.bulk_update_webhooks. cbn [upd_url upd_topics upd_active].
  erewrite bind_ok by apply Hloop.
  rewrite Z.add_0_l. unfold ret. do 3 f_equal.
  destruct webhook_ids; [reflexivity|]. simpl List.length.
  apply Z.eqb_neq. lia.
Qed.

Lemma bulk_update_with_unregistered_topic_witness :
  WebhookBulkController.bulk_update_webhooks [Shop.hook_uuid; Shop.other_uuid]
      (mkUpdate (Some "https://example.org/moved") (Some ["order.paid"]) (Some false))
      (Shop.live Shop.zero_repr) =
    (Shop.live Shop.zero_repr,
     Ok {| resp_success := false;
           resp_message := "Updated 0 webhooks, "
                           +:+ pretty (Z.of_nat (List.length [Shop.hook_uuid; Shop.other_uuid]))
                           +:+ " failed";
           resp_webhook_id := None |}).
Proof.
  apply (bulk_update_with_unregistered_topic (Shop.live Shop.zero_repr)
           [Shop.hook_uuid; Shop.other_uuid] (Some "https://example.org/moved") (Some false)
           ["order.paid"] "order.paid").
  - left.
  - reflexivity.
Defined.

Lemma nodup_map_filter {A B} (f : A -> B) (p : A -> bool) (l : list A) :
  List.NoDup (List.map f l) -> List.NoDup (List.map f (List.filter p l)).
Proof.
  induction l as [|x l IH]; simpl; [auto|].
  intros Hnd. inversion Hnd as [|? ? Hx Hl]; subst.
  destruct (p x); simpl; [|apply IH, Hl].
  constructor; [|apply IH, Hl].
  intros Hin. apply Hx. apply in_map_iff in Hin as (y & Hy & Hin).
  apply filter_In in Hin as [Hin _]. apply in_map_iff. exists y. split; assumption.
Qed.

Lemma unique_keys_filter (p : Webhook -> bool) (l : list Webhook) :
  unique_keys l -> unique_keys (List.filter p l).
Proof. intros [H1 H2]. split; apply nodup_map_filter; assumption. Qed.

Lemma nodup_map_inj {A B} (f : A -> B) (l : list A) (x y : A) :
  List.NoDup (List.map f l) -> In x l -> In y l -> f x = f y -> x = y.
Proof.
  induction l as [|z l IH]; simpl; [tauto|].
  intros Hnd Hx Hy Hf. inversion Hnd as [|? ? Hz Hl]; subst.
  destruct Hx as [<-|Hx], Hy as [<-|Hy].
  - reflexivity.
  - exfalso. apply Hz. rewrite Hf. apply in_map, Hy.
  - exfalso. apply Hz. rewrite <- Hf. apply in_map, Hx.
  - apply IH; assumption.
Qed.

Lemma set_webhooks_twice (l1 l2 : list Webhook) (w : world) :
  set_webhooks l2 (set_webhooks l1 w) = set_webhooks l2 w.
Proof. reflexivity. Qed.

(** One delete, on a table with unique keys: the rows with the identifier go,
    and it succeeds exactly when there was one. *)
Lemma delete_one (w : world) (u : UUID) :
  unique_keys (webhooks w) ->
  exists r,
    WebhookService.delete_webhook u w = (set_webhooks (without [u] (webhooks w)) w, r)
    /\ (is_ok r = true ->
        S (List.length (without [u] (webhooks w))) = List.length (webhooks w))
    /\ (is_ok r = false -> without [u] (webhooks w) = webhooks w).
Proof.
  intros [Hpk Huu].
  assert (Hwithout : without [u] (webhooks w) =
            List.filter (fun x => negb (uuid_eqb (wh_uuid x) u)) (webhooks w)).
  { unfold without. apply filter_ext. intros x. simpl. rewrite orb_false_r. reflexivity. }
  destruct (List.filter (fun x => uuid_eqb (wh_uuid x) u) (webhooks w)) as [|h [|h2 l]] eqn:Hrow.
  - assert (Hsame : without [u] (webhooks w) = webhooks w).
    { rewrite Hwithout. apply forallb_filter_id, forallb_forall. intros x Hx.
      rewrite (filter_nil_none _ _ x Hrow Hx). reflexivity. }
    exists (Raise Http404). split.
    + unfold WebhookService.delete_webhook.
      erewrite bind_raise by (apply get_webhook_missing, Hrow).
      rewrite Hsame, set_webhooks_id. reflexivity.
    + split; [discriminate|intros _; exact Hsame].
  - destruct (filter_singleton_in _ _ _ Hrow) as [Hin Hu].
    assert (Hsame : List.filter (fun x => negb (wh_id x =? wh_id h)) (webhooks w)
                    = without [u] (webhooks w)).
    { rewrite Hwithout. apply filter_ext_in. intros x Hx. f_equal.
      destruct (uuid_eqb (wh_uuid x) u) eqn:E.
      - assert (Hx' : In x (List.filter (fun x => uuid_eqb (wh_uuid x) u) (webhooks w)))
          by (apply filter_In; split; assumption).
        rewrite Hrow in Hx'. destruct Hx' as [<-|[]]. apply Z.eqb_refl.
      - apply Z.eqb_neq. intros Hid.
        assert (x = h) by (apply (nodup_map_inj wh_id (webhooks w)); assumption).
        subst x. congruence. }
    exists (Ok true). split.
    + unfold WebhookService.delete_webhook.
      erewrite bind_ok by (apply get_webhook_found, Hrow).
      unfold bind, modify, ret. rewrite Hsame. reflexivity.
    + split; [|discriminate]. intros _.
      pose proof (length_filter_split (fun x => uuid_eqb (wh_uuid x) u) (webhooks w)) as Hsplit.
      rewrite Hrow, <- Hwithout in Hsplit. simpl in Hsplit. lia.
  - exfalso.
    assert (H1 : In h (List.filter (fun x => uuid_eqb (wh_uuid x) u) (webhooks w)))
      by (rewrite Hrow; left; reflexivity).
    assert (H2 : In h2 (List.filter (fun x => uuid_eqb (wh_uuid x) u) (webhooks w)))
      by (rewrite Hrow; right; left; reflexivity).
    apply filter_In in H1 as [H1 E1]. apply filter_In in H2 as [H2 E2].
    apply String.eqb_eq in E1, E2.
    assert (Heq : uuid_str (wh_uuid h) = uuid_str (wh_uuid h2)) by congruence.
    assert (Hnd : List.NoDup (List.map (fun x => uuid_str (wh_uuid x))
                    (List.filter (fun x => uuid_eqb (wh_uuid x) u) (webhooks w))))
      by (apply nodup_map_filter, Huu).
    rewrite Hrow in Hnd. simpl in Hnd.
    inversion Hnd as [|? ? Hnotin _]; subst. apply Hnotin. left. symmetry. exact Heq.
Qed.

Lemma without_cons (u : UUID) (ids : list UUID) (l : list Webhook) :
  without ids (without [u] l) = without (u :: ids) l.
Proof.
  unfold without. induction l as [|x l IH]; simpl; [reflexivity|].
  rewrite orb_false_r.
  destruct (uuid_eqb (wh_uuid x) u); simpl; [exact IH|].
  destruct (existsb (uuid_eqb (wh_uuid x)) ids); simpl; [exact IH|].
  f_equal. exact IH.
Qed.

Lemma length_without_le (ids : list UUID) (l : list Webhook) :
  (List.length (without ids l) <= List.length l)%nat.
Proof.
  unfold without. induction l as [|x l IH]; simpl; [lia|].
  destruct (negb (existsb (uuid_eqb (wh_uuid x)) ids)); simpl; lia.
Qed.

Lemma bulk_delete_loop (ids : list UUID) (done_count failed_count : Z) (w : world) :
  unique_keys (webhooks w) ->
  WebhookBulkController.counting_loop WebhookService.delete_webhook ids
    done_count failed_count w =
    (set_webhooks (without ids (webhooks w)) w,
     Ok (done_count
         + (Z.of_nat (List.length (webhooks w))
            - Z.of_nat (List.length (without ids (webhooks w)))),
         failed_count
         + (Z.of_nat (List.length ids)
            - (Z.of_nat (List.length (webhooks w))
               - Z.of_nat (List.length (without ids (webhooks w))))))).
Proof.
  revert done_count failed_count w.
  induction ids as [|u ids IH]; intros d f w Hkeys.
  - simpl. unfold without. simpl.
    rewrite forallb_filter_id by (apply forallb_forall; intros; reflexivity).
    rewrite set_webhooks_id. unfold ret. do 3 f_equal; lia.
  - cbn [WebhookBulkController.counting_loop].
    destruct (delete_one w u Hkeys) as (r & Hrun & Hok & Hfail).
    assert (Hkeys1 : unique_keys (webhooks (set_webhooks (without [u] (webhooks w)) w))).
    { cbn [webhooks set_webhooks]. apply unique_keys_filter, Hkeys. }
    destruct r as [b|e].
    + erewrite bind_ok.
      2:{ erewrite try_except_ok; [reflexivity|].
          erewrite bind_ok by exact Hrun. reflexivity. }
      cbv iota. rewrite (IH _ _ _ Hkeys1).
      cbn [webhooks set_webhooks]. rewrite set_webhooks_twice, without_cons.
      specialize (Hok eq_refl).
      do 3 f_equal; simpl List.length; lia.
    + erewrite bind_ok.
      2:{ erewrite try_except_raise by (apply bind_raise, Hrun). reflexivity. }
      cbv iota. rewrite (IH _ _ _ Hkeys1).
      cbn [webhooks set_webhooks]. rewrite set_webhooks_twice, without_cons.
      specialize (Hfail eq_refl).
      rewrite <- (without_cons u ids), Hfail.
      do 3 f_equal; simpl List.length; lia.
Qed.

(** X24. On a table in which no key and no public identifier occurs twice, a
    bulk delete removes exactly the webhooks whose identifier is listed and
    no other webhook; it counts as deleted the rows that went and as failed
    every other item of the list (unknown identifiers, and repetitions of an
    identifier already deleted), and reports success exactly when no item
    failed. The table keeps unique keys. *)
Theorem bulk_delete_removes_the_listed
    (w : world) (webhook_ids : list UUID)
    (Hkeys : unique_keys (webhooks w)) :
  exists w' gone failed,
    WebhookBulkController.bulk_delete_webhooks webhook_ids w =
      (w', Ok {| resp_success := failed =? 0;
                 resp_message := "Deleted " +:+ pretty gone +:+ " webhooks, "
                                 +:+ pretty failed +:+ " failed";
                 resp_webhook_id := None |})
    /\ webhooks w' = without webhook_ids (webhooks w)
    /\ gone = Z.of_nat (List.length (webhooks w)) - Z.of_nat (List.length (webhooks w'))
    /\ gone + failed = Z.of_nat (List.length webhook_ids)
    /\ 0 <= gone
    /\ 0 <= failed
    /\ unique_keys (webhooks w')
    /\ (forall x, In x (webhooks w') <->
                  In x (webhooks w) /\ existsb (uuid_eqb (wh_uuid x)) webhook_ids = false).
Proof.
  set (gone := Z.of_nat (List.length (webhooks w))
               - Z.of_nat (List.length (without webhook_ids (webhooks w)))).
  set (failed := Z.of_nat (List.length webhook_ids) - gone).
  pose proof (bulk_delete_loop webhook_ids 0 0 w Hkeys) as Hloop.
  rewrite !Z.add_0_l in Hloop. fold gone in Hloop. fold failed in Hloop.
  exists (set_webhooks (without webhook_ids (webhooks w)) w), gone, failed.
  cbn [webhooks set_webhooks].
  split.
  { unfold WebhookBulkController.bulk_delete_webhooks.
    erewrite bind_ok by exact Hloop. reflexivity. }
  pose proof (length_without_le webhook_ids (webhooks w)) as Hle.
  split; [reflexivity|].
  split; [reflexivity|].
  split; [unfold failed; lia|].
  split; [unfold gone; lia|].
  split.
  { (* the counters of the loop never go below their start *)
    assert (Hcount : forall ids d f w0 w1 d1 f1,
              WebhookBulkController.counting_loop WebhookService.delete_webhook ids d f w0
                = (w1, Ok (d1, f1)) -> f <= f1).
    { induction ids as [|u ids IH]; intros d f w0 w1 d1 f1 Hrun.
      - simpl in Hrun. unfold ret in Hrun. injection Hrun as _ _ <-. lia.
      - cbn [WebhookBulkController.counting_loop] in Hrun.
        unfold bind at 1 in Hrun. unfold try_except in Hrun. unfold bind at 1 in Hrun.
        destruct (WebhookService.delete_webhook u w0) as [w2 [b|e]]; simpl in Hrun.
        + apply IH in Hrun. lia.
        + apply IH in Hrun. lia. }
    apply (Hcount _ _ _ _ _ _ _ Hloop). }
  split; [apply unique_keys_filter, Hkeys|].
  intros x. unfold without. rewrite filter_In, negb_true_iff. reflexivity.
Qed.

Lemma bulk_delete_removes_the_listed_witness :
  exists w' gone failed,
    WebhookBulkController.bulk_delete_webhooks
        [Shop.hook_uuid; Shop.other_uuid; Shop.hook_uuid] (Shop.live Shop.zero_repr) =
      (w', Ok {| resp_success := failed =? 0;
                 resp_message := "Deleted " +:+ pretty gone +:+ " webhooks, "
                                 +:+ pretty failed +:+ " failed";
                 resp_webhook_id := None |})
    /\ webhooks w' = without [Shop.hook_uuid; Shop.other_uuid; Shop.hook_uuid]
                       (webhooks (Shop.live Shop.zero_repr))
    /\ gone = Z.of_nat (List.length (webhooks (Shop.live Shop.zero_repr)))
              - Z.of_nat (List.length (webhooks w'))
    /\ gone + failed = Z.of_nat (List.length [Shop.hook_uuid; Shop.other_uuid; Shop.hook_uuid])
    /\ 0 <= gone
    /\ 0 <= failed
    /\ unique_keys (webhooks w')
    /\ (forall x, In x (webhooks w') <->
                  In x (webhooks (Shop.live Shop.zero_repr))
                  /\ existsb (uuid_eqb (wh_uuid x))
                       [Shop.hook_uuid; Shop.other_uuid; Shop.hook_uuid] = false).
Proof.
  apply (bulk_delete_removes_the_listed (Shop.live Shop.zero_repr)
           [Shop.hook_uuid; Shop.other_uuid; Shop.hook_uuid]).
  split; simpl; repeat constructor; simpl; tauto.
Defined.

(** ** The cleanup endpoint *)

(** X25. Through the endpoint, a number of days is checked before anything is
    deleted: a number below 1 or above 365 is refused and every event stays;
    a number from 1 to 365 is the retention that is applied, so the fallback
    of the service from [0] to the configured retention cannot be reached from
    the endpoint, and the response carries the number of events deleted. *)
Theorem cleanup_endpoint_checks_days (w : world) (d : Z) :
  let cutoff := clock w - d * microseconds_per_day in
  let n := count (fun e => ev_created e <? cutoff) (events w) in
  ((d < 1 \/ 365 < d) ->
     exists msg,
       WebhookEventController.cleanup_old_events (Some d) w = (w, Raise (ValidationError msg)))
  /\ (1 <= d <= 365 ->
        WebhookEventController.cleanup_old_events (Some d) w =
          (set_events (List.filter (fun e => cutoff <=? ev_created e) (events w)) w,
           Ok {| deleted_count := n;
                 cleanup_message :=
                   "Successfully cleaned up " +:+ pretty n +:+ " old webhook events" |})).
Proof.
  intros cutoff n. split.
  - intros Hout.
    unfold WebhookEventController.cleanup_old_events, WebhookCleanupSchema, bind, lift.
    destruct (d <? 1) eqn:E1; [eexists; reflexivity|].
    destruct (365 <? d) eqn:E2; [eexists; reflexivity|]. lia.
  - intros Hin.
    unfold WebhookEventController.cleanup_old_events, WebhookCleanupSchema, bind, lift.
    destruct (d <? 1) eqn:E1; [lia|].
    destruct (365 <? d) eqn:E2; [lia|].
    unfold cleanup_old_events, bind, get_settings, timezone_now, gets, modify, ret.
    cbv beta iota.
    destruct (d =? 0) eqn:E3; [lia|].
    simpl. fold cutoff. fold n. do 2 f_equal.
    apply filter_ext. intros e.
    destruct (ev_created e <? cutoff) eqn:E4, (cutoff <=? ev_created e) eqn:E5;
      try reflexivity; lia.
Qed.
